(** * PPO trainer: advantage estimation, clipped update and checkpointing

    A shallow embedding of [user_define/model.py] (the [ModelWrapper]
    container with its [Actor] and [Critic] networks) and of
    [Trainer/worker.py] (the [Worker] that delegates to it).

    Numbers: NumPy and torch floating-point arithmetic is idealised as
    arithmetic over the real numbers [R]; rounding, overflow and NaN are
    outside the model.  Arrays are one-dimensional lists, a batch of
    state vectors is a list of lists.  A Python exception is a result
    other than a value: [None] in the purely numerical code, a
    [Raise e] in the code that catches exceptions.

    [get_action] samples from the policy: the index that the sampler
    draws is an argument of its model.  The optimizer, the gradients
    that autograd computes, the topology adapter and the environment
    come from outside the repository and are the fields of the class
    [External]. *)

From Stdlib Require Import Reals Lra Lia.
From stdpp Require Import base option list strings gmap.

#[local] Open Scope R_scope.

(** ** NumPy arrays (torch tensors follow the same rules) *)

Module np.

(** A one-dimensional array of floats. *)
Abbreviation ndarray := (list R).

(** [np.zeros_like(a)] *)
Definition zeros_like (a : ndarray) : ndarray := replicate (length a) 0.

(** Broadcasting of two one-dimensional operands: elementwise on equal
    shapes, an operand of length one is stretched to the other's shape,
    anything else raises [ValueError]. *)
Definition broadcast_with {A B C : Type} (f : A → B → C)
    (a : list A) (b : list B) : option (list C) :=
  if decide (length a = length b) then Some (zip_with f a b)
  else match a, b with
       | [x], _ => Some (map (f x) b)
       | _, [y] => Some (map (λ x, f x y) a)
       | _, _ => None
       end.

Definition add : ndarray → ndarray → option ndarray := broadcast_with Rplus.
Definition sub : ndarray → ndarray → option ndarray := broadcast_with Rminus.
Definition mul : ndarray → ndarray → option ndarray := broadcast_with Rmult.

(** Scalar with array: [c * a], [c - a], [a - c], [a / c]. *)
Definition scalar_mul (c : R) (a : ndarray) : ndarray := map (Rmult c) a.
Definition scalar_rsub (c : R) (a : ndarray) : ndarray := map (Rminus c) a.
Definition sub_scalar (a : ndarray) (c : R) : ndarray := map (λ x, x - c) a.
Definition div_scalar (a : ndarray) (c : R) : ndarray := map (λ x, x / c) a.

Definition sum (a : ndarray) : R := foldr Rplus 0 a.

(** [a.mean()] *)
Definition mean (a : ndarray) : R := sum a / INR (length a).

(** [a.std()]: the population standard deviation (ddof = 0). *)
Definition std (a : ndarray) : R :=
  sqrt (mean (map (λ x, (x - mean a) * (x - mean a)) a)).

End np.

(** ** Control flow *)

(** [for i in idx: s = body(i, s)], where the body may raise. *)
Fixpoint for_each {S : Type} (body : nat → S → option S)
    (idx : list nat) (s : S) : option S :=
  match idx with
  | [] => Some s
  | i :: rest => s' ← body i s; for_each body rest s'
  end.

(** [reversed(range(n))] *)
Definition reversed_range (n : nat) : list nat := reverse (seq 0 n).

(** ** Configuration: [config["MODEL"]] *)

Record Config := {
  NUM_STATE : nat;
  NUM_ACTION : nat;
  GAMMA : R;
  LAMBDA : R;
  EPS_CLIP : R
}.

(** ** Networks: [Actor], [Critic] and what torch keeps for them *)

Module nn.

(** A parameter tensor: its sizes and its storage in row-major order. *)
Record Tensor := { shape : list nat; data : list R }.

Record Linear := { weight : Tensor; bias : Tensor }.

Definition dot (u v : list R) : R := np.sum (zip_with Rmult u v).

(** Row [j] of a matrix with [n] columns. *)
Definition row (t : Tensor) (n j : nat) : list R :=
  take n (drop (j * n) (data t)).

(** [nn.Linear]: [y = x W^T + b]; a wrong input width raises. *)
Definition Linear_forward (l : Linear) (x : list R) : option (list R) :=
  match shape (weight l) with
  | [out; inp] =>
      if decide (length x = inp)
      then Some (map (λ j, dot (row (weight l) inp j) x
                           + default 0 (data (bias l) !! j)) (seq 0 out))
      else None
  | _ => None
  end.

(** [nn.ReLU] *)
Definition ReLU (x : list R) : list R := map (Rmax 0) x.

(** [nn.Sequential(Linear, ReLU, Linear, ReLU, Linear)]: the children
    are numbered 0 to 4 and only 0, 2 and 4 have parameters. *)
Record Sequential := { fc0 : Linear; fc2 : Linear; fc4 : Linear }.

Definition Sequential_forward (fc : Sequential) (x : list R)
    : option (list R) :=
  h1 ← Linear_forward (fc0 fc) x;
  h2 ← Linear_forward (fc2 fc) (ReLU h1);
  Linear_forward (fc4 fc) (ReLU h2).

(** What a freshly constructed layer takes from the random initialiser. *)
Record Init := {
  w0 : list R; b0 : list R;
  w2 : list R; b2 : list R;
  w4 : list R; b4 : list R
}.

(** The [fc] built by [Actor.__init__] and [Critic.__init__]: widths
    [d_in], 64, 64, [d_out]. *)
Definition mlp (d_in d_out : nat) (init : Init) : Sequential :=
  {| fc0 := {| weight := {| shape := [64; d_in]%nat; data := w0 init |};
               bias := {| shape := [64%nat]; data := b0 init |} |};
     fc2 := {| weight := {| shape := [64; 64]%nat; data := w2 init |};
               bias := {| shape := [64%nat]; data := b2 init |} |};
     fc4 := {| weight := {| shape := [d_out; 64]%nat; data := w4 init |};
               bias := {| shape := [d_out]; data := b4 init |} |} |}.

(** [Actor(state_dim, action_dim)] and [Critic(state_dim)] *)
Definition Actor (state_dim action_dim : nat) (init : Init) : Sequential :=
  mlp state_dim action_dim init.
Definition Critic (state_dim : nat) (init : Init) : Sequential :=
  mlp state_dim 1 init.

(** [Categorical(logits=...)] for one state, and its [log_prob]: the
    logit of the action minus the log of the sum of the exponentials;
    an action outside the support raises. *)
Record Categorical := { logits : list R }.

Definition log_prob (dist : Categorical) (action : nat) : option R :=
  l ← logits dist !! action;
  Some (l - ln (np.sum (map exp (logits dist)))).

(** [Actor.forward] and [Critic.forward] on one state vector. *)
Definition Actor_forward (fc : Sequential) (x : list R)
    : option Categorical :=
  l ← Sequential_forward fc x; Some {| logits := l |}.

Definition Critic_forward (fc : Sequential) (x : list R)
    : option (list R) :=
  Sequential_forward fc x.

(** The sizes of the six parameter tensors, in [state_dict] order. *)
Definition shapes (fc : Sequential) : list (list nat) :=
  [shape (weight (fc0 fc)); shape (bias (fc0 fc));
   shape (weight (fc2 fc)); shape (bias (fc2 fc));
   shape (weight (fc4 fc)); shape (bias (fc4 fc))].

(** *** [state_dict] and [load_state_dict] *)

Definition parameter_names : list string :=
  ["fc.0.weight"; "fc.0.bias"; "fc.2.weight"; "fc.2.bias";
   "fc.4.weight"; "fc.4.bias"]%string.

Definition named_parameters (fc : Sequential) : list (string * Tensor) :=
  [("fc.0.weight"%string, weight (fc0 fc)); ("fc.0.bias"%string, bias (fc0 fc));
   ("fc.2.weight"%string, weight (fc2 fc)); ("fc.2.bias"%string, bias (fc2 fc));
   ("fc.4.weight"%string, weight (fc4 fc)); ("fc.4.bias"%string, bias (fc4 fc))].

(** [state_dict()]; every key carries the [prefix] of the module the
    call was made on. *)
Definition state_dict (prefix : string) (fc : Sequential)
    : gmap string Tensor :=
  list_to_map (map (λ kv, (String.append prefix kv.1, kv.2))
                   (named_parameters fc)).

(** One parameter of [load_state_dict]: copied in place when the key is
    present with the same sizes, reported otherwise. *)
Definition load_tensor (sd : gmap string Tensor) (key : string)
    (p : Tensor) : Tensor * bool :=
  match sd !! key with
  | Some t =>
      if decide (shape t = shape p)
      then ({| shape := shape p; data := data t |}, true)
      else (p, false)
  | None => (p, false)
  end.

(** [load_state_dict(sd)] with [strict=True]: the network as it stands
    when the call ends, and whether the call ends normally.  It raises
    [RuntimeError] on a missing key, an unexpected key or a size
    mismatch, after the parameters that do match have been copied. *)
Definition load_state_dict (prefix : string) (fc : Sequential)
    (sd : gmap string Tensor) : Sequential * bool :=
  let key n := String.append prefix n in
  let '(w0', k0) := load_tensor sd (key "fc.0.weight"%string) (weight (fc0 fc)) in
  let '(b0', k1) := load_tensor sd (key "fc.0.bias"%string) (bias (fc0 fc)) in
  let '(w2', k2) := load_tensor sd (key "fc.2.weight"%string) (weight (fc2 fc)) in
  let '(b2', k3) := load_tensor sd (key "fc.2.bias"%string) (bias (fc2 fc)) in
  let '(w4', k4) := load_tensor sd (key "fc.4.weight"%string) (weight (fc4 fc)) in
  let '(b4', k5) := load_tensor sd (key "fc.4.bias"%string) (bias (fc4 fc)) in
  let expected : gset string := list_to_set (map key parameter_names) in
  ({| fc0 := {| weight := w0'; bias := b0' |};
      fc2 := {| weight := w2'; bias := b2' |};
      fc4 := {| weight := w4'; bias := b4' |} |},
   k0 && k1 && k2 && k3 && k4 && k5 && bool_decide (dom sd ⊆ expected)).

(** *** A network as the container holds it *)

(** Either the network itself or the wrapper that a distributed
    execution layer puts around it; the wrapper keeps the network in its
    attribute [module]. *)
Inductive Module_ :=
  | Plain (net : Sequential)
  | DistributedDataParallel (module : Sequential).

(** [getattr(m, "module", m)] *)
Definition getattr_module (m : Module_) : Sequential :=
  match m with
  | Plain net => net
  | DistributedDataParallel module => module
  end.

(** The prefix of the keys of [m.state_dict()]. *)
Definition key_prefix (m : Module_) : string :=
  match m with
  | Plain _ => ""%string
  | DistributedDataParallel _ => "module."%string
  end.

(** [m.state_dict()] *)
Definition Module_state_dict (m : Module_) : gmap string Tensor :=
  state_dict (key_prefix m) (getattr_module m).

(** [m.load_state_dict(sd)] *)
Definition Module_load_state_dict (m : Module_) (sd : gmap string Tensor)
    : Module_ * bool :=
  let '(net, ok) := load_state_dict (key_prefix m) (getattr_module m) sd in
  (match m with
   | Plain _ => Plain net
   | DistributedDataParallel _ => DistributedDataParallel net
   end, ok).

(** [m(batch)]: the forward pass on every row of the batch; the wrapper
    forwards to the network it wraps. *)
Definition call_critic (m : Module_) (batch : list (list R))
    : option (list (list R)) :=
  mapM (M := option) (Critic_forward (getattr_module m)) batch.

(** [Actor.forward] hands the logits of the whole batch to one
    [Categorical], whose constructor validates them; on a batch with no
    row the validation cannot reshape the empty logits and raises
    [RuntimeError]. *)
Definition call_actor (m : Module_) (batch : list (list R))
    : option (list Categorical) :=
  match batch with
  | [] => None
  | _ :: _ => mapM (M := option) (Actor_forward (getattr_module m)) batch
  end.

(** [t.view(-1)] on a two-dimensional result *)
Definition view_flat (t : list (list R)) : list R := concat t.

(** [dist.log_prob(actions)] on a batch of distributions *)
Definition log_prob_rows (dists : list Categorical) (actions : list nat)
    : option (list R) :=
  per_row ← np.broadcast_with log_prob dists actions;
  mapM (M := option) (λ r : option R, r) per_row.

End nn.

(** ** Exceptions *)

Inductive exception :=
  | FileNotFoundError
  | KeyError (key : string)
  | RuntimeError
  | UnpicklingError.

Inductive result (A : Type) :=
  | Ok (a : A)
  | Raise (e : exception).

Arguments Ok {A} a.
Arguments Raise {A} e.

(** Code that updates a state [S] and may raise: the state as the code
    leaves it, together with the value or the exception. *)
Definition M (S A : Type) : Type := S → S * result A.

#[global] Instance M_ret {S} : MRet (M S) := λ A a s, (s, Ok a).

#[global] Instance M_bind {S} : MBind (M S) := λ A B k m s,
  match m s with
  | (s', Ok a) => k a s'
  | (s', Raise e) => (s', Raise e)
  end.

(** A computation that reads no state. *)
Definition lift {S A} (r : result A) : M S A := λ s, (s, r).

(** [try: body except ...: handler]; [handler e] is [None] for an
    exception that no [except] clause names. *)
Definition try_except {S A} (body : M S A)
    (handler : exception → option (M S A)) : M S A := λ s,
  match body s with
  | (s', Raise e) =>
      match handler e with
      | Some h => h s'
      | None => (s', Raise e)
      end
  | normal => normal
  end.

(** [d[key]] *)
Definition getitem {V} (d : gmap string V) (key : string) : result V :=
  match d !! key with
  | Some v => Ok v
  | None => Raise (KeyError key)
  end.

(** ** Checkpoint files *)

(** What [torch.load] finds at a path: a pickled mapping from names to
    state dicts, or bytes that do not unpickle. *)
Inductive file :=
  | Pickle (blob : gmap string (gmap string nn.Tensor))
  | Garbage.

(** [torch.load(path, map_location=..., weights_only=True)] *)
Definition torch_load (fs : gmap string file) (path : string)
    : result (gmap string (gmap string nn.Tensor)) :=
  match fs !! path with
  | None => Raise FileNotFoundError
  | Some Garbage => Raise UnpicklingError
  | Some (Pickle blob) => Ok blob
  end.

(** [torch.save(blob, path)] *)
Definition torch_save (blob : gmap string (gmap string nn.Tensor))
    (path : string) (fs : gmap string file) : gmap string file :=
  <[path := Pickle blob]> fs.

(** ** Tensors inside a training step *)

Module torch.

(** The two networks whose parameters are the leaves of every graph. *)
Inductive role := actor | critic.

(** The two scalars on which [backward] is called. *)
Inductive objective := actor_loss | critic_loss.

(** Which parameters the autograd graph of a tensor reaches. *)
Record Graph := { reaches_actor : bool; reaches_critic : bool }.

Definition detached : Graph :=
  {| reaches_actor := false; reaches_critic := false |}.

Definition leaf (r : role) : Graph :=
  match r with
  | actor => {| reaches_actor := true; reaches_critic := false |}
  | critic => {| reaches_actor := false; reaches_critic := true |}
  end.

Definition join (g h : Graph) : Graph :=
  {| reaches_actor := reaches_actor g || reaches_actor h;
     reaches_critic := reaches_critic g || reaches_critic h |}.

Definition reaches (g : Graph) (r : role) : bool :=
  match r with
  | actor => reaches_actor g
  | critic => reaches_critic g
  end.

Record Tensor := { val : list R; graph : Graph }.
Record Scalar := { item : R; graph_of : Graph }.

(** A tensor made from data: no graph behind it. *)
Definition tensor (v : list R) : Tensor := {| val := v; graph := detached |}.

Definition lift2 (f : R → R → R) (a b : Tensor) : option Tensor :=
  v ← np.broadcast_with f (val a) (val b);
  Some {| val := v; graph := join (graph a) (graph b) |}.

Definition sub := lift2 Rminus.
Definition mul := lift2 Rmult.
Definition min := lift2 Rmin.

Definition exp (a : Tensor) : Tensor :=
  {| val := map Rtrigo_def.exp (val a); graph := graph a |}.

(** [torch.clamp(a, lo, hi)] *)
Definition clamp (a : Tensor) (lo hi : R) : Tensor :=
  {| val := map (λ x, Rmin (Rmax x lo) hi) (val a); graph := graph a |}.

Definition mean (a : Tensor) : Scalar :=
  {| item := np.mean (val a); graph_of := graph a |}.

Definition neg (s : Scalar) : Scalar :=
  {| item := - item s; graph_of := graph_of s |}.

Definition add_scalars (s u : Scalar) : Scalar :=
  {| item := item s + item u; graph_of := join (graph_of s) (graph_of u) |}.

(** [F.mse_loss(input, target)] *)
Definition mse_loss (input target : Tensor) : option Scalar :=
  d ← sub input target;
  sq ← mul d d;
  Some (mean sq).

End torch.

(** ** What the container takes from outside the repository *)

(** What one forward pass of [train_model] has seen: the parameters of
    both networks as they were and the batch. *)
Record Forward := {
  seen_actor : nn.Sequential;
  seen_critic : nn.Sequential;
  seen_state : list (list R);
  seen_action : list nat;
  seen_log_prob : list R;
  seen_advantage : list R;
  seen_td_target : list R
}.

Class External := {
  (** [optim.Adam]: its state, a new one for a learning rate, and one
      [step] on a network's parameters given their gradients. *)
  Adam : Type;
  Adam_new : R → Adam;
  Adam_step : Adam → nn.Sequential → nn.Sequential → nn.Sequential * Adam;
  (** The gradient of an objective with respect to the parameters of
      one network, at a forward pass. *)
  autograd : torch.objective → torch.role → Forward → nn.Sequential;
  (** [ray.train.torch.prepare_model] *)
  ray_prepare_model : nn.Module_ → nn.Module_;
  (** [user_define.environment.EnvWrapper] *)
  EnvWrapper : Type;
  EnvWrapper_new : Config → EnvWrapper
}.

(** ** The container: [ModelWrapper] *)

(** The dictionary returned by [preprocess_data]. *)
Record AdvantageOutput := {
  advantage : np.ndarray;
  td_target : np.ndarray
}.

(** The dictionary that [train_model] is given under the name
    [preprocess_data]: the same two keys, each holding a torch tensor.
    Lines 100 to 104 multiply the entries with tensors that require
    grad and call [view] on one of them, which the NumPy arrays of an
    [AdvantageOutput] do not support: what [preprocess_data] returns is
    not of this type. *)
Module AdvantageTensors.

Record t := {
  advantage : torch.Tensor;
  td_target : torch.Tensor
}.

End AdvantageTensors.

(** The dictionary returned by [train_model]. *)
Record Losses := {
  loss : torch.Scalar;
  critic_loss : torch.Scalar;
  actor_loss : torch.Scalar
}.

Module ModelWrapper.

Section WithExternal.

Context `{External}.

(** [self]; [actor_grad] and [critic_grad] are the [.grad] buffers of
    the parameters of [self.actor] and [self.critic]. *)
Record t := {
  config : Config;
  actor : nn.Module_;
  critic : nn.Module_;
  actor_grad : option nn.Sequential;
  critic_grad : option nn.Sequential;
  actor_optimizer : Adam;
  critic_optimizer : Adam
}.

Definition set_actor (m : nn.Module_) (self : t) : t :=
  {| config := config self; actor := m; critic := critic self;
     actor_grad := actor_grad self; critic_grad := critic_grad self;
     actor_optimizer := actor_optimizer self;
     critic_optimizer := critic_optimizer self |}.

Definition set_critic (m : nn.Module_) (self : t) : t :=
  {| config := config self; actor := actor self; critic := m;
     actor_grad := actor_grad self; critic_grad := critic_grad self;
     actor_optimizer := actor_optimizer self;
     critic_optimizer := critic_optimizer self |}.

Definition set_actor_grad (g : option nn.Sequential) (self : t) : t :=
  {| config := config self; actor := actor self; critic := critic self;
     actor_grad := g; critic_grad := critic_grad self;
     actor_optimizer := actor_optimizer self;
     critic_optimizer := critic_optimizer self |}.

Definition set_critic_grad (g : option nn.Sequential) (self : t) : t :=
  {| config := config self; actor := actor self; critic := critic self;
     actor_grad := actor_grad self; critic_grad := g;
     actor_optimizer := actor_optimizer self;
     critic_optimizer := critic_optimizer self |}.

Definition set_actor_optimizer (o : Adam) (self : t) : t :=
  {| config := config self; actor := actor self; critic := critic self;
     actor_grad := actor_grad self; critic_grad := critic_grad self;
     actor_optimizer := o; critic_optimizer := critic_optimizer self |}.

Definition set_critic_optimizer (o : Adam) (self : t) : t :=
  {| config := config self; actor := actor self; critic := critic self;
     actor_grad := actor_grad self; critic_grad := critic_grad self;
     actor_optimizer := actor_optimizer self; critic_optimizer := o |}.

(** [get_model]: a dictionary, in insertion order. *)
Definition get_model (self : t) : list (string * nn.Module_) :=
  [("actor"%string, actor self); ("critic"%string, critic self)].

(** [save_model] *)
Definition save_model (self : t) (model_path : string)
    (fs : gmap string file) : gmap string file :=
  let actor := nn.getattr_module (actor self) in
  let critic := nn.getattr_module (critic self) in
  torch_save
    (<["actor"%string := nn.state_dict "" actor]>
       (<["critic"%string := nn.state_dict "" critic]> ∅))
    model_path fs.

(** *** [load_model]

    The state it runs on is [self] together with what has been printed. *)

Definition print (line : string) : M (t * list string) unit :=
  λ s, ((s.1, s.2 ++ [line]), Ok ()).

(** [self.actor.load_state_dict(sd)] and [self.critic.load_state_dict(sd)] *)
Definition actor_load_state_dict (sd : gmap string nn.Tensor)
    : M (t * list string) unit := λ s,
  let '(m, ok) := nn.Module_load_state_dict (actor s.1) sd in
  ((set_actor m s.1, s.2), if ok then Ok () else Raise RuntimeError).

Definition critic_load_state_dict (sd : gmap string nn.Tensor)
    : M (t * list string) unit := λ s,
  let '(m, ok) := nn.Module_load_state_dict (critic s.1) sd in
  ((set_critic m s.1, s.2), if ok then Ok () else Raise RuntimeError).

Definition load_model (fs : gmap string file) (model_path : string)
    : M (t * list string) unit :=
  try_except
    (blob ← lift (torch_load fs model_path);
     sd ← lift (getitem blob "actor");
     actor_load_state_dict sd;;
     blob ← lift (torch_load fs model_path);
     sd ← lift (getitem blob "critic");
     critic_load_state_dict sd;;
     print ("Model loaded successfully at " +:+ model_path +:+ "."))
    (λ e, match e with
          | FileNotFoundError =>
              Some (print ("Model file not found at " +:+ model_path +:+ "."))
          | _ => None
          end).

(** [self] when [__init__] calls [load_model]: the two networks hold
    their random initial weights [init_actor] and [init_critic].  The
    optimizers are assigned after [load_model] has returned; it does not
    read them. *)
Definition blank (init_actor init_critic : nn.Init) (learning_rate : R)
    (config : Config) : t :=
  {| config := config;
     actor := nn.Plain (nn.Actor (NUM_STATE config) (NUM_ACTION config)
                                 init_actor);
     critic := nn.Plain (nn.Critic (NUM_STATE config) init_critic);
     actor_grad := None; critic_grad := None;
     actor_optimizer := Adam_new learning_rate;
     critic_optimizer := Adam_new learning_rate |}.

(** [ModelWrapper(model_path, learning_rate, config)] *)
Definition __init__ (init_actor init_critic : nn.Init)
    (fs : gmap string file) (printed : list string)
    (model_path : string) (learning_rate : R) (config : Config)
    : list string * result t :=
  let self := blank init_actor init_critic learning_rate config in
  match load_model fs model_path (self, printed) with
  | ((self, printed), Ok _) =>
      let self := set_actor_optimizer (Adam_new learning_rate) self in
      let self := set_critic_optimizer (Adam_new learning_rate) self in
      (printed, Ok self)
  | ((_, printed), Raise e) => (printed, Raise e)
  end.

(** *** [get_action]

    [drawn] is the index that [dist.sample()] returns; the call reads
    [self] and changes nothing. *)
Definition get_action (self : t) (state : list R) (drawn : nat)
    : option (nat * R) :=
  dist ← nn.Actor_forward (nn.getattr_module (actor self)) state;
  let action := drawn in
  log_prob ← nn.log_prob dist action;
  Some (action, log_prob).

(** *** [preprocess_data] *)

(** [delta = rewards + GAMMA * next_values * (1 - dones) - values] *)
Definition td_residual (config : Config)
    (rewards dones values next_values : np.ndarray) : option np.ndarray :=
  bootstrap ← np.mul (np.scalar_mul (GAMMA config) next_values)
                      (np.scalar_rsub 1 dones);
  target ← np.add rewards bootstrap;
  np.sub target values.

(** The body of the loop over [reversed(range(len(rewards)))]; the loop
    state is the running [gae] and the array [advantages], which has the
    length of [rewards], so that the index [i] is always inside it. *)
Definition gae_body (config : Config) (delta dones : np.ndarray) (i : nat)
    (st : R * np.ndarray) : option (R * np.ndarray) :=
  let '(gae, advantages) := st in
  d ← delta !! i;
  done ← dones !! i;
  let gae := d + GAMMA config * LAMBDA config * (1 - done) * gae in
  Some (gae, <[i := gae]> advantages).

(** [advantages] as it stands when the loop ends, before it is
    normalised. *)
Definition gae_advantages (config : Config)
    (rewards dones values next_values : np.ndarray) : option np.ndarray :=
  let advantages := np.zeros_like rewards in
  delta ← td_residual config rewards dones values next_values;
  let gae := 0.0 in
  st ← for_each (gae_body config delta dones)
                (reversed_range (length rewards)) (gae, advantages);
  Some st.2.

(** [std], as the branch on [advantages.shape[0] > 1] sets it.  The sum
    is the exact one; in [float32] the term [1e-8] is below the spacing
    of the floats near any deviation of ordinary size, and the rounded
    sum is then the deviation itself. *)
Definition advantage_std (advantages : np.ndarray) : R :=
  if decide (1 < length advantages)%nat
  then np.std advantages + 1e-8
  else 1.0.

(** [(advantages - advantages.mean()) / std] *)
Definition normalize (advantages : np.ndarray) : np.ndarray :=
  np.div_scalar (np.sub_scalar advantages (np.mean advantages))
                (advantage_std advantages).

Definition preprocess_data (self : t) (states next_states : list (list R))
    (actions : list nat) (rewards log_probs dones : np.ndarray)
    : option AdvantageOutput :=
  values ← nn.view_flat <$> nn.call_critic (critic self) states;
  next_values ← nn.view_flat <$> nn.call_critic (critic self) next_states;
  advantages ← gae_advantages (config self) rewards dones values next_values;
  let normalized_advantage := normalize advantages in
  td_target ← np.add normalized_advantage values;
  Some {| advantage := normalized_advantage; td_target := td_target |}.

(** *** [train_model] *)

(** The attributes of [self] that belong to one network. *)
Definition module_of (r : torch.role) (self : t) : nn.Module_ :=
  match r with torch.actor => actor self | torch.critic => critic self end.

Definition grad_of (r : torch.role) (self : t) : option nn.Sequential :=
  match r with
  | torch.actor => actor_grad self
  | torch.critic => critic_grad self
  end.

Definition optimizer_of (r : torch.role) (self : t) : Adam :=
  match r with
  | torch.actor => actor_optimizer self
  | torch.critic => critic_optimizer self
  end.

Definition set_grad (r : torch.role) (g : option nn.Sequential) (self : t)
    : t :=
  match r with
  | torch.actor => set_actor_grad g self
  | torch.critic => set_critic_grad g self
  end.

(** The parameters of a network are updated in place: the wrapper, if
    there is one, stays. *)
Definition set_parameters (r : torch.role) (p : nn.Sequential) (self : t)
    : t :=
  let rewrap (m : nn.Module_) :=
    match m with
    | nn.Plain _ => nn.Plain p
    | nn.DistributedDataParallel _ => nn.DistributedDataParallel p
    end in
  match r with
  | torch.actor => set_actor (rewrap (actor self)) self
  | torch.critic => set_critic (rewrap (critic self)) self
  end.

Definition set_optimizer (r : torch.role) (o : Adam) (self : t) : t :=
  match r with
  | torch.actor => set_actor_optimizer o self
  | torch.critic => set_critic_optimizer o self
  end.

(** Sum of two gradients of the same network, tensor by tensor. *)
Definition add_tensor (a b : nn.Tensor) : nn.Tensor :=
  {| nn.shape := nn.shape a;
     nn.data := zip_with Rplus (nn.data a) (nn.data b) |}.

Definition add_linear (a b : nn.Linear) : nn.Linear :=
  {| nn.weight := add_tensor (nn.weight a) (nn.weight b);
     nn.bias := add_tensor (nn.bias a) (nn.bias b) |}.

Definition add_grad (a b : nn.Sequential) : nn.Sequential :=
  {| nn.fc0 := add_linear (nn.fc0 a) (nn.fc0 b);
     nn.fc2 := add_linear (nn.fc2 a) (nn.fc2 b);
     nn.fc4 := add_linear (nn.fc4 a) (nn.fc4 b) |}.

(** A gradient arriving at a [.grad] buffer: it is stored when the
    buffer is [None] and added to what the buffer holds otherwise. *)
Definition accumulate (buffer : option nn.Sequential) (g : nn.Sequential)
    : option nn.Sequential :=
  match buffer with
  | None => Some g
  | Some g0 => Some (add_grad g0 g)
  end.

(** The statements of lines 106 to 112. *)
Inductive statement :=
  | zero_grad (r : torch.role)
  | backward (o : torch.objective)
  | step (r : torch.role).

(** What the statements read besides [self]: the forward pass and the
    two loss tensors computed from it. *)
Record Tape := {
  forward : Forward;
  loss_tensor : torch.objective → torch.Scalar
}.

(** [loss.backward()]: every network that the graph of the loss reaches
    receives the gradient of the loss in its buffer. *)
Definition deposit (tape : Tape) (o : torch.objective) (r : torch.role)
    (self : t) : t :=
  if torch.reaches (torch.graph_of (loss_tensor tape o)) r
  then set_grad r (accumulate (grad_of r self) (autograd o r (forward tape)))
                self
  else self.

(** [optimizer.step()]: parameters without a gradient are skipped. *)
Definition optimizer_step (r : torch.role) (self : t) : t :=
  match grad_of r self with
  | None => self
  | Some g =>
      let '(p, o) := Adam_step (optimizer_of r self)
                               (nn.getattr_module (module_of r self)) g in
      set_optimizer r o (set_parameters r p self)
  end.

Definition exec (tape : Tape) (s : statement) (self : t) : t :=
  match s with
  | zero_grad r => set_grad r None self
  | backward o => deposit tape o torch.critic (deposit tape o torch.actor self)
  | step r => optimizer_step r self
  end.

Definition run (tape : Tape) (program : list statement) (self : t) : t :=
  foldl (λ self s, exec tape s self) self program.

(** Lines 106 to 112, in order. *)
Definition update_program : list statement :=
  [zero_grad torch.actor; backward torch.actor_loss; step torch.actor;
   zero_grad torch.critic; backward torch.critic_loss; step torch.critic].

(** Lines 94 to 104: the two losses, or [None] when an error is raised
    on the way.  [batch_log_prob] and the two entries of
    [preprocess_data] are tensors and enter the arithmetic as they are
    given, with whatever graph they carry. *)
Definition compute_losses (self : t) (batch_state : list (list R))
    (batch_action : list nat) (batch_log_prob : torch.Tensor)
    (preprocess_data : AdvantageTensors.t)
    : option (torch.Scalar * torch.Scalar) :=
  let batch_advantage := AdvantageTensors.advantage preprocess_data in
  let batch_td_target := AdvantageTensors.td_target preprocess_data in
  batch_value ← nn.call_critic (critic self) batch_state;
  let batch_value :=
    {| torch.val := nn.view_flat batch_value;
       torch.graph := torch.leaf torch.critic |} in
  batch_pi_dist ← nn.call_actor (actor self) batch_state;
  batch_new_prob ← nn.log_prob_rows batch_pi_dist batch_action;
  let batch_new_prob :=
    {| torch.val := batch_new_prob; torch.graph := torch.leaf torch.actor |} in
  ratio ← torch.exp <$> torch.sub batch_new_prob batch_log_prob;
  policy_gradient ← torch.mul ratio batch_advantage;
  clipped ← torch.mul (torch.clamp ratio (1 - EPS_CLIP (config self))
                                         (1 + EPS_CLIP (config self)))
                      batch_advantage;
  actor_loss ← (λ m, torch.neg (torch.mean m))
                 <$> torch.min policy_gradient clipped;
  critic_loss ← torch.mse_loss batch_td_target batch_value;
  Some (actor_loss, critic_loss).

(** What autograd has recorded when line 104 is done. *)
Definition recorded (self : t) (batch_state : list (list R))
    (batch_action : list nat) (batch_log_prob : torch.Tensor)
    (preprocess_data : AdvantageTensors.t)
    (actor_loss critic_loss : torch.Scalar) : Tape :=
  {| forward :=
       {| seen_actor := nn.getattr_module (actor self);
          seen_critic := nn.getattr_module (critic self);
          seen_state := batch_state;
          seen_action := batch_action;
          seen_log_prob := torch.val batch_log_prob;
          seen_advantage :=
            torch.val (AdvantageTensors.advantage preprocess_data);
          seen_td_target :=
            torch.val (AdvantageTensors.td_target preprocess_data) |};
     loss_tensor := λ o, match o with
                         | torch.actor_loss => actor_loss
                         | torch.critic_loss => critic_loss
                         end |}.

(** [self] when the first [k] of the statements of lines 106 to 112
    have run. *)
Definition after (k : nat) (tape : Tape) (self : t) : t :=
  run tape (take k update_program) self.

Definition train_model (self : t) (batch_state batch_next_state : list (list R))
    (batch_action : list nat) (batch_reward : list R)
    (batch_log_prob : torch.Tensor) (batch_done : list R)
    (preprocess_data : AdvantageTensors.t) : option (t * Losses) :=
  '(actor_loss, critic_loss) ←
    compute_losses self batch_state batch_action batch_log_prob preprocess_data;
  let tape := recorded self batch_state batch_action batch_log_prob
                       preprocess_data actor_loss critic_loss in
  let self := run tape update_program self in
  Some (self, {| loss := torch.add_scalars actor_loss critic_loss;
                 critic_loss := critic_loss;
                 actor_loss := actor_loss |}).

End WithExternal.

End ModelWrapper.

(** ** The worker *)

Module Worker.

Section WithExternal.

Context `{External}.

(** [self]; [attributes] holds what [setattr] has added to the instance
    under names that [__init__] does not assign. *)
Record t := {
  model_path : string;
  config : Config;
  learning_rate : R;
  model : ModelWrapper.t;
  env : EnvWrapper;
  attributes : gmap string nn.Module_
}.

(** [Worker(model_path, user_config, system_config)]; [learning_rate]
    is [system_config["TRAIN"]["LEARNING_RATE"]].  The calls to
    [train()] that end it switch no layer of these networks. *)
Definition __init__ (init_actor init_critic : nn.Init)
    (fs : gmap string file) (printed : list string)
    (model_path : string) (user_config : Config) (learning_rate : R)
    : list string * result t :=
  match ModelWrapper.__init__ init_actor init_critic fs printed
          model_path learning_rate user_config with
  | (printed, Ok model) =>
      (printed, Ok {| model_path := model_path; config := user_config;
                      learning_rate := learning_rate; model := model;
                      env := EnvWrapper_new user_config;
                      attributes := ∅ |})
  | (printed, Raise e) => (printed, Raise e)
  end.

Definition ready (self : t) : bool := true.

Definition preprocess_data (self : t) (state next_state : list (list R))
    (action : list nat) (reward log_prob done : np.ndarray)
    : option AdvantageOutput :=
  ModelWrapper.preprocess_data (model self) state next_state action reward
                               log_prob done.

(** [setattr(self, k, value)] for a name that is none of [model_path],
    [config], [system], [learning_rate], [model] and [env]. *)
Definition setattr (self : t) (k : string) (value : nn.Module_) : t :=
  {| model_path := model_path self; config := config self;
     learning_rate := learning_rate self; model := model self;
     env := env self;
     attributes := <[k := value]> (attributes self) |}.

Definition prepare_model (self : t) : t :=
  let model_dict := ModelWrapper.get_model (model self) in
  foldl (λ self kv, setattr self kv.1 (ray_prepare_model kv.2))
        self model_dict.

Definition set_model (m : ModelWrapper.t) (self : t) : t :=
  {| model_path := model_path self; config := config self;
     learning_rate := learning_rate self; model := m;
     env := env self; attributes := attributes self |}.

Definition train_model (self : t) (batch_state batch_next_state : list (list R))
    (batch_action : list nat) (batch_reward : list R)
    (batch_log_prob : torch.Tensor) (batch_done : list R)
    (batch : AdvantageTensors.t) : option (t * Losses) :=
  '(m, losses) ← ModelWrapper.train_model (model self) batch_state
                   batch_next_state batch_action batch_reward batch_log_prob
                   batch_done batch;
  Some (set_model m self, losses).

Definition save_model (self : t) (model_path : string)
    (fs : gmap string file) : gmap string file :=
  ModelWrapper.save_model (model self) model_path fs.

End WithExternal.

End Worker.

(** ** The specification's formulas *)

Module Spec.

(** The estimator in the specification's words: [advantage[t]] is
    [delta[t] + GAMMA * LAMBDA * (1 - done[t]) * gae], where [gae] is
    [advantage[t+1]], and [0] beyond the last index. *)
Fixpoint gae (gamma lambda : R) (delta dones : list R) : list R :=
  match delta, dones with
  | d :: delta, done :: dones =>
      let later := gae gamma lambda delta dones in
      (d + gamma * lambda * (1 - done) * hd 0 later) :: later
  | _, _ => []
  end.

(** [clip(x, lo, hi)], as [numpy.clip] defines it. *)
Definition clip (x lo hi : R) : R := Rmin hi (Rmax x lo).

(** The clipped surrogate of one transition. *)
Definition surrogate (eps ratio advantage : R) : R :=
  Rmin (ratio * advantage) (clip ratio (1 - eps) (1 + eps) * advantage).

(** [-mean(min(surrogate1, surrogate2))] over the batch. *)
Definition actor_loss (eps : R) (ratio advantage : list R) : R :=
  - np.mean (zip_with (surrogate eps) ratio advantage).

(** The mean squared error between targets and values. *)
Definition critic_loss (td_target value : list R) : R :=
  np.mean (zip_with (λ y v, (y - v) * (y - v)) td_target value).

End Spec.

(** ** Well-formed inputs *)

(** The sizes of the parameter tensors of a network of widths [d_in],
    64, 64, [d_out], as [nn.mlp] builds it. *)
Definition architecture (d_in d_out : nat) : list (list nat) :=
  [[64; d_in]; [64]; [64; 64]; [64]; [d_out; 64]; [d_out]]%nat.

(** A batch of [T] state vectors of width [n]. *)
Definition state_batch (n T : nat) (states : list (list R)) : Prop :=
  length states = T ∧ Forall (λ s, length s = n) states.

(** What [__init__] establishes and every method keeps: both networks
    have the sizes that the configuration gives them. *)
Definition well_shaped `{External} (self : ModelWrapper.t) : Prop :=
  nn.shapes (nn.getattr_module (ModelWrapper.actor self))
  = architecture (NUM_STATE (ModelWrapper.config self))
                 (NUM_ACTION (ModelWrapper.config self))
  ∧ nn.shapes (nn.getattr_module (ModelWrapper.critic self))
    = architecture (NUM_STATE (ModelWrapper.config self)) 1.

(** The keys that [m.load_state_dict] expects. *)
Definition expected_keys (m : nn.Module_) : gset string :=
  list_to_set (map (String.append (nn.key_prefix m)) nn.parameter_names).

(** A state dict fits a network when it has the keys of the network's
    own state dict, each with a tensor of the same sizes: no key is
    missing, none is unexpected and no size differs. *)
Definition fits (m : nn.Module_) (sd : gmap string nn.Tensor) : Prop :=
  nn.shape <$> sd = nn.shape <$> nn.Module_state_dict m.

(** A checkpoint is well formed for a container when it has an entry
    ["actor"] that fits the actor and an entry ["critic"] that fits the
    critic; it is malformed otherwise. *)
Definition well_formed_checkpoint `{External} (self : ModelWrapper.t)
    (blob : gmap string (gmap string nn.Tensor)) : Prop :=
  ∃ sd_actor sd_critic,
    blob !! "actor"%string = Some sd_actor
    ∧ blob !! "critic"%string = Some sd_critic
    ∧ fits (ModelWrapper.actor self) sd_actor
    ∧ fits (ModelWrapper.critic self) sd_critic.

(** The attributes of [self] that [load_model] has no business with,
    and the sizes of the tensors of the two networks. *)
Definition same_frame `{External} (self self' : ModelWrapper.t) : Prop :=
  ModelWrapper.config self' = ModelWrapper.config self
  ∧ ModelWrapper.actor_grad self' = ModelWrapper.actor_grad self
  ∧ ModelWrapper.critic_grad self' = ModelWrapper.critic_grad self
  ∧ ModelWrapper.actor_optimizer self' = ModelWrapper.actor_optimizer self
  ∧ ModelWrapper.critic_optimizer self' = ModelWrapper.critic_optimizer self
  ∧ nn.key_prefix (ModelWrapper.actor self')
    = nn.key_prefix (ModelWrapper.actor self)
  ∧ nn.key_prefix (ModelWrapper.critic self')
    = nn.key_prefix (ModelWrapper.critic self)
  ∧ nn.shapes (nn.getattr_module (ModelWrapper.actor self'))
    = nn.shapes (nn.getattr_module (ModelWrapper.actor self))
  ∧ nn.shapes (nn.getattr_module (ModelWrapper.critic self'))
    = nn.shapes (nn.getattr_module (ModelWrapper.critic self)).

(** ** Stand-ins for the collaborators, and sample data *)

Module Sample.

(** Plain gradient descent in the optimizer's place, its state being
    the learning rate; the gradient oracle returns the parameters it is
    asked about; the topology adapter wraps. *)
Definition descend (lr : R) (p g : nn.Tensor) : nn.Tensor :=
  {| nn.shape := nn.shape p;
     nn.data := zip_with (λ x d, x - lr * d) (nn.data p) (nn.data g) |}.

Definition descend_linear (lr : R) (p g : nn.Linear) : nn.Linear :=
  {| nn.weight := descend lr (nn.weight p) (nn.weight g);
     nn.bias := descend lr (nn.bias p) (nn.bias g) |}.

Definition descend_all (lr : R) (p g : nn.Sequential) : nn.Sequential :=
  {| nn.fc0 := descend_linear lr (nn.fc0 p) (nn.fc0 g);
     nn.fc2 := descend_linear lr (nn.fc2 p) (nn.fc2 g);
     nn.fc4 := descend_linear lr (nn.fc4 p) (nn.fc4 g) |}.

#[local] Instance external : External := {|
  Adam := R;
  Adam_new lr := lr;
  Adam_step lr p g := (descend_all lr p g, lr);
  autograd o r f :=
    match r with
    | torch.actor => seen_actor f
    | torch.critic => seen_critic f
    end;
  ray_prepare_model m := nn.DistributedDataParallel (nn.getattr_module m);
  EnvWrapper := unit;
  EnvWrapper_new _ := ()
|}.

(** All-zero initial weights for widths [d_in], 64, 64, [d_out]. *)
Definition zeros (d_in d_out : nat) : nn.Init :=
  {| nn.w0 := replicate (64 * d_in) 0; nn.b0 := replicate 64 0;
     nn.w2 := replicate (64 * 64) 0; nn.b2 := replicate 64 0;
     nn.w4 := replicate (d_out * 64) 0; nn.b4 := replicate d_out 0 |}.

(** One state feature, two actions. *)
Definition config (gamma lambda : R) : Config :=
  {| NUM_STATE := 1; NUM_ACTION := 2;
     GAMMA := gamma; LAMBDA := lambda; EPS_CLIP := 0.2 |}.

(** The container as [ModelWrapper.__init__] leaves it on a cold start
    with all-zero weights and learning rate [0.001]. *)
Definition container (gamma lambda : R) : ModelWrapper.t :=
  {| ModelWrapper.config := config gamma lambda;
     ModelWrapper.actor := nn.Plain (nn.Actor 1 2 (zeros 1 2));
     ModelWrapper.critic := nn.Plain (nn.Critic 1 (zeros 1 1));
     ModelWrapper.actor_grad := None;
     ModelWrapper.critic_grad := None;
     ModelWrapper.actor_optimizer := 0.001;
     ModelWrapper.critic_optimizer := 0.001 |}.

(** A worker around the sample container. *)
Definition worker : Worker.t :=
  {| Worker.model_path := "model.pt"%string;
     Worker.config := config 0.99 0.95;
     Worker.learning_rate := 0.001;
     Worker.model := container 0.99 0.95;
     Worker.env := ();
     Worker.attributes := ∅ |}.

(** All-one weights, and a checkpoint that has them for the actor and
    has no entry for the critic. *)
Definition ones (d_in d_out : nat) : nn.Init :=
  {| nn.w0 := replicate (64 * d_in) 1; nn.b0 := replicate 64 1;
     nn.w2 := replicate (64 * 64) 1; nn.b2 := replicate 64 1;
     nn.w4 := replicate (d_out * 64) 1; nn.b4 := replicate d_out 1 |}.

Definition actor_only : gmap string (gmap string nn.Tensor) :=
  {[ "actor"%string := nn.state_dict "" (nn.Actor 1 2 (ones 1 2)) ]}.

(** Tensors made from data, for a batch of two transitions. *)
Definition tensors : AdvantageTensors.t :=
  {| AdvantageTensors.advantage := torch.tensor [1; -1];
     AdvantageTensors.td_target := torch.tensor [1; 2] |}.

End Sample.

(** * Proofs *)

(** ** Arrays *)

Section Arrays.

Context {A B C : Type}.

Lemma broadcast_aligned (f : A → B → C) (a : list A) (b : list B) :
  length a = length b →
  np.broadcast_with f a b = Some (zip_with f a b).
Proof. intros Hlen. unfold np.broadcast_with. by rewrite decide_True. Qed.

End Arrays.

Lemma for_each_cons {S : Type} (body : nat → S → option S) i idx s s' :
  body i s = Some s' →
  for_each body (i :: idx) s = for_each body idx s'.
Proof. intros Hb. simpl. by rewrite Hb. Qed.

Lemma reversed_range_succ n :
  reversed_range (S n) = n :: reversed_range n.
Proof.
  unfold reversed_range. rewrite seq_S, reverse_app. reflexivity.
Qed.

(** ** The estimator *)

Section Estimator.

Variable config : Config.

#[local] Abbreviation gae_spec := (Spec.gae (GAMMA config) (LAMBDA config)).

Lemma td_residual_aligned (rewards dones values next_values : list R) :
  length dones = length rewards →
  length values = length rewards →
  length next_values = length rewards →
  ModelWrapper.td_residual config rewards dones values next_values
  = Some (zip_with Rminus
            (zip_with Rplus rewards
               (zip_with Rmult (map (Rmult (GAMMA config)) next_values)
                               (map (Rminus 1) dones)))
            values).
Proof.
  intros Hd Hv Hn. unfold ModelWrapper.td_residual, np.mul, np.add, np.sub.
  unfold np.scalar_mul, np.scalar_rsub.
  rewrite broadcast_aligned by (rewrite !length_map; congruence). simpl.
  rewrite broadcast_aligned
    by (rewrite length_zip_with, !length_map; lia). simpl.
  rewrite broadcast_aligned
    by (rewrite !length_zip_with, !length_map; lia).
  reflexivity.
Qed.

Lemma td_residual_lookup (rewards dones values next_values delta : list R)
    t r d v nv :
  ModelWrapper.td_residual config rewards dones values next_values = Some delta →
  length dones = length rewards →
  length values = length rewards →
  length next_values = length rewards →
  rewards !! t = Some r → dones !! t = Some d →
  values !! t = Some v → next_values !! t = Some nv →
  delta !! t = Some (r + GAMMA config * nv * (1 - d) - v).
Proof.
  intros Hdelta Hd Hv Hn Hr Hdn Hvl Hnv.
  rewrite td_residual_aligned in Hdelta by done.
  injection Hdelta as <-.
  rewrite !lookup_zip_with, !list_lookup_fmap, Hr, Hdn, Hvl, Hnv.
  reflexivity.
Qed.

Lemma td_residual_length (rewards dones values next_values delta : list R) :
  ModelWrapper.td_residual config rewards dones values next_values = Some delta →
  length dones = length rewards →
  length values = length rewards →
  length next_values = length rewards →
  length delta = length rewards.
Proof.
  intros Hdelta Hd Hv Hn.
  rewrite td_residual_aligned in Hdelta by done.
  injection Hdelta as <-.
  rewrite !length_zip_with, !length_map. lia.
Qed.

Lemma gae_spec_length gamma lambda (delta dones : list R) :
  length delta = length dones →
  length (Spec.gae gamma lambda delta dones) = length delta.
Proof.
  revert dones. induction delta as [|d delta IH]; intros [|dn dones] Hlen;
    simpl in *; try done.
  f_equal. apply IH. lia.
Qed.

(** The recurrence, index by index. *)
Lemma gae_spec_lookup (delta dones : list R) t dl d :
  delta !! t = Some dl → dones !! t = Some d →
  gae_spec delta dones !! t
  = Some (dl + GAMMA config * LAMBDA config * (1 - d)
               * default 0 (gae_spec delta dones !! S t)).
Proof.
  revert dones t.
  induction delta as [|d0 delta IH]; intros [|dn0 dones] t Hdl Hd;
    try done.
  destruct t as [|t]; simpl in *.
  - injection Hdl as ->. injection Hd as ->.
    by destruct (gae_spec delta dones).
  - by apply IH.
Qed.

(** The loop, started on the last [n] indices still to do, with the
    entries from [n] on already in place. *)
Lemma gae_loop (delta dones : list R) n gae advantages :
  length dones = length delta →
  length advantages = length delta →
  (n ≤ length delta)%nat →
  drop n advantages = gae_spec (drop n delta) (drop n dones) →
  gae = hd 0 (drop n advantages) →
  ∃ gae', for_each (ModelWrapper.gae_body config delta dones)
                   (reversed_range n) (gae, advantages)
          = Some (gae', gae_spec delta dones).
Proof.
  revert gae advantages.
  induction n as [|n IH]; intros gae advantages Hdn Hadv Hn Hdrop Hgae.
  - exists gae. simpl. rewrite !drop_0 in Hdrop. by rewrite Hdrop.
  - rewrite reversed_range_succ.
    destruct (lookup_lt_is_Some_2 delta n) as [d Hd]; [lia|].
    destruct (lookup_lt_is_Some_2 dones n) as [dn Hdone]; [lia|].
    set (gae1 := d + GAMMA config * LAMBDA config * (1 - dn) * gae).
    rewrite (for_each_cons _ _ _ _ (gae1, <[n := gae1]> advantages)).
    2:{ unfold ModelWrapper.gae_body. rewrite Hd. simpl.
        rewrite Hdone. reflexivity. }
    apply IH; try done; [by rewrite length_insert | lia | |].
    + rewrite (drop_S delta d n Hd), (drop_S dones dn n Hdone). simpl.
      rewrite <- Hdrop, <- Hgae.
      destruct (lookup_lt_is_Some_2 advantages n) as [a Ha]; [lia|].
      rewrite (drop_S (<[n:=gae1]> advantages) gae1 n).
      2:{ apply list_lookup_insert_eq. lia. }
      f_equal. by rewrite drop_insert_lt by lia.
    + rewrite (drop_S (<[n:=gae1]> advantages) gae1 n); [done|].
      apply list_lookup_insert_eq. lia.
Qed.

(** Lines 72 to 80 compute the recurrence of the specification. *)
Lemma gae_advantages_spec (rewards dones values next_values delta : list R) :
  length dones = length rewards →
  length values = length rewards →
  length next_values = length rewards →
  ModelWrapper.td_residual config rewards dones values next_values = Some delta →
  ModelWrapper.gae_advantages config rewards dones values next_values
  = Some (gae_spec delta dones).
Proof.
  intros Hd Hv Hn Hdelta.
  pose proof (td_residual_length _ _ _ _ _ Hdelta Hd Hv Hn) as Hlen.
  unfold ModelWrapper.gae_advantages. rewrite Hdelta. simpl.
  destruct (gae_loop delta dones (length rewards) 0.0
              (np.zeros_like rewards)) as [gae' Hloop].
  - congruence.
  - unfold np.zeros_like. by rewrite length_replicate.
  - lia.
  - unfold np.zeros_like.
    rewrite !drop_ge; [done | lia | lia | rewrite length_replicate; lia].
  - unfold np.zeros_like. rewrite drop_ge; [simpl; lra|].
    rewrite length_replicate. lia.
  - rewrite Hloop. reflexivity.
Qed.

End Estimator.

(** ** Forward passes *)

Section ForwardPass.

Lemma Linear_forward_total (l : nn.Linear) (x : list R) out inp :
  nn.shape (nn.weight l) = [out; inp] →
  length x = inp →
  ∃ y, nn.Linear_forward l x = Some y ∧ length y = out.
Proof.
  intros Hshape Hx. unfold nn.Linear_forward. rewrite Hshape.
  rewrite decide_True by done. eexists. split; [done|].
  by rewrite length_map, length_seq.
Qed.

Lemma ReLU_length (x : list R) : length (nn.ReLU x) = length x.
Proof. unfold nn.ReLU. by rewrite length_map. Qed.

Lemma Sequential_forward_total (fc : nn.Sequential) d_in d_out (x : list R) :
  nn.shapes fc = architecture d_in d_out →
  length x = d_in →
  ∃ y, nn.Sequential_forward fc x = Some y ∧ length y = d_out.
Proof.
  unfold nn.shapes, architecture. intros Hshapes Hx.
  injection Hshapes as Hw0 _ Hw2 _ Hw4 _.
  unfold nn.Sequential_forward.
  destruct (Linear_forward_total _ x _ _ Hw0 Hx) as (h1 & -> & Hh1). simpl.
  destruct (Linear_forward_total _ (nn.ReLU h1) _ _ Hw2) as (h2 & -> & Hh2);
    [by rewrite ReLU_length|]. simpl.
  apply (Linear_forward_total _ _ _ _ Hw4). by rewrite ReLU_length.
Qed.

(** The critic on a batch: one value for each state, in order. *)
Lemma call_critic_total (m : nn.Module_) n T (states : list (list R)) :
  nn.shapes (nn.getattr_module m) = architecture n 1 →
  state_batch n T states →
  ∃ values,
    nn.view_flat <$> nn.call_critic m states = Some values
    ∧ length values = T
    ∧ ∀ i s, states !! i = Some s →
        ∃ v, nn.Critic_forward (nn.getattr_module m) s = Some [v]
             ∧ values !! i = Some v.
Proof.
  intros Hshapes [<- Hwidth]. unfold nn.call_critic.
  induction Hwidth as [|s states Hs Hwidth IH].
  - exists []. repeat split. intros i s. by rewrite lookup_nil.
  - destruct IH as (values & Hvalues & Hlen & Hlookup).
    destruct (Sequential_forward_total _ _ _ s Hshapes Hs) as (y & Hy & Hone).
    destruct y as [|v [|]]; try done.
    destruct (mapM _ states) as [rows|] eqn:Hrows; [|done].
    injection Hvalues as <-.
    exists (v :: nn.view_flat rows). split.
    { change (nn.Critic_forward (nn.getattr_module m) s = Some [v]) in Hy.
      simpl. rewrite Hy. simpl. by rewrite Hrows. }
    split; [simpl; by rewrite Hlen|].
    intros [|i] s' Hs'; simpl in *.
    + injection Hs' as <-. by exists v.
    + by apply Hlookup.
Qed.

End ForwardPass.

(** ** Sums, means and deviations *)

Section Statistics.

Implicit Types a : list R.


Lemma sum_div_scalar a c : np.sum (map (λ x, x / c) a) = np.sum a / c.
Proof.
  induction a as [|x a IH]; [simpl; lra|].
  cbn [map np.sum foldr]. fold (np.sum (map (λ x, x / c) a)).
  fold (np.sum a). rewrite IH. lra.
Qed.




Lemma normalize_map a :
  ModelWrapper.normalize a
  = map (λ x, (x - np.mean a) / ModelWrapper.advantage_std a) a.
Proof.
  unfold ModelWrapper.normalize, np.div_scalar, np.sub_scalar.
  by rewrite map_map.
Qed.

Lemma normalize_length a : length (ModelWrapper.normalize a) = length a.
Proof. rewrite normalize_map. by rewrite length_map. Qed.


Lemma std_nonneg a : 0 <= np.std a.
Proof. unfold np.std. apply sqrt_pos. Qed.




Lemma advantage_std_single a :
  length a = 1%nat → ModelWrapper.advantage_std a = 1.
Proof.
  intros Ha. unfold ModelWrapper.advantage_std.
  rewrite decide_False by lia. lra.
Qed.




End Statistics.

(** ** [preprocess_data] on a well-formed batch *)

Section Preprocess.

Context `{External}.

Variable self : ModelWrapper.t.
Variables states next_states : list (list R).
Variable actions : list nat.
Variables rewards log_probs dones : list R.
Variable T : nat.

Hypothesis Hshaped : well_shaped self.
Hypothesis Hstates : state_batch (NUM_STATE (ModelWrapper.config self)) T states.
Hypothesis Hnext :
  state_batch (NUM_STATE (ModelWrapper.config self)) T next_states.
Hypothesis Hrewards : length rewards = T.
Hypothesis Hdones : length dones = T.

#[local] Abbreviation V := (nn.Critic_forward
                              (nn.getattr_module (ModelWrapper.critic self))).

(** The run of [preprocess_data], stage by stage. *)
Lemma preprocess_data_stages :
  ∃ values next_values delta raw,
    nn.view_flat <$> nn.call_critic (ModelWrapper.critic self) states
      = Some values
    ∧ nn.view_flat <$> nn.call_critic (ModelWrapper.critic self) next_states
      = Some next_values
    ∧ length values = T ∧ length next_values = T
    ∧ (∀ i s, states !! i = Some s →
         ∃ v, V s = Some [v] ∧ values !! i = Some v)
    ∧ (∀ i s, next_states !! i = Some s →
         ∃ v, V s = Some [v] ∧ next_values !! i = Some v)
    ∧ ModelWrapper.td_residual (ModelWrapper.config self) rewards dones
        values next_values = Some delta
    ∧ length delta = T
    ∧ raw = Spec.gae (GAMMA (ModelWrapper.config self))
                     (LAMBDA (ModelWrapper.config self)) delta dones
    ∧ length raw = T
    ∧ ModelWrapper.gae_advantages (ModelWrapper.config self) rewards dones
        values next_values = Some raw
    ∧ ModelWrapper.preprocess_data self states next_states actions rewards
        log_probs dones
      = Some {| advantage := ModelWrapper.normalize raw;
                td_target := zip_with Rplus (ModelWrapper.normalize raw)
                                            values |}.
Proof.
  destruct Hshaped as [_ Hcritic].
  destruct (call_critic_total _ _ _ _ Hcritic Hstates)
    as (values & Hvalues & Hlen & Hlookup).
  destruct (call_critic_total _ _ _ _ Hcritic Hnext)
    as (next_values & Hnext_values & Hnlen & Hnlookup).
  destruct (ModelWrapper.td_residual (ModelWrapper.config self) rewards dones
              values next_values) as [delta|] eqn:Hdelta.
  2:{ rewrite td_residual_aligned in Hdelta by congruence. done. }
  assert (length delta = T) as Hdlen.
  { rewrite <- Hrewards.
    apply (td_residual_length _ _ _ _ _ _ Hdelta); congruence. }
  assert (length (Spec.gae (GAMMA (ModelWrapper.config self))
                    (LAMBDA (ModelWrapper.config self)) delta dones) = T)
    as Hrlen by (rewrite gae_spec_length; congruence).
  assert (ModelWrapper.gae_advantages (ModelWrapper.config self) rewards dones
            values next_values
          = Some (Spec.gae (GAMMA (ModelWrapper.config self))
                    (LAMBDA (ModelWrapper.config self)) delta dones)) as Hraw.
  { apply gae_advantages_spec; congruence. }
  eexists values, next_values, delta, _.
  repeat (split; [done|]).
  unfold ModelWrapper.preprocess_data.
  rewrite Hvalues. simpl. rewrite Hnext_values. simpl.
  rewrite Hraw. simpl.
  unfold np.add. rewrite broadcast_aligned; [done|].
  rewrite normalize_length. congruence.
Qed.

End Preprocess.

(** ** The recurrence inside [preprocess_data] *)

(** C1: for a batch of length [T >= 1] whose [rewards] and [dones] are
    index-aligned with the [values] and [next_values] that the critic
    gives for its states, [preprocess_data] computes
    [delta[t] = reward[t] + GAMMA * next_value[t] * (1 - done[t]) - value[t]]
    and the advantage before normalisation by the backward recurrence
    [gae = delta[t] + GAMMA * LAMBDA * (1 - done[t]) * gae], taken from
    [T-1] down to [0] with [gae] starting at [0]: entry [t] is built on
    entry [t+1], and on [0] at the last index; what it returns is that
    array normalised, and that array plus [values].  On
    [rewards = [1,1,1]], [dones = [0,0,1]], zero values, [GAMMA = 0.99]
    and [LAMBDA = 0.95] the advantages before normalisation are
    [[1 + 0.99*0.95*1.9405, 1 + 0.99*0.95*1, 1]]. *)
Theorem gae_backward_recurrence `{External} :
  (∀ (self : ModelWrapper.t) (states next_states : list (list R))
     (actions : list nat) (rewards log_probs dones values next_values : list R)
     (T : nat),
     (1 ≤ T)%nat →
     nn.view_flat <$> nn.call_critic (ModelWrapper.critic self) states
       = Some values →
     nn.view_flat <$> nn.call_critic (ModelWrapper.critic self) next_states
       = Some next_values →
     length rewards = T → length dones = T →
     length values = T → length next_values = T →
     ∃ (delta advantages : list R) (out : AdvantageOutput),
       ModelWrapper.td_residual (ModelWrapper.config self) rewards dones
         values next_values = Some delta
       ∧ ModelWrapper.gae_advantages (ModelWrapper.config self) rewards dones
           values next_values = Some advantages
       ∧ ModelWrapper.preprocess_data self states next_states actions rewards
           log_probs dones = Some out
       ∧ advantage out = ModelWrapper.normalize advantages
       ∧ td_target out = zip_with Rplus (ModelWrapper.normalize advantages)
                                  values
       ∧ length delta = T ∧ length advantages = T
       ∧ (∀ t r d v nv,
            rewards !! t = Some r → dones !! t = Some d →
            values !! t = Some v → next_values !! t = Some nv →
            delta !! t
            = Some (r + GAMMA (ModelWrapper.config self) * nv * (1 - d) - v))
       ∧ (∀ t dl d,
            delta !! t = Some dl → dones !! t = Some d →
            advantages !! t
            = Some (dl + GAMMA (ModelWrapper.config self)
                         * LAMBDA (ModelWrapper.config self) * (1 - d)
                         * default 0 (advantages !! S t))))
  ∧ (∀ (self : ModelWrapper.t) (states next_states : list (list R))
       (actions : list nat) (log_probs : list R),
       GAMMA (ModelWrapper.config self) = 0.99 →
       LAMBDA (ModelWrapper.config self) = 0.95 →
       nn.view_flat <$> nn.call_critic (ModelWrapper.critic self) states
         = Some [0; 0; 0] →
       nn.view_flat <$> nn.call_critic (ModelWrapper.critic self) next_states
         = Some [0; 0; 0] →
       ModelWrapper.gae_advantages (ModelWrapper.config self)
         [1; 1; 1] [0; 0; 1] [0; 0; 0] [0; 0; 0]
       = Some [1 + 0.99 * 0.95 * 1.9405; 1 + 0.99 * 0.95 * 1; 1]
       ∧ ∃ out,
           ModelWrapper.preprocess_data self states next_states actions
             [1; 1; 1] log_probs [0; 0; 1] = Some out
           ∧ advantage out
             = ModelWrapper.normalize
                 [1 + 0.99 * 0.95 * 1.9405; 1 + 0.99 * 0.95 * 1; 1]).
Proof.
  split.
  - intros self states next_states actions rewards log_probs dones values
      next_values T HT Hvalues Hnext Hr Hd Hv Hn.
    subst T.
    destruct (ModelWrapper.td_residual (ModelWrapper.config self) rewards dones
                values next_values) as [delta|] eqn:Hdelta.
    2:{ by rewrite td_residual_aligned in Hdelta. }
    pose proof (td_residual_length _ _ _ _ _ _ Hdelta Hd Hv Hn) as Hlen.
    pose proof (gae_advantages_spec (ModelWrapper.config self) rewards dones
                  values next_values delta Hd Hv Hn Hdelta) as Hraw.
    eexists delta, _, _.
    split; [done|]. split; [exact Hraw|]. split.
    { unfold ModelWrapper.preprocess_data.
      rewrite Hvalues. cbn [mbind option_bind]. rewrite Hnext.
      cbn [mbind option_bind]. rewrite Hraw. cbn [mbind option_bind].
      unfold np.add. rewrite broadcast_aligned; [reflexivity|].
      rewrite normalize_length, gae_spec_length; congruence. }
    cbn [advantage td_target].
    split; [done|]. split; [done|]. split; [done|].
    split; [rewrite gae_spec_length; congruence|].
    split.
    + intros t r d v nv. by apply td_residual_lookup.
    + intros t dl d. apply gae_spec_lookup.
  - intros self states next_states actions log_probs Hgamma Hlambda Hvalues
      Hnext.
    assert (ModelWrapper.gae_advantages (ModelWrapper.config self)
              [1; 1; 1] [0; 0; 1] [0; 0; 0] [0; 0; 0]
            = Some [1 + 0.99 * 0.95 * 1.9405; 1 + 0.99 * 0.95 * 1; 1])
      as Hraw.
    { erewrite gae_advantages_spec;
        [|done|done|done|by apply td_residual_aligned].
      simpl. rewrite Hgamma, Hlambda.
      do 2 f_equal; [lra|]. f_equal; [lra|]. f_equal. lra. }
    split; [exact Hraw|]. eexists. split.
    { unfold ModelWrapper.preprocess_data.
      rewrite Hvalues. cbn [mbind option_bind]. rewrite Hnext.
      cbn [mbind option_bind]. rewrite Hraw. cbn [mbind option_bind].
      unfold np.add. rewrite broadcast_aligned; [reflexivity|].
      by rewrite normalize_length. }
    reflexivity.
Qed.

(** ** Degenerate discounting *)

Lemma gae_without_trace gamma lambda (delta dones : list R) :
  gamma * lambda = 0 →
  length dones = length delta →
  Spec.gae gamma lambda delta dones = delta.
Proof.
  intros Hzero. revert dones.
  induction delta as [|d delta IH]; intros [|dn dones] Hlen; try done.
  simpl in *. rewrite IH by lia. f_equal. rewrite Hzero. ring.
Qed.

(** ** A network whose weights are all zero *)

Section ZeroWeights.

Lemma dot_zero (u x : list R) : Forall (λ w, w = 0) u → nn.dot u x = 0.
Proof.
  intros Hu. revert x. unfold nn.dot.
  induction Hu as [|w u -> _ IH]; intros [|y x]; try done.
  cbn [zip_with np.sum foldr]. fold (np.sum (zip_with Rmult u x)).
  rewrite IH. ring.
Qed.

Lemma map_constant {A} (f : A → R) (l : list A) c :
  (∀ j, f j = c) → map f l = replicate (length l) c.
Proof.
  intros Hf. induction l as [|j l IH]; [done|]. simpl. by rewrite Hf, IH.
Qed.

Lemma Linear_forward_zero (l : nn.Linear) (x : list R) out inp :
  nn.shape (nn.weight l) = [out; inp] →
  length x = inp →
  Forall (λ w, w = 0) (nn.data (nn.weight l)) →
  Forall (λ w, w = 0) (nn.data (nn.bias l)) →
  nn.Linear_forward l x = Some (replicate out 0).
Proof.
  intros Hshape Hx Hw Hb. unfold nn.Linear_forward. rewrite Hshape.
  rewrite decide_True by done. f_equal.
  rewrite (map_constant _ _ 0); [by rewrite length_seq|]. intros j.
  rewrite dot_zero.
  2:{ unfold nn.row. by apply Forall_take, Forall_drop. }
  destruct (nn.data (nn.bias l) !! j) as [b|] eqn:Hj; simpl; [|lra].
  rewrite Forall_lookup in Hb. rewrite (Hb _ _ Hj). lra.
Qed.

Lemma ReLU_zero n : nn.ReLU (replicate n 0) = replicate n 0.
Proof.
  unfold nn.ReLU. change (map ?f ?l) with (f <$> l).
  rewrite fmap_replicate. f_equal. apply Rmax_left. lra.
Qed.

Lemma Forall_zero_replicate n : Forall (λ w : R, w = 0) (replicate n 0).
Proof. by apply Forall_replicate. Qed.

Lemma zero_network_forward d_in d_out (x : list R) :
  length x = d_in →
  nn.Sequential_forward (nn.mlp d_in d_out (Sample.zeros d_in d_out)) x
  = Some (replicate d_out 0).
Proof.
  intros Hx. unfold nn.Sequential_forward.
  rewrite (Linear_forward_zero _ x 64 d_in);
    [| reflexivity | done | apply Forall_zero_replicate
     | apply Forall_zero_replicate].
  cbn [mbind option_bind]. rewrite ReLU_zero.
  rewrite (Linear_forward_zero _ _ 64 64);
    [| reflexivity | by rewrite length_replicate
     | apply Forall_zero_replicate | apply Forall_zero_replicate].
  cbn [mbind option_bind]. rewrite ReLU_zero.
  apply (Linear_forward_zero _ _ d_out 64);
    [reflexivity | by rewrite length_replicate
     | apply Forall_zero_replicate | apply Forall_zero_replicate].
Qed.

Lemma sample_well_shaped gamma lambda :
  well_shaped (Sample.container gamma lambda).
Proof. split; reflexivity. Qed.

(** The sample critic values every state at zero. *)
Lemma sample_values gamma lambda T (states : list (list R)) :
  state_batch 1 T states →
  nn.view_flat
    <$> nn.call_critic (ModelWrapper.critic (Sample.container gamma lambda))
                       states
  = Some (replicate T 0).
Proof.
  intros Hstates.
  destruct (call_critic_total
              (ModelWrapper.critic (Sample.container gamma lambda)) 1 T states)
    as (values & -> & Hlen & Hlookup); [reflexivity | done |].
  f_equal. apply list_eq_same_length with T;
    [by rewrite length_replicate | done |].
  intros i x y Hi Hx Hy.
  apply lookup_replicate in Hy as [-> _].
  destruct (lookup_lt_is_Some_2 states i) as [s Hs];
    [destruct Hstates; lia|].
  destruct (Hlookup i s Hs) as (v & Hv & Hvi).
  assert (length s = 1%nat) as Hwidth.
  { destruct Hstates as [_ Hall]. rewrite Forall_lookup in Hall. eauto. }
  simpl in Hv. unfold nn.Critic_forward, nn.Critic in Hv.
  rewrite (zero_network_forward 1 1 s Hwidth) in Hv.
  simpl in Hv. congruence.
Qed.

End ZeroWeights.

(** ** The advantages that [preprocess_data] returns *)

Lemma normalize_single (x : R) : ModelWrapper.normalize [x] = [0].
Proof.
  rewrite normalize_map, advantage_std_single by done.
  unfold np.mean. simpl. f_equal. field.
Qed.



(** C5, amended: with [LAMBDA = 0] the advantage before normalisation is
    [delta[t]] at every index, and with [GAMMA = 0] it is
    [reward[t] - value[t]]; what [preprocess_data] returns is that array
    normalised. *)
Theorem gae_degenerate_discounting `{External}
    (self : ModelWrapper.t) (states next_states : list (list R))
    (actions : list nat) (rewards log_probs dones : list R) (T : nat) :
  well_shaped self →
  state_batch (NUM_STATE (ModelWrapper.config self)) T states →
  state_batch (NUM_STATE (ModelWrapper.config self)) T next_states →
  length rewards = T → length dones = T →
  ∃ values next_values delta raw out,
    nn.view_flat <$> nn.call_critic (ModelWrapper.critic self) states
      = Some values
    ∧ nn.view_flat <$> nn.call_critic (ModelWrapper.critic self) next_states
      = Some next_values
    ∧ ModelWrapper.td_residual (ModelWrapper.config self) rewards dones
        values next_values = Some delta
    ∧ ModelWrapper.gae_advantages (ModelWrapper.config self) rewards dones
        values next_values = Some raw
    ∧ ModelWrapper.preprocess_data self states next_states actions rewards
        log_probs dones = Some out
    ∧ advantage out = ModelWrapper.normalize raw
    ∧ (LAMBDA (ModelWrapper.config self) = 0 → raw = delta)
    ∧ (GAMMA (ModelWrapper.config self) = 0 →
         ∀ t r v, rewards !! t = Some r → values !! t = Some v →
                  raw !! t = Some (r - v)).
Proof.
  intros Hshaped Hstates Hnext Hrewards Hdones.
  destruct (preprocess_data_stages self states next_states actions rewards
              log_probs dones T Hshaped Hstates Hnext Hrewards Hdones)
    as (values & next_values & delta & raw & Hv & Hnv & Hvlen & Hnlen & _ & _
        & Hdelta & Hdlen & -> & Hlen & Hraw & Hout).
  eexists values, next_values, delta, _, _.
  split; [exact Hv|]. split; [exact Hnv|]. split; [exact Hdelta|].
  split; [exact Hraw|]. split; [exact Hout|]. split; [reflexivity|]. split.
  - intros Hlambda. apply gae_without_trace; [|congruence].
    rewrite Hlambda. ring.
  - intros Hgamma t r v Hr Hvt.
    rewrite gae_without_trace; [| rewrite Hgamma; ring | congruence].
    destruct (lookup_lt_is_Some_2 dones t) as [d Hd].
    { rewrite Hdones, <- Hrewards. by eapply lookup_lt_Some. }
    destruct (lookup_lt_is_Some_2 next_values t) as [nv Hn].
    { rewrite Hnlen, <- Hrewards. by eapply lookup_lt_Some. }
    rewrite (td_residual_lookup _ _ _ _ _ _ _ r d v nv Hdelta);
      try done; try congruence.
    f_equal. rewrite Hgamma. ring.
Qed.

(** ** Runs on the sample container *)

Lemma sample_preprocess gamma lambda (states next_states : list (list R))
    (actions : list nat) (rewards log_probs dones delta : list R) T :
  state_batch 1 T states → state_batch 1 T next_states →
  length rewards = T → length dones = T →
  ModelWrapper.td_residual (Sample.config gamma lambda) rewards dones
    (replicate T 0) (replicate T 0) = Some delta →
  ModelWrapper.preprocess_data (Sample.container gamma lambda) states
    next_states actions rewards log_probs dones
  = Some {| advantage :=
              ModelWrapper.normalize (Spec.gae gamma lambda delta dones);
            td_target :=
              zip_with Rplus
                (ModelWrapper.normalize (Spec.gae gamma lambda delta dones))
                (replicate T 0) |}.
Proof.
  intros Hstates Hnext Hrewards Hdones Hdelta.
  assert (length delta = T) as Hlen.
  { rewrite <- Hrewards.
    apply (td_residual_length _ _ _ _ _ _ Hdelta);
      rewrite ?length_replicate; congruence. }
  unfold ModelWrapper.preprocess_data.
  rewrite (sample_values gamma lambda T states Hstates).
  rewrite (sample_values gamma lambda T next_states Hnext).
  cbn [mbind option_bind ModelWrapper.config Sample.container].
  rewrite (gae_advantages_spec (Sample.config gamma lambda) rewards dones
             (replicate T 0) (replicate T 0) delta);
    [| congruence | rewrite length_replicate; congruence
     | rewrite length_replicate; congruence | done].
  cbn [mbind option_bind GAMMA LAMBDA Sample.config].
  unfold np.add. rewrite broadcast_aligned; [done|].
  rewrite normalize_length, gae_spec_length, length_replicate; congruence.
Qed.


(** With [LAMBDA = 0], one transition of reward 1: [delta] is [[1]] and
    the returned advantage is [[0]]. *)
Lemma returned_advantage_is_not_delta :
  LAMBDA (ModelWrapper.config (Sample.container 0.99 0)) = 0
  ∧ ∃ values next_values delta out,
      nn.view_flat
        <$> nn.call_critic (ModelWrapper.critic (Sample.container 0.99 0))
                           [[0]] = Some values
      ∧ nn.view_flat
          <$> nn.call_critic (ModelWrapper.critic (Sample.container 0.99 0))
                             [[0]] = Some next_values
      ∧ ModelWrapper.td_residual
          (ModelWrapper.config (Sample.container 0.99 0)) [1] [0]
          values next_values = Some delta
      ∧ ModelWrapper.preprocess_data (Sample.container 0.99 0)
          [[0]] [[0]] [0%nat] [1] [0] [0] = Some out
      ∧ delta !! 0%nat = Some 1
      ∧ advantage out !! 0%nat = Some 0
      ∧ advantage out ≠ delta.
Proof.
  split; [reflexivity|].
  assert (state_batch 1 1 [[0]]) as Hbatch
    by (split; [reflexivity | by repeat constructor]).
  exists [0], [0], [1], {| advantage := [0]; td_target := [0 + 0] |}.
  split; [apply (sample_values 0.99 0 1 _ Hbatch)|].
  split; [apply (sample_values 0.99 0 1 _ Hbatch)|].
  assert (ModelWrapper.td_residual (Sample.config 0.99 0) [1] [0] [0] [0]
          = Some [1]) as Hdelta.
  { rewrite td_residual_aligned by done. simpl. do 2 f_equal. lra. }
  split; [exact Hdelta|]. split.
  { rewrite (sample_preprocess 0.99 0 _ _ _ _ _ _ [1] 1 Hbatch Hbatch);
      try done.
    cbn [Spec.gae]. by rewrite normalize_single. }
  split; [done|]. split; [done|].
  simpl. intros Heq. injection Heq as Heq. lra.
Qed.

(** ** Instances on the sample data *)

Lemma sample_batch_2 : state_batch 1 2 [[0]; [0]].
Proof. split; [reflexivity | by repeat constructor]. Qed.

Lemma gae_backward_recurrence_witness :
  ∃ (delta advantages : list R) (out : AdvantageOutput),
    ModelWrapper.td_residual
      (ModelWrapper.config (Sample.container 0.99 0.95))
      [1; 1; 1] [0; 0; 1] [0; 0; 0] [0; 0; 0] = Some delta
    ∧ ModelWrapper.gae_advantages
        (ModelWrapper.config (Sample.container 0.99 0.95))
        [1; 1; 1] [0; 0; 1] [0; 0; 0] [0; 0; 0] = Some advantages
    ∧ ModelWrapper.preprocess_data (Sample.container 0.99 0.95)
        [[0]; [0]; [0]] [[0]; [0]; [0]] [0; 0; 0]%nat [1; 1; 1] [0; 0; 0]
        [0; 0; 1] = Some out
    ∧ advantage out = ModelWrapper.normalize advantages
    ∧ td_target out
      = zip_with Rplus (ModelWrapper.normalize advantages) [0; 0; 0]
    ∧ length delta = 3%nat ∧ length advantages = 3%nat
    ∧ (∀ t r d v nv,
         [1; 1; 1] !! t = Some r → [0; 0; 1] !! t = Some d →
         [0; 0; 0] !! t = Some v → [0; 0; 0] !! t = Some nv →
         delta !! t
         = Some (r + GAMMA (ModelWrapper.config (Sample.container 0.99 0.95))
                     * nv * (1 - d) - v))
    ∧ (∀ t dl d,
         delta !! t = Some dl → [0; 0; 1] !! t = Some d →
         advantages !! t
         = Some (dl + GAMMA (ModelWrapper.config (Sample.container 0.99 0.95))
                      * LAMBDA (ModelWrapper.config
                                  (Sample.container 0.99 0.95))
                      * (1 - d) * default 0 (advantages !! S t))).
Proof.
  assert (state_batch 1 3 [[0]; [0]; [0]]) as Hbatch
    by (split; [reflexivity | by repeat constructor]).
  apply (proj1 (@gae_backward_recurrence Sample.external)
           (Sample.container 0.99 0.95) [[0]; [0]; [0]] [[0]; [0]; [0]]
           [0; 0; 0]%nat [1; 1; 1] [0; 0; 0] [0; 0; 1] [0; 0; 0] [0; 0; 0]
           3%nat);
    [lia | apply (sample_values 0.99 0.95 3 _ Hbatch)
    | apply (sample_values 0.99 0.95 3 _ Hbatch)
    | reflexivity | reflexivity | reflexivity | reflexivity].
Defined.



Lemma gae_degenerate_discounting_witness :
  ∃ values next_values delta raw out,
    nn.view_flat
      <$> nn.call_critic (ModelWrapper.critic (Sample.container 0 0.95))
                         [[0]; [0]] = Some values
    ∧ nn.view_flat
        <$> nn.call_critic (ModelWrapper.critic (Sample.container 0 0.95))
                           [[0]; [0]] = Some next_values
    ∧ ModelWrapper.td_residual (Sample.config 0 0.95) [1; 2] [0; 1]
        values next_values = Some delta
    ∧ ModelWrapper.gae_advantages (Sample.config 0 0.95) [1; 2] [0; 1]
        values next_values = Some raw
    ∧ ModelWrapper.preprocess_data (Sample.container 0 0.95)
        [[0]; [0]] [[0]; [0]] [0; 0]%nat [1; 2] [0; 0] [0; 1] = Some out
    ∧ advantage out = ModelWrapper.normalize raw
    ∧ (0.95 = 0 → raw = delta)
    ∧ (0 = 0 →
         ∀ t r v, [1; 2] !! t = Some r → values !! t = Some v →
                  raw !! t = Some (r - v)).
Proof.
  apply (gae_degenerate_discounting (Sample.container 0 0.95)
           [[0]; [0]] [[0]; [0]] [0; 0]%nat [1; 2] [0; 0] [0; 1] 2%nat);
    [apply sample_well_shaped | apply sample_batch_2 | apply sample_batch_2
    | reflexivity | reflexivity].
Defined.

(** ** State dicts *)

Section StateDicts.

Implicit Types (m : nn.Module_) (sd : gmap string nn.Tensor).

Lemma state_dict_dom m : dom (nn.Module_state_dict m) = expected_keys m.
Proof. destruct m; reflexivity. Qed.

(** The six entries of a network's state dict. *)
Lemma state_dict_entries m :
  let fc := nn.getattr_module m in
  let key := String.append (nn.key_prefix m) in
  nn.Module_state_dict m !! key "fc.0.weight"%string = Some (nn.weight (nn.fc0 fc))
  ∧ nn.Module_state_dict m !! key "fc.0.bias"%string = Some (nn.bias (nn.fc0 fc))
  ∧ nn.Module_state_dict m !! key "fc.2.weight"%string = Some (nn.weight (nn.fc2 fc))
  ∧ nn.Module_state_dict m !! key "fc.2.bias"%string = Some (nn.bias (nn.fc2 fc))
  ∧ nn.Module_state_dict m !! key "fc.4.weight"%string = Some (nn.weight (nn.fc4 fc))
  ∧ nn.Module_state_dict m !! key "fc.4.bias"%string = Some (nn.bias (nn.fc4 fc)).
Proof. destruct m; repeat split; reflexivity. Qed.

Lemma expected_keys_cases m k :
  k ∈ expected_keys m →
  let key := String.append (nn.key_prefix m) in
  k = key "fc.0.weight"%string ∨ k = key "fc.0.bias"%string
  ∨ k = key "fc.2.weight"%string ∨ k = key "fc.2.bias"%string
  ∨ k = key "fc.4.weight"%string ∨ k = key "fc.4.bias"%string.
Proof.
  unfold expected_keys, nn.parameter_names. cbn [map list_to_set].
  rewrite !elem_of_union, !elem_of_singleton, elem_of_empty. tauto.
Qed.

Lemma fits_lookup m sd k p :
  fits m sd → nn.Module_state_dict m !! k = Some p →
  ∃ t, sd !! k = Some t ∧ nn.shape t = nn.shape p.
Proof.
  intros Hfits Hp. apply (f_equal (λ d, d !! k)) in Hfits.
  rewrite !lookup_fmap, Hp in Hfits.
  destruct (sd !! k) as [t|]; [|done].
  exists t. split; [done|]. simpl in Hfits. congruence.
Qed.

Lemma fits_dom m sd : fits m sd → dom sd = expected_keys m.
Proof.
  intros Hfits. rewrite <- state_dict_dom.
  rewrite <- (dom_fmap_L nn.shape sd), Hfits. apply dom_fmap_L.
Qed.

Lemma load_tensor_fits sd k p t :
  sd !! k = Some t → nn.shape t = nn.shape p →
  nn.load_tensor sd k p = (t, true).
Proof.
  intros Hk Hshape. unfold nn.load_tensor. rewrite Hk.
  rewrite decide_True by done. rewrite <- Hshape. by destruct t.
Qed.

Lemma load_tensor_ok sd k p p' :
  nn.load_tensor sd k p = (p', true) →
  sd !! k = Some p' ∧ nn.shape p' = nn.shape p.
Proof.
  unfold nn.load_tensor. destruct (sd !! k) as [t|]; [|done].
  destruct (decide (nn.shape t = nn.shape p)) as [Hshape|]; [|done].
  intros [= <-]. split; [|done]. rewrite <- Hshape. by destruct t.
Qed.

(** Loading a state dict that fits: the call ends normally and the
    network holds exactly the tensors of the state dict. *)
Lemma load_fits m sd :
  fits m sd →
  ∃ m', nn.Module_load_state_dict m sd = (m', true)
        ∧ nn.Module_state_dict m' = sd
        ∧ nn.key_prefix m' = nn.key_prefix m.
Proof.
  intros Hfits.
  pose proof (state_dict_entries m) as (H0 & H1 & H2 & H3 & H4 & H5).
  destruct (fits_lookup _ _ _ _ Hfits H0) as (t0 & Ht0 & Hs0).
  destruct (fits_lookup _ _ _ _ Hfits H1) as (t1 & Ht1 & Hs1).
  destruct (fits_lookup _ _ _ _ Hfits H2) as (t2 & Ht2 & Hs2).
  destruct (fits_lookup _ _ _ _ Hfits H3) as (t3 & Ht3 & Hs3).
  destruct (fits_lookup _ _ _ _ Hfits H4) as (t4 & Ht4 & Hs4).
  destruct (fits_lookup _ _ _ _ Hfits H5) as (t5 & Ht5 & Hs5).
  pose proof (fits_dom _ _ Hfits) as Hdom.
  set (fc' := {| nn.fc0 := {| nn.weight := t0; nn.bias := t1 |};
                 nn.fc2 := {| nn.weight := t2; nn.bias := t3 |};
                 nn.fc4 := {| nn.weight := t4; nn.bias := t5 |} |}).
  exists (match m with
          | nn.Plain _ => nn.Plain fc'
          | nn.DistributedDataParallel _ => nn.DistributedDataParallel fc'
          end).
  split; [|split; [|by destruct m]].
  - unfold nn.Module_load_state_dict, nn.load_state_dict.
    rewrite (load_tensor_fits _ _ _ _ Ht0 Hs0), (load_tensor_fits _ _ _ _ Ht1 Hs1),
      (load_tensor_fits _ _ _ _ Ht2 Hs2), (load_tensor_fits _ _ _ _ Ht3 Hs3),
      (load_tensor_fits _ _ _ _ Ht4 Hs4), (load_tensor_fits _ _ _ _ Ht5 Hs5).
    fold (expected_keys m). rewrite Hdom.
    rewrite bool_decide_eq_true_2 by done. reflexivity.
  - apply map_eq. intros k.
    destruct (decide (k ∈ expected_keys m)) as [Hk|Hk].
    + apply expected_keys_cases in Hk.
      destruct m; simpl in *;
        destruct Hk as [->|[->|[->|[->|[->| ->]]]]]; by symmetry.
    + transitivity (@None nn.Tensor).
      * apply not_elem_of_dom. rewrite state_dict_dom. by destruct m.
      * symmetry. apply not_elem_of_dom. by rewrite Hdom.
Qed.

(** Conversely, a call that ends normally was given a state dict that
    fits. *)
Lemma load_ok_fits m sd m' :
  nn.Module_load_state_dict m sd = (m', true) → fits m sd.
Proof.
  unfold nn.Module_load_state_dict, nn.load_state_dict.
  destruct (nn.load_tensor sd _ (nn.weight (nn.fc0 _))) as [t0 [|]] eqn:E0;
  destruct (nn.load_tensor sd _ (nn.bias (nn.fc0 _))) as [t1 [|]] eqn:E1;
  destruct (nn.load_tensor sd _ (nn.weight (nn.fc2 _))) as [t2 [|]] eqn:E2;
  destruct (nn.load_tensor sd _ (nn.bias (nn.fc2 _))) as [t3 [|]] eqn:E3;
  destruct (nn.load_tensor sd _ (nn.weight (nn.fc4 _))) as [t4 [|]] eqn:E4;
  destruct (nn.load_tensor sd _ (nn.bias (nn.fc4 _))) as [t5 [|]] eqn:E5;
    try (intros [= _ Hno]; discriminate Hno).
  cbn [andb]. fold (expected_keys m). intros [= _ Hdom].
  apply bool_decide_eq_true_1 in Hdom.
  apply load_tensor_ok in E0 as [E0 S0], E1 as [E1 S1], E2 as [E2 S2],
    E3 as [E3 S3], E4 as [E4 S4], E5 as [E5 S5].
  pose proof (state_dict_entries m) as (H0 & H1 & H2 & H3 & H4 & H5).
  apply map_eq. intros k. rewrite !lookup_fmap.
  destruct (decide (k ∈ expected_keys m)) as [Hk|Hk].
  - apply expected_keys_cases in Hk. cbn zeta in *.
    destruct Hk as [->|[->|[->|[->|[->| ->]]]]].
    + rewrite E0, H0. simpl. congruence.
    + rewrite E1, H1. simpl. congruence.
    + rewrite E2, H2. simpl. congruence.
    + rewrite E3, H3. simpl. congruence.
    + rewrite E4, H4. simpl. congruence.
    + rewrite E5, H5. simpl. congruence.
  - assert (sd !! k = None) as ->.
    { apply not_elem_of_dom. intros Hin. apply Hk. by apply Hdom. }
    assert (nn.Module_state_dict m !! k = None) as ->; [|done].
    apply not_elem_of_dom. by rewrite state_dict_dom.
Qed.

Lemma load_misfit m sd :
  ¬ fits m sd → ∃ m', nn.Module_load_state_dict m sd = (m', false).
Proof.
  intros Hmisfit.
  destruct (nn.Module_load_state_dict m sd) as [m' [|]] eqn:Hload.
  - destruct Hmisfit. by eapply load_ok_fits.
  - by exists m'.
Qed.

(** A network is determined by its state dict. *)
Lemma state_dict_inj (fc fc' : nn.Sequential) :
  nn.state_dict "" fc = nn.state_dict "" fc' → fc = fc'.
Proof.
  intros Heq.
  pose proof (state_dict_entries (nn.Plain fc)) as (H0 & H1 & H2 & H3 & H4 & H5).
  pose proof (state_dict_entries (nn.Plain fc')) as (G0 & G1 & G2 & G3 & G4 & G5).
  unfold nn.Module_state_dict in *. cbn [nn.key_prefix nn.getattr_module] in *.
  rewrite Heq in H0, H1, H2, H3, H4, H5.
  destruct fc as [[] [] []], fc' as [[] [] []]. simpl in *.
  congruence.
Qed.

(** A network fits the state dict of any network of the same sizes. *)
Lemma same_shapes_fit (fc fc' : nn.Sequential) :
  nn.shapes fc = nn.shapes fc' →
  fits (nn.Plain fc) (nn.state_dict "" fc').
Proof.
  unfold nn.shapes. intros [= S0 S1 S2 S3 S4 S5].
  unfold fits. apply map_eq. intros k. rewrite !lookup_fmap.
  destruct (decide (k ∈ expected_keys (nn.Plain fc))) as [Hk|Hk].
  - pose proof (state_dict_entries (nn.Plain fc)) as (H0 & H1 & H2 & H3 & H4 & H5).
    pose proof (state_dict_entries (nn.Plain fc')) as (G0 & G1 & G2 & G3 & G4 & G5).
    unfold nn.Module_state_dict in *.
    cbn [nn.key_prefix nn.getattr_module] in *.
    apply expected_keys_cases in Hk. cbn zeta in Hk.
    cbn [nn.key_prefix] in Hk.
    destruct Hk as [->|[->|[->|[->|[->| ->]]]]].
    + rewrite G0, H0. simpl. congruence.
    + rewrite G1, H1. simpl. congruence.
    + rewrite G2, H2. simpl. congruence.
    + rewrite G3, H3. simpl. congruence.
    + rewrite G4, H4. simpl. congruence.
    + rewrite G5, H5. simpl. congruence.
  - assert (nn.state_dict "" fc' !! k = None) as ->.
    { apply not_elem_of_dom.
      change (nn.state_dict "" fc') with (nn.Module_state_dict (nn.Plain fc')).
      by rewrite state_dict_dom. }
    assert (nn.Module_state_dict (nn.Plain fc) !! k = None) as ->; [|done].
    apply not_elem_of_dom. by rewrite state_dict_dom.
Qed.

End StateDicts.

(** ** [load_model], case by case *)

Section LoadModel.

Context `{External}.

Implicit Types (self : ModelWrapper.t) (printed : list string).

#[local] Abbreviation not_found path :=
  ("Model file not found at " +:+ path +:+ ".")%string.
#[local] Abbreviation loaded path :=
  ("Model loaded successfully at " +:+ path +:+ ".")%string.

Ltac run_load :=
  unfold ModelWrapper.load_model, try_except, mbind, M_bind, lift,
    ModelWrapper.actor_load_state_dict, ModelWrapper.critic_load_state_dict,
    ModelWrapper.print, torch_load, getitem.

Lemma load_model_missing fs path self printed :
  fs !! path = None →
  ModelWrapper.load_model fs path (self, printed)
  = ((self, printed ++ [not_found path]), Ok ()).
Proof. intros Hfile. run_load. by rewrite Hfile. Qed.

Lemma load_model_garbage fs path self printed :
  fs !! path = Some Garbage →
  ModelWrapper.load_model fs path (self, printed)
  = ((self, printed), Raise UnpicklingError).
Proof. intros Hfile. run_load. by rewrite Hfile. Qed.

Lemma load_model_no_actor fs path blob self printed :
  fs !! path = Some (Pickle blob) →
  blob !! "actor"%string = None →
  ModelWrapper.load_model fs path (self, printed)
  = ((self, printed), Raise (KeyError "actor")).
Proof. intros Hfile Ha. run_load. by rewrite Hfile, Ha. Qed.

Lemma load_model_actor_misfit fs path blob sd self printed :
  fs !! path = Some (Pickle blob) →
  blob !! "actor"%string = Some sd →
  ¬ fits (ModelWrapper.actor self) sd →
  ∃ m, ModelWrapper.load_model fs path (self, printed)
       = ((ModelWrapper.set_actor m self, printed), Raise RuntimeError).
Proof.
  intros Hfile Ha Hmisfit.
  destruct (load_misfit _ _ Hmisfit) as [m Hm]. exists m.
  run_load. rewrite Hfile, Ha. cbn. by rewrite Hm.
Qed.

Lemma load_model_no_critic fs path blob sd self printed :
  fs !! path = Some (Pickle blob) →
  blob !! "actor"%string = Some sd →
  fits (ModelWrapper.actor self) sd →
  blob !! "critic"%string = None →
  ∃ m, nn.Module_state_dict m = sd
       ∧ ModelWrapper.load_model fs path (self, printed)
         = ((ModelWrapper.set_actor m self, printed),
            Raise (KeyError "critic")).
Proof.
  intros Hfile Ha Hfits Hc.
  destruct (load_fits _ _ Hfits) as (m & Hm & Hsd & _). exists m.
  split; [done|]. run_load. rewrite Hfile, Ha. cbn. rewrite Hm. cbn.
  by rewrite Hc.
Qed.

Lemma load_model_critic_misfit fs path blob sd_actor sd_critic self printed :
  fs !! path = Some (Pickle blob) →
  blob !! "actor"%string = Some sd_actor →
  fits (ModelWrapper.actor self) sd_actor →
  blob !! "critic"%string = Some sd_critic →
  ¬ fits (ModelWrapper.critic self) sd_critic →
  ∃ m c, nn.Module_state_dict m = sd_actor
         ∧ ModelWrapper.load_model fs path (self, printed)
           = ((ModelWrapper.set_critic c (ModelWrapper.set_actor m self),
               printed), Raise RuntimeError).
Proof.
  intros Hfile Ha Hfits Hc Hmisfit.
  destruct (load_fits _ _ Hfits) as (m & Hm & Hsd & _).
  destruct (load_misfit _ _ Hmisfit) as [c Hc']. exists m, c.
  split; [done|]. run_load. rewrite Hfile, Ha. cbn. rewrite Hm. cbn.
  rewrite Hc. cbn. by rewrite Hc'.
Qed.

Lemma load_model_well_formed fs path blob sd_actor sd_critic self printed :
  fs !! path = Some (Pickle blob) →
  blob !! "actor"%string = Some sd_actor →
  fits (ModelWrapper.actor self) sd_actor →
  blob !! "critic"%string = Some sd_critic →
  fits (ModelWrapper.critic self) sd_critic →
  ∃ m c, nn.Module_state_dict m = sd_actor
         ∧ nn.key_prefix m = nn.key_prefix (ModelWrapper.actor self)
         ∧ nn.Module_state_dict c = sd_critic
         ∧ nn.key_prefix c = nn.key_prefix (ModelWrapper.critic self)
         ∧ ModelWrapper.load_model fs path (self, printed)
           = ((ModelWrapper.set_critic c (ModelWrapper.set_actor m self),
               printed ++ [loaded path]), Ok ()).
Proof.
  intros Hfile Ha Hfa Hc Hfc.
  destruct (load_fits _ _ Hfa) as (m & Hm & Hsd & Hpm).
  destruct (load_fits _ _ Hfc) as (c & Hc' & Hsdc & Hpc). exists m, c.
  repeat (split; [done|]). run_load. rewrite Hfile, Ha. cbn. rewrite Hm. cbn.
  rewrite Hc. cbn. by rewrite Hc'.
Qed.

End LoadModel.

(** ** Checkpoints *)

Section Checkpoints.

Context `{External}.

Lemma blank_well_shaped init_actor init_critic lr config :
  well_shaped (ModelWrapper.blank init_actor init_critic lr config).
Proof. split; reflexivity. Qed.

Lemma malformed_cases (self : ModelWrapper.t)
    (blob : gmap string (gmap string nn.Tensor)) :
  ¬ well_formed_checkpoint self blob →
  blob !! "actor"%string = None
  ∨ (∃ sd, blob !! "actor"%string = Some sd
           ∧ ¬ fits (ModelWrapper.actor self) sd)
  ∨ (∃ sd, blob !! "actor"%string = Some sd
           ∧ fits (ModelWrapper.actor self) sd
           ∧ blob !! "critic"%string = None)
  ∨ (∃ sd sd', blob !! "actor"%string = Some sd
               ∧ fits (ModelWrapper.actor self) sd
               ∧ blob !! "critic"%string = Some sd'
               ∧ ¬ fits (ModelWrapper.critic self) sd').
Proof.
  intros Hmal.
  destruct (blob !! "actor"%string) as [sd|] eqn:Ha; [|by left].
  right.
  destruct (decide (nn.shape <$> sd
                    = nn.shape <$> nn.Module_state_dict (ModelWrapper.actor self)))
    as [Hfa|Hfa]; [|left; eauto].
  right.
  destruct (blob !! "critic"%string) as [sd'|] eqn:Hc; [|left; eauto].
  right. exists sd, sd'. repeat split; try done.
  intros Hfc. apply Hmal. exists sd, sd'. by rewrite Ha, Hc.
Qed.

Lemma load_model_malformed fs path blob (self : ModelWrapper.t) printed :
  fs !! path = Some (Pickle blob) →
  ¬ well_formed_checkpoint self blob →
  ∃ self' e,
    ModelWrapper.load_model fs path (self, printed)
    = ((self', printed), Raise e)
    ∧ (e = KeyError "actor" ∨ e = KeyError "critic" ∨ e = RuntimeError).
Proof.
  intros Hfile Hmal.
  destruct (malformed_cases _ _ Hmal)
    as [Ha|[(sd & Ha & Hfa)|[(sd & Ha & Hfa & Hc)|(sd & sd' & Ha & Hfa & Hc & Hfc)]]].
  - exists self, (KeyError "actor"). split; [|by left].
    by apply load_model_no_actor with blob.
  - destruct (load_model_actor_misfit fs path blob sd self printed)
      as [m Hm]; try done.
    exists (ModelWrapper.set_actor m self), RuntimeError. by repeat split; auto.
  - destruct (load_model_no_critic fs path blob sd self printed)
      as (m & _ & Hm); try done.
    exists (ModelWrapper.set_actor m self), (KeyError "critic").
    by repeat split; auto.
  - destruct (load_model_critic_misfit fs path blob sd sd' self printed)
      as (m & c & _ & Hm); try done.
    exists (ModelWrapper.set_critic c (ModelWrapper.set_actor m self)),
      RuntimeError.
    by repeat split; auto.
Qed.

(** C7: with no file at the path, [load_model] ends normally, prints
    that the file was not found and leaves both networks as they are, so
    the constructor returns a container with the freshly initialised
    weights.  With a file that holds a malformed checkpoint (an entry
    missing, or a state dict with a missing or unexpected key or a
    tensor of another size), [load_model] raises [KeyError] or
    [RuntimeError], prints nothing, and the constructor raises the same
    exception. *)
Theorem checkpoint_missing_or_malformed
    (init_actor init_critic : nn.Init) (fs : gmap string file)
    (printed : list string) (path : string) (lr : R) (config : Config) :
  (fs !! path = None →
     (∀ self : ModelWrapper.t,
        ModelWrapper.load_model fs path (self, printed)
        = ((self, printed ++ ["Model file not found at " +:+ path +:+ "."]),
           Ok ()))
     ∧ ∃ self,
         ModelWrapper.__init__ init_actor init_critic fs printed path lr config
         = (printed ++ ["Model file not found at " +:+ path +:+ "."], Ok self)
         ∧ ModelWrapper.actor self
           = nn.Plain (nn.Actor (NUM_STATE config) (NUM_ACTION config)
                                init_actor)
         ∧ ModelWrapper.critic self
           = nn.Plain (nn.Critic (NUM_STATE config) init_critic))
  ∧ (∀ blob, fs !! path = Some (Pickle blob) →
       (∀ self : ModelWrapper.t,
          ¬ well_formed_checkpoint self blob →
          ∃ self' e,
            ModelWrapper.load_model fs path (self, printed)
            = ((self', printed), Raise e)
            ∧ (e = KeyError "actor" ∨ e = KeyError "critic"
               ∨ e = RuntimeError))
       ∧ (¬ well_formed_checkpoint
              (ModelWrapper.blank init_actor init_critic lr config) blob →
          ∃ e,
            ModelWrapper.__init__ init_actor init_critic fs printed path lr
              config = (printed, Raise e)
            ∧ (e = KeyError "actor" ∨ e = KeyError "critic"
               ∨ e = RuntimeError))).
Proof.
  split.
  - intros Hfile. split; [intros self; by apply load_model_missing|].
    eexists. unfold ModelWrapper.__init__.
    rewrite load_model_missing by done. split; [reflexivity|]. by split.
  - intros blob Hfile. split.
    + intros self. by apply load_model_malformed.
    + intros Hmal.
      destruct (load_model_malformed fs path blob _ printed Hfile Hmal)
        as (self' & e & Hload & He).
      exists e. unfold ModelWrapper.__init__. by rewrite Hload.
Qed.

(** C10: when the checkpoint has an entry for the actor that fits and
    its entry for the critic is missing or does not fit, [load_model]
    raises, and the actor it leaves behind holds the checkpoint's
    weights. *)
Theorem load_model_not_atomic
    (self : ModelWrapper.t) (fs : gmap string file) (printed : list string)
    (path : string) (blob : gmap string (gmap string nn.Tensor))
    (sd_actor : gmap string nn.Tensor) :
  fs !! path = Some (Pickle blob) →
  blob !! "actor"%string = Some sd_actor →
  fits (ModelWrapper.actor self) sd_actor →
  (blob !! "critic"%string = None
   ∨ ∃ sd_critic, blob !! "critic"%string = Some sd_critic
                  ∧ ¬ fits (ModelWrapper.critic self) sd_critic) →
  ∃ self' e,
    ModelWrapper.load_model fs path (self, printed)
    = ((self', printed), Raise e)
    ∧ (e = KeyError "critic" ∨ e = RuntimeError)
    ∧ nn.Module_state_dict (ModelWrapper.actor self') = sd_actor.
Proof.
  intros Hfile Ha Hfa [Hc|(sd_critic & Hc & Hfc)].
  - destruct (load_model_no_critic fs path blob sd_actor self printed)
      as (m & Hsd & Hload); try done.
    exists (ModelWrapper.set_actor m self), (KeyError "critic").
    by repeat split; auto.
  - destruct (load_model_critic_misfit fs path blob sd_actor sd_critic self
                printed) as (m & c & Hsd & Hload); try done.
    exists (ModelWrapper.set_critic c (ModelWrapper.set_actor m self)),
      RuntimeError.
    by repeat split; auto.
Qed.

(** C8: [save_model] writes a mapping with exactly the keys ["actor"]
    and ["critic"], each holding the state dict of the network itself,
    without the wrapper's prefix.  A container constructed afterwards
    from that file with the same configuration holds the same two
    networks, whatever its initial weights, and gives the same action
    distributions and values on every batch of states. *)
Theorem save_load_round_trip
    (self : ModelWrapper.t) (fs : gmap string file) (path : string)
    (init_actor init_critic : nn.Init) (lr : R) (printed : list string) :
  (∃ blob,
     ModelWrapper.save_model self path fs !! path = Some (Pickle blob)
     ∧ dom blob = {["actor"%string; "critic"%string]}
     ∧ blob !! "actor"%string
       = Some (nn.state_dict "" (nn.getattr_module (ModelWrapper.actor self)))
     ∧ blob !! "critic"%string
       = Some (nn.state_dict "" (nn.getattr_module (ModelWrapper.critic self))))
  ∧ (well_shaped self →
     ∃ restored,
       ModelWrapper.__init__ init_actor init_critic
         (ModelWrapper.save_model self path fs) printed path lr
         (ModelWrapper.config self)
       = (printed ++ ["Model loaded successfully at " +:+ path +:+ "."],
          Ok restored)
       ∧ ModelWrapper.actor restored
         = nn.Plain (nn.getattr_module (ModelWrapper.actor self))
       ∧ ModelWrapper.critic restored
         = nn.Plain (nn.getattr_module (ModelWrapper.critic self))
       ∧ ∀ states,
           nn.call_actor (ModelWrapper.actor restored) states
           = nn.call_actor (ModelWrapper.actor self) states
           ∧ nn.call_critic (ModelWrapper.critic restored) states
             = nn.call_critic (ModelWrapper.critic self) states).
Proof.
  split.
  - eexists. unfold ModelWrapper.save_model, torch_save.
    split; [apply lookup_insert_eq|].
    split; [|split; [apply lookup_insert_eq|]].
    + rewrite !dom_insert_L, dom_empty_L. set_solver.
    + rewrite lookup_insert_ne by done. apply lookup_insert_eq.
  - intros [Hactor Hcritic].
    set (sd_actor := nn.state_dict "" (nn.getattr_module (ModelWrapper.actor self))).
    set (sd_critic := nn.state_dict "" (nn.getattr_module (ModelWrapper.critic self))).
    destruct (load_model_well_formed
                (ModelWrapper.save_model self path fs) path
                (<["actor"%string := sd_actor]>
                   (<["critic"%string := sd_critic]> ∅))
                sd_actor sd_critic
                (ModelWrapper.blank init_actor init_critic lr
                   (ModelWrapper.config self)) printed)
      as (m & c & Hm & Hpm & Hc & Hpc & Hload).
    { apply lookup_insert_eq. }
    { apply lookup_insert_eq. }
    { apply same_shapes_fit. by rewrite Hactor. }
    { rewrite lookup_insert_ne by done. apply lookup_insert_eq. }
    { apply same_shapes_fit. by rewrite Hcritic. }
    assert (m = nn.Plain (nn.getattr_module (ModelWrapper.actor self))) as ->.
    { destruct m as [fc|fc]; [|done]. f_equal. by apply state_dict_inj. }
    assert (c = nn.Plain (nn.getattr_module (ModelWrapper.critic self))) as ->.
    { destruct c as [fc|fc]; [|done]. f_equal. by apply state_dict_inj. }
    eexists. unfold ModelWrapper.__init__. rewrite Hload.
    split; [reflexivity|]. cbn. split; [done|]. split; [done|].
    intros states. split.
    + unfold nn.call_actor. by destruct (ModelWrapper.actor self).
    + unfold nn.call_critic. by destruct (ModelWrapper.critic self).
Qed.

End Checkpoints.

(** ** The training step *)

Section ForwardBatch.

Lemma call_actor_rows (m : nn.Module_) (states : list (list R)) :
  states ≠ [] →
  nn.call_actor m states
  = mapM (M := option) (nn.Actor_forward (nn.getattr_module m)) states.
Proof. by destruct states. Qed.

Lemma call_actor_total (m : nn.Module_) n k B (states : list (list R)) :
  nn.shapes (nn.getattr_module m) = architecture n k →
  state_batch n B states →
  (1 ≤ B)%nat →
  ∃ dists,
    nn.call_actor m states = Some dists
    ∧ length dists = B
    ∧ Forall (λ d, length (nn.logits d) = k) dists
    ∧ ∀ i s, states !! i = Some s →
        ∃ d, nn.Actor_forward (nn.getattr_module m) s = Some d
             ∧ dists !! i = Some d.
Proof.
  intros Hshapes [<- Hwidth] HB.
  rewrite call_actor_rows by (intros ->; simpl in HB; lia). clear HB.
  induction Hwidth as [|s states Hs Hwidth IH].
  - exists []. repeat split; [constructor|]. intros i s. by rewrite lookup_nil.
  - destruct IH as (dists & Hdists & Hlen & Hall & Hlookup).
    destruct (Sequential_forward_total _ _ _ s Hshapes Hs) as (y & Hy & Hk).
    assert (nn.Actor_forward (nn.getattr_module m) s
            = Some {| nn.logits := y |}) as Hd.
    { unfold nn.Actor_forward. by rewrite Hy. }
    exists ({| nn.logits := y |} :: dists). split.
    { simpl. rewrite Hd. simpl. by rewrite Hdists. }
    split; [simpl; by rewrite Hlen|].
    split; [by constructor|].
    intros [|i] s' Hs'; simpl in *.
    + injection Hs' as <-. eauto.
    + by apply Hlookup.
Qed.

Lemma log_prob_rows_total (dists : list nn.Categorical) (actions : list nat) k :
  length actions = length dists →
  Forall (λ d, length (nn.logits d) = k) dists →
  Forall (λ a, (a < k)%nat) actions →
  ∃ lps,
    nn.log_prob_rows dists actions = Some lps
    ∧ length lps = length dists
    ∧ ∀ i d a, dists !! i = Some d → actions !! i = Some a →
        ∃ lp, nn.log_prob d a = Some lp ∧ lps !! i = Some lp.
Proof.
  intros Hlen Hdists Hactions. unfold nn.log_prob_rows.
  rewrite broadcast_aligned by done. cbn [mbind option_bind].
  revert actions Hlen Hactions.
  induction Hdists as [|d dists Hd Hdists IH];
    intros [|a actions] Hlen Hactions; try done.
  - exists []. repeat split. intros i d a. by rewrite lookup_nil.
  - apply Forall_cons in Hactions as [Ha Hactions].
    destruct (IH actions) as (lps & Hlps & Hl & Hlookup); [simpl in *; lia|done|].
    destruct (lookup_lt_is_Some_2 (nn.logits d) a) as [l Hlogit]; [lia|].
    set (lp := l - ln (np.sum (map exp (nn.logits d)))).
    assert (nn.log_prob d a = Some lp) as Hlp.
    { unfold nn.log_prob. by rewrite Hlogit. }
    exists (lp :: lps). split.
    { cbn [zip_with mapM]. rewrite Hlp. cbn [mbind option_bind].
      by rewrite Hlps. }
    split; [simpl; by rewrite Hl|].
    intros [|i] d' a' Hd' Ha'; simpl in *.
    + injection Hd' as <-. injection Ha' as <-. eauto.
    + by eapply Hlookup.
Qed.

End ForwardBatch.

Section LossFormulas.

Lemma clamp_is_clip x lo hi : Rmin (Rmax x lo) hi = Spec.clip x lo hi.
Proof. unfold Spec.clip. apply Rmin_comm. Qed.

(** For a non-empty range [clip] is the usual three-way choice. *)
Lemma clip_cases x lo hi :
  lo <= hi →
  Spec.clip x lo hi
  = if Rlt_dec x lo then lo else if Rlt_dec hi x then hi else x.
Proof.
  intros Hrange. unfold Spec.clip, Rmin, Rmax.
  destruct (Rlt_dec x lo), (Rlt_dec hi x), (Rle_dec x lo);
    try destruct (Rle_dec hi lo); try destruct (Rle_dec hi x); lra.
Qed.

Lemma surrogate_zip eps (ratio advantage : list R) :
  zip_with Rmin
    (zip_with Rmult ratio advantage)
    (zip_with Rmult (map (λ x, Rmin (Rmax x (1 - eps)) (1 + eps)) ratio)
                    advantage)
  = zip_with (Spec.surrogate eps) ratio advantage.
Proof.
  revert advantage.
  induction ratio as [|r ratio IH]; intros [|a advantage]; try done.
  simpl. rewrite IH. unfold Spec.surrogate at 1. by rewrite clamp_is_clip.
Qed.

Lemma squared_error_zip (target value : list R) :
  zip_with Rmult (zip_with Rminus target value) (zip_with Rminus target value)
  = zip_with (λ y v, (y - v) * (y - v)) target value.
Proof.
  revert value. induction target as [|y target IH]; intros [|v value];
    try done.
  simpl. by rewrite IH.
Qed.

End LossFormulas.

Section TrainingStep.

Context `{External}.

Variable self : ModelWrapper.t.
Variables batch_state batch_next_state : list (list R).
Variable batch_action : list nat.
Variables batch_reward batch_done : list R.
Variable batch_log_prob : torch.Tensor.
Variable preprocess_data : AdvantageTensors.t.
Variable B : nat.

Hypothesis Hshaped : well_shaped self.
Hypothesis Hstates :
  state_batch (NUM_STATE (ModelWrapper.config self)) B batch_state.
Hypothesis Hbatch : (1 ≤ B)%nat.
Hypothesis Hactions : length batch_action = B.
Hypothesis Hsupport :
  Forall (λ a, (a < NUM_ACTION (ModelWrapper.config self))%nat) batch_action.
Hypothesis Hold : length (torch.val batch_log_prob) = B.
Hypothesis Hadvantage :
  length (torch.val (AdvantageTensors.advantage preprocess_data)) = B.
Hypothesis Htarget :
  length (torch.val (AdvantageTensors.td_target preprocess_data)) = B.

#[local] Abbreviation pi :=
  (nn.Actor_forward (nn.getattr_module (ModelWrapper.actor self))).
#[local] Abbreviation V :=
  (nn.Critic_forward (nn.getattr_module (ModelWrapper.critic self))).

(** Lines 94 to 104 on a well-formed batch: the values of the two
    losses, and which parameters their graphs reach. *)
Lemma compute_losses_spec :
  ∃ new_log_prob value actor_loss critic_loss,
    length new_log_prob = B
    ∧ (∀ i s a, batch_state !! i = Some s → batch_action !! i = Some a →
         ∃ dist lp, pi s = Some dist ∧ nn.log_prob dist a = Some lp
                    ∧ new_log_prob !! i = Some lp)
    ∧ length value = B
    ∧ (∀ i s, batch_state !! i = Some s →
         ∃ v, V s = Some [v] ∧ value !! i = Some v)
    ∧ ModelWrapper.compute_losses self batch_state batch_action
        batch_log_prob preprocess_data
      = Some (actor_loss, critic_loss)
    ∧ torch.item actor_loss
      = Spec.actor_loss (EPS_CLIP (ModelWrapper.config self))
          (map exp (zip_with Rminus new_log_prob (torch.val batch_log_prob)))
          (torch.val (AdvantageTensors.advantage preprocess_data))
    ∧ torch.item critic_loss
      = Spec.critic_loss
          (torch.val (AdvantageTensors.td_target preprocess_data)) value
    ∧ torch.reaches (torch.graph_of actor_loss) torch.actor = true
    ∧ torch.reaches (torch.graph_of actor_loss) torch.critic
      = torch.reaches (torch.graph batch_log_prob) torch.critic
        || torch.reaches
             (torch.graph (AdvantageTensors.advantage preprocess_data))
             torch.critic
    ∧ torch.reaches (torch.graph_of critic_loss) torch.critic = true
    ∧ torch.reaches (torch.graph_of critic_loss) torch.actor
      = torch.reaches
          (torch.graph (AdvantageTensors.td_target preprocess_data))
          torch.actor.
Proof.
  destruct Hshaped as [Hactor Hcritic].
  destruct (call_critic_total _ _ _ _ Hcritic Hstates)
    as (value & Hvalue & Hvlen & Hvlookup).
  destruct (call_actor_total _ _ _ _ _ Hactor Hstates Hbatch)
    as (dists & Hdists & Hdlen & Hwidth & Hdlookup).
  destruct (log_prob_rows_total dists batch_action
              (NUM_ACTION (ModelWrapper.config self))) as
    (lps & Hlps & Hllen & Hllookup); [congruence | done | done |].
  eexists lps, value, _, _. split; [congruence|]. split.
  { intros i s a Hs Ha. destruct (Hdlookup i s Hs) as (d & Hd & Hdi).
    destruct (Hllookup i d a Hdi Ha) as (lp & Hlp & Hlpi). eauto. }
  split; [done|]. split; [done|].
  split.
  { unfold ModelWrapper.compute_losses.
    destruct (nn.call_critic (ModelWrapper.critic self) batch_state)
      as [rows|]; [|done].
    injection Hvalue as Hvalue. cbn [mbind option_bind]. rewrite Hvalue.
    rewrite Hdists. cbn [mbind option_bind]. rewrite Hlps.
    cbn [mbind option_bind].
    unfold torch.mse_loss, torch.sub, torch.mul, torch.min, torch.lift2,
      torch.exp, torch.clamp.
    repeat first
      [ rewrite broadcast_aligned
          by (rewrite ?length_zip_with, ?length_map, ?length_zip_with,
                ?length_map; lia)
      | progress cbn [mbind option_bind fmap option_fmap option_map
                      torch.val torch.graph] ].
    reflexivity. }
  unfold torch.neg, torch.mean, Spec.actor_loss, Spec.critic_loss.
  cbn [torch.item torch.graph_of torch.val torch.graph].
  rewrite surrogate_zip, squared_error_zip.
  split; [reflexivity|]. split; [reflexivity|].
  destruct (torch.graph batch_log_prob) as [[] []],
    (torch.graph (AdvantageTensors.advantage preprocess_data)) as [[] []],
    (torch.graph (AdvantageTensors.td_target preprocess_data)) as [[] []];
    by repeat split.
Qed.

(** [train_model] on a well-formed batch, with its losses in the
    specification's form. *)
Lemma train_model_spec :
  ∃ new_log_prob value self' losses,
    length new_log_prob = B
    ∧ (∀ i s a, batch_state !! i = Some s → batch_action !! i = Some a →
         ∃ dist lp, pi s = Some dist ∧ nn.log_prob dist a = Some lp
                    ∧ new_log_prob !! i = Some lp)
    ∧ length value = B
    ∧ (∀ i s, batch_state !! i = Some s →
         ∃ v, V s = Some [v] ∧ value !! i = Some v)
    ∧ ModelWrapper.train_model self batch_state batch_next_state batch_action
        batch_reward batch_log_prob batch_done preprocess_data
      = Some (self', losses)
    ∧ torch.item (actor_loss losses)
      = Spec.actor_loss (EPS_CLIP (ModelWrapper.config self))
          (map exp (zip_with Rminus new_log_prob (torch.val batch_log_prob)))
          (torch.val (AdvantageTensors.advantage preprocess_data))
    ∧ torch.item (critic_loss losses)
      = Spec.critic_loss
          (torch.val (AdvantageTensors.td_target preprocess_data)) value.
Proof.
  destruct compute_losses_spec
    as (new_log_prob & value & al & cl & Hlen & Hpi & Hvlen & Hv & Hlosses
        & Hal & Hcl & _).
  eexists new_log_prob, value, _, _.
  repeat (split; [done|]).
  unfold ModelWrapper.train_model. rewrite Hlosses.
  cbn [mbind option_bind]. split; [reflexivity|]. by cbn.
Qed.

End TrainingStep.

Lemma graph_is_leaf (g : torch.Graph) (r : torch.role) :
  torch.reaches g torch.actor = torch.reaches (torch.leaf r) torch.actor →
  torch.reaches g torch.critic = torch.reaches (torch.leaf r) torch.critic →
  g = torch.leaf r.
Proof. destruct g, r; cbn; by intros -> ->. Qed.

(** C3: on a well-formed batch of at least one transition [train_model]
    returns, with [ratio = exp(new_log_prob - old_log_prob)] taken from
    a forward pass of the actor as it stands, the actor loss
    [-mean(min(ratio * advantage,
               clip(ratio, 1 - EPS_CLIP, 1 + EPS_CLIP) * advantage))]
    and, with [value] from a forward pass of the critic, the critic loss
    [mean((td_target - value)^2)]; the graph of the first reaches the
    actor's parameters and that of the second the critic's, and they
    reach nothing else where the tensors of the batch carry no graph. *)
Theorem train_model_losses `{External}
    (self : ModelWrapper.t) (batch_state batch_next_state : list (list R))
    (batch_action : list nat) (batch_reward : list R)
    (batch_log_prob : torch.Tensor) (batch_done : list R)
    (preprocess_data : AdvantageTensors.t) (B : nat) :
  well_shaped self →
  state_batch (NUM_STATE (ModelWrapper.config self)) B batch_state →
  (1 ≤ B)%nat →
  length batch_action = B →
  Forall (λ a, (a < NUM_ACTION (ModelWrapper.config self))%nat) batch_action →
  length (torch.val batch_log_prob) = B →
  length (torch.val (AdvantageTensors.advantage preprocess_data)) = B →
  length (torch.val (AdvantageTensors.td_target preprocess_data)) = B →
  ∃ new_log_prob value self' losses,
    length new_log_prob = B
    ∧ (∀ i s a, batch_state !! i = Some s → batch_action !! i = Some a →
         ∃ dist lp,
           nn.Actor_forward (nn.getattr_module (ModelWrapper.actor self)) s
             = Some dist
           ∧ nn.log_prob dist a = Some lp
           ∧ new_log_prob !! i = Some lp)
    ∧ length value = B
    ∧ (∀ i s, batch_state !! i = Some s →
         ∃ v,
           nn.Critic_forward (nn.getattr_module (ModelWrapper.critic self)) s
             = Some [v]
           ∧ value !! i = Some v)
    ∧ ModelWrapper.train_model self batch_state batch_next_state batch_action
        batch_reward batch_log_prob batch_done preprocess_data
      = Some (self', losses)
    ∧ torch.item (actor_loss losses)
      = Spec.actor_loss (EPS_CLIP (ModelWrapper.config self))
          (map exp (zip_with Rminus new_log_prob (torch.val batch_log_prob)))
          (torch.val (AdvantageTensors.advantage preprocess_data))
    ∧ torch.item (critic_loss losses)
      = Spec.critic_loss
          (torch.val (AdvantageTensors.td_target preprocess_data)) value
    ∧ torch.item (loss losses)
      = torch.item (actor_loss losses) + torch.item (critic_loss losses)
    ∧ torch.reaches (torch.graph_of (actor_loss losses)) torch.actor = true
    ∧ torch.reaches (torch.graph_of (critic_loss losses)) torch.critic = true
    ∧ (torch.graph batch_log_prob = torch.detached →
       torch.graph (AdvantageTensors.advantage preprocess_data)
         = torch.detached →
       torch.graph_of (actor_loss losses) = torch.leaf torch.actor)
    ∧ (torch.graph (AdvantageTensors.td_target preprocess_data)
         = torch.detached →
       torch.graph_of (critic_loss losses) = torch.leaf torch.critic).
Proof.
  intros Hshaped Hstates HB Hactions Hsupport Hold Hadvantage Htarget.
  destruct (compute_losses_spec self batch_state batch_action batch_log_prob
              preprocess_data B Hshaped Hstates HB Hactions Hsupport Hold
              Hadvantage Htarget)
    as (new_log_prob & value & al & cl & Hlen & Hpi & Hvlen & Hv & Hlosses
        & Hal & Hcl & Haa & Hac & Hcc & Hca).
  eexists new_log_prob, value, _, _.
  repeat (split; [done|]).
  unfold ModelWrapper.train_model. rewrite Hlosses.
  cbn [mbind option_bind]. split; [reflexivity|].
  cbn [actor_loss critic_loss loss torch.add_scalars torch.item].
  repeat (split; [done|]). split.
  - intros Hg1 Hg2. apply graph_is_leaf; [done|].
    by rewrite Hac, Hg1, Hg2.
  - intros Hg. apply graph_is_leaf; [|done]. by rewrite Hca, Hg.
Qed.

(** C6: in [train_model], on a well-formed batch of at least one
    transition, each network's gradient buffer is cleared before the
    backward pass of its loss, so that the buffer then holds the
    gradient of that loss alone, whatever it held before; the actor's
    step leaves the critic's parameters and optimizer as they were, and
    the critic's step leaves the actor's.  The other network's buffer
    is left as it was too, unless a tensor of the batch carries a graph
    that reaches that network's parameters. *)
Theorem optimisation_steps_isolated `{External}
    (self : ModelWrapper.t) (batch_state batch_next_state : list (list R))
    (batch_action : list nat) (batch_reward : list R)
    (batch_log_prob : torch.Tensor) (batch_done : list R)
    (preprocess_data : AdvantageTensors.t) (B : nat) :
  well_shaped self →
  state_batch (NUM_STATE (ModelWrapper.config self)) B batch_state →
  (1 ≤ B)%nat →
  length batch_action = B →
  Forall (λ a, (a < NUM_ACTION (ModelWrapper.config self))%nat) batch_action →
  length (torch.val batch_log_prob) = B →
  length (torch.val (AdvantageTensors.advantage preprocess_data)) = B →
  length (torch.val (AdvantageTensors.td_target preprocess_data)) = B →
  ∃ self' losses tape,
    ModelWrapper.train_model self batch_state batch_next_state batch_action
      batch_reward batch_log_prob batch_done preprocess_data
    = Some (self', losses)
    ∧ tape = ModelWrapper.recorded self batch_state batch_action
               batch_log_prob preprocess_data (actor_loss losses)
               (critic_loss losses)
    ∧ self' = ModelWrapper.after 6 tape self
    ∧ (let g := autograd torch.actor_loss torch.actor
                         (ModelWrapper.forward tape) in
       let before := self in
       let cleared := ModelWrapper.after 1 tape self in
       let propagated := ModelWrapper.after 2 tape self in
       let stepped := ModelWrapper.after 3 tape self in
       ModelWrapper.actor_grad cleared = None
       ∧ ModelWrapper.actor_grad propagated = Some g
       ∧ (nn.getattr_module (ModelWrapper.actor stepped),
          ModelWrapper.actor_optimizer stepped)
         = Adam_step (ModelWrapper.actor_optimizer before)
                     (nn.getattr_module (ModelWrapper.actor before)) g
       ∧ ModelWrapper.critic stepped = ModelWrapper.critic before
       ∧ ModelWrapper.critic_optimizer stepped
         = ModelWrapper.critic_optimizer before
       ∧ (torch.reaches (torch.graph batch_log_prob) torch.critic = false →
          torch.reaches
            (torch.graph (AdvantageTensors.advantage preprocess_data))
            torch.critic = false →
          ModelWrapper.critic_grad propagated
            = ModelWrapper.critic_grad before
          ∧ ModelWrapper.critic_grad stepped
            = ModelWrapper.critic_grad before))
    ∧ (let g := autograd torch.critic_loss torch.critic
                         (ModelWrapper.forward tape) in
       let before := ModelWrapper.after 3 tape self in
       let cleared := ModelWrapper.after 4 tape self in
       let propagated := ModelWrapper.after 5 tape self in
       let stepped := ModelWrapper.after 6 tape self in
       ModelWrapper.critic_grad cleared = None
       ∧ ModelWrapper.critic_grad propagated = Some g
       ∧ (nn.getattr_module (ModelWrapper.critic stepped),
          ModelWrapper.critic_optimizer stepped)
         = Adam_step (ModelWrapper.critic_optimizer self)
                     (nn.getattr_module (ModelWrapper.critic self)) g
       ∧ ModelWrapper.actor stepped = ModelWrapper.actor before
       ∧ ModelWrapper.actor_optimizer stepped
         = ModelWrapper.actor_optimizer before
       ∧ (torch.reaches
            (torch.graph (AdvantageTensors.td_target preprocess_data))
            torch.actor = false →
          ModelWrapper.actor_grad propagated = ModelWrapper.actor_grad before
          ∧ ModelWrapper.actor_grad stepped
            = ModelWrapper.actor_grad before)).
Proof.
  intros Hshaped Hstates HB Hactions Hsupport Hold Hadvantage Htarget.
  destruct (compute_losses_spec self batch_state batch_action batch_log_prob
              preprocess_data B Hshaped Hstates HB Hactions Hsupport Hold
              Hadvantage Htarget)
    as (new_log_prob & value & al & cl & _ & _ & _ & _ & Hlosses
        & _ & _ & Haa & Hac & Hcc & Hca).
  destruct al as [al_item [al_actor al_critic]],
    cl as [cl_item [cl_actor cl_critic]].
  cbn [torch.graph_of torch.reaches torch.reaches_actor torch.reaches_critic]
    in Haa, Hac, Hcc, Hca.
  subst al_actor cl_critic.
  eexists _, _, _.
  unfold ModelWrapper.train_model. rewrite Hlosses.
  cbn [mbind option_bind]. split; [reflexivity|].
  split; [reflexivity|]. split; [reflexivity|].
  cbn [actor_loss critic_loss].
  unfold ModelWrapper.after, ModelWrapper.update_program, ModelWrapper.run,
    ModelWrapper.recorded.
  simpl. unfold ModelWrapper.deposit, ModelWrapper.optimizer_step. simpl.
  split.
  - destruct al_critic; simpl;
      destruct (Adam_step (ModelWrapper.actor_optimizer self) _ _)
        as [p_actor o_actor] eqn:Hactor_step; simpl.
    all: do 2 (split; [reflexivity|]).
    all: split; [f_equal; by destruct (ModelWrapper.actor self)|].
    all: do 2 (split; [reflexivity|]).
    + intros Hg1 Hg2. rewrite Hg1, Hg2 in Hac. discriminate Hac.
    + by intros _ _.
  - destruct al_critic, cl_actor; simpl;
      destruct (Adam_step (ModelWrapper.actor_optimizer self) _ _)
        as [p_actor o_actor] eqn:Hactor_step; simpl;
      destruct (Adam_step (ModelWrapper.critic_optimizer self) _ _)
        as [p_critic o_critic] eqn:Hcritic_step; simpl.
    all: do 2 (split; [reflexivity|]).
    all: split; [f_equal; by destruct (ModelWrapper.critic self)|].
    all: do 2 (split; [reflexivity|]).
    all: first [ by intros _
               | intros Hg; rewrite Hg in Hca; discriminate Hca ].
Qed.

(** C9, as the code has it: [prepare_model] stores what the adapter
    returns in attributes of the worker and leaves the container as it
    is, so [train_model] and [save_model] called on the worker
    afterwards run on the container's own networks, as they would have
    without the call. *)
Theorem prepare_model_leaves_container `{External} (self : Worker.t) :
  let prepared := Worker.prepare_model self in
  Worker.model prepared = Worker.model self
  ∧ ModelWrapper.actor (Worker.model prepared)
    = ModelWrapper.actor (Worker.model self)
  ∧ ModelWrapper.critic (Worker.model prepared)
    = ModelWrapper.critic (Worker.model self)
  ∧ Worker.attributes prepared
    = <["critic"%string :=
          ray_prepare_model (ModelWrapper.critic (Worker.model self))]>
        (<["actor"%string :=
             ray_prepare_model (ModelWrapper.actor (Worker.model self))]>
           (Worker.attributes self))
  ∧ (∀ path fs,
       Worker.save_model prepared path fs = Worker.save_model self path fs)
  ∧ (∀ batch_state batch_next_state batch_action batch_reward batch_log_prob
       batch_done batch,
       (λ r, (Worker.model r.1, r.2))
         <$> Worker.train_model prepared batch_state batch_next_state
               batch_action batch_reward batch_log_prob batch_done batch
       = ModelWrapper.train_model (Worker.model self) batch_state
           batch_next_state batch_action batch_reward batch_log_prob
           batch_done batch).
Proof.
  cbn zeta. unfold Worker.prepare_model, ModelWrapper.get_model.
  cbn [foldl fst snd Worker.setattr Worker.model Worker.attributes].
  repeat split; try reflexivity.
  intros. unfold Worker.train_model. cbn [Worker.model].
  destruct (ModelWrapper.train_model _ _ _ _ _ _ _ _) as [[m losses]|];
    reflexivity.
Qed.

(** The sample worker, whose adapter wraps: the worker's attribute
    holds the wrapped actor, and the container's actor is the one it was. *)
Lemma prepare_model_sample :
  let prepared := Worker.prepare_model Sample.worker in
  Worker.attributes prepared !! "actor"%string
  = Some (nn.DistributedDataParallel (nn.Actor 1 2 (Sample.zeros 1 2)))
  ∧ ModelWrapper.actor (Worker.model prepared)
    = nn.Plain (nn.Actor 1 2 (Sample.zeros 1 2))
  ∧ ModelWrapper.critic (Worker.model prepared)
    = nn.Plain (nn.Critic 1 (Sample.zeros 1 1)).
Proof.
  cbn zeta. split; [|by split].
  unfold Worker.prepare_model, ModelWrapper.get_model.
  cbn [foldl fst snd Worker.setattr Worker.attributes Worker.model].
  rewrite lookup_insert_ne by done. by rewrite lookup_insert_eq.
Qed.

(** ** Further instances on the sample data *)

Lemma train_model_losses_witness :
  ∃ new_log_prob value self' losses,
    length new_log_prob = 2%nat
    ∧ (∀ i s a, [[0]; [0]] !! i = Some s → [0; 1]%nat !! i = Some a →
         ∃ dist lp,
           nn.Actor_forward
             (nn.getattr_module
                (ModelWrapper.actor (Sample.container 0.99 0.95))) s
             = Some dist
           ∧ nn.log_prob dist a = Some lp
           ∧ new_log_prob !! i = Some lp)
    ∧ length value = 2%nat
    ∧ (∀ i s, [[0]; [0]] !! i = Some s →
         ∃ v,
           nn.Critic_forward
             (nn.getattr_module
                (ModelWrapper.critic (Sample.container 0.99 0.95))) s
             = Some [v]
           ∧ value !! i = Some v)
    ∧ ModelWrapper.train_model (Sample.container 0.99 0.95)
        [[0]; [0]] [[0]; [0]] [0; 1]%nat [1; 2] (torch.tensor [0; 0]) [0; 1]
        Sample.tensors
      = Some (self', losses)
    ∧ torch.item (actor_loss losses)
      = Spec.actor_loss 0.2 (map exp (zip_with Rminus new_log_prob [0; 0]))
          [1; -1]
    ∧ torch.item (critic_loss losses) = Spec.critic_loss [1; 2] value
    ∧ torch.item (loss losses)
      = torch.item (actor_loss losses) + torch.item (critic_loss losses)
    ∧ torch.reaches (torch.graph_of (actor_loss losses)) torch.actor = true
    ∧ torch.reaches (torch.graph_of (critic_loss losses)) torch.critic = true
    ∧ (torch.detached = torch.detached → torch.detached = torch.detached →
       torch.graph_of (actor_loss losses) = torch.leaf torch.actor)
    ∧ (torch.detached = torch.detached →
       torch.graph_of (critic_loss losses) = torch.leaf torch.critic).
Proof.
  apply (train_model_losses (Sample.container 0.99 0.95)
           [[0]; [0]] [[0]; [0]] [0; 1]%nat [1; 2] (torch.tensor [0; 0])
           [0; 1] Sample.tensors 2%nat);
    [apply sample_well_shaped | apply sample_batch_2 | lia | reflexivity
    | repeat constructor | reflexivity | reflexivity | reflexivity].
Defined.

Lemma optimisation_steps_isolated_witness :
  ∃ self' losses tape,
    ModelWrapper.train_model (Sample.container 0.99 0.95)
      [[0]; [0]] [[0]; [0]] [0; 1]%nat [1; 2] (torch.tensor [0; 0]) [0; 1]
      Sample.tensors
    = Some (self', losses)
    ∧ tape = ModelWrapper.recorded (Sample.container 0.99 0.95)
               [[0]; [0]] [0; 1]%nat (torch.tensor [0; 0]) Sample.tensors
               (actor_loss losses) (critic_loss losses)
    ∧ self' = ModelWrapper.after 6 tape (Sample.container 0.99 0.95)
    ∧ ModelWrapper.actor_grad
        (ModelWrapper.after 1 tape (Sample.container 0.99 0.95)) = None
    ∧ ModelWrapper.critic_grad
        (ModelWrapper.after 4 tape (Sample.container 0.99 0.95)) = None
    ∧ ModelWrapper.critic
        (ModelWrapper.after 3 tape (Sample.container 0.99 0.95))
      = ModelWrapper.critic (Sample.container 0.99 0.95)
    ∧ ModelWrapper.critic_grad
        (ModelWrapper.after 3 tape (Sample.container 0.99 0.95))
      = ModelWrapper.critic_grad (Sample.container 0.99 0.95)
    ∧ ModelWrapper.actor self'
      = ModelWrapper.actor
          (ModelWrapper.after 3 tape (Sample.container 0.99 0.95))
    ∧ ModelWrapper.actor_grad self'
      = ModelWrapper.actor_grad
          (ModelWrapper.after 3 tape (Sample.container 0.99 0.95)).
Proof.
  destruct (optimisation_steps_isolated (Sample.container 0.99 0.95)
              [[0]; [0]] [[0]; [0]] [0; 1]%nat [1; 2] (torch.tensor [0; 0])
              [0; 1] Sample.tensors 2%nat)
    as (self' & losses & tape & Htrain & Htape & Hself & Hactor & Hcritic);
    [apply sample_well_shaped | apply sample_batch_2 | lia | reflexivity
    | repeat constructor | reflexivity | reflexivity | reflexivity |].
  cbn zeta in Hactor, Hcritic.
  destruct Hactor as (Ha1 & _ & _ & Ha4 & _ & Ha6).
  destruct Hcritic as (Hc1 & _ & _ & Hc4 & _ & Hc6).
  exists self', losses, tape.
  split; [exact Htrain|]. split; [exact Htape|]. split; [exact Hself|].
  split; [exact Ha1|]. split; [exact Hc1|]. split; [exact Ha4|].
  split; [exact (proj2 (Ha6 eq_refl eq_refl))|].
  rewrite Hself. split; [exact Hc4|].
  exact (proj2 (Hc6 eq_refl)).
Defined.

Lemma checkpoint_missing_or_malformed_witness :
  (∃ self,
     @ModelWrapper.__init__ Sample.external (Sample.zeros 1 2)
       (Sample.zeros 1 1) ∅ []
       "model.pt" 0.001 (Sample.config 0.99 0.95)
     = ([] ++ ["Model file not found at " +:+ "model.pt" +:+ "."], Ok self)
     ∧ ModelWrapper.actor self = nn.Plain (nn.Actor 1 2 (Sample.zeros 1 2))
     ∧ ModelWrapper.critic self = nn.Plain (nn.Critic 1 (Sample.zeros 1 1)))
  ∧ (∃ e,
       @ModelWrapper.__init__ Sample.external (Sample.zeros 1 2)
         (Sample.zeros 1 1)
         {[ "model.pt"%string := Pickle ∅ ]} [] "model.pt" 0.001
         (Sample.config 0.99 0.95)
       = ([], Raise e)
       ∧ (e = KeyError "actor" ∨ e = KeyError "critic" ∨ e = RuntimeError)).
Proof.
  split.
  - apply (proj1 (@checkpoint_missing_or_malformed Sample.external
                    (Sample.zeros 1 2)
                    (Sample.zeros 1 1) ∅ [] "model.pt" 0.001
                    (Sample.config 0.99 0.95))).
    apply lookup_empty.
  - apply (proj2 (@checkpoint_missing_or_malformed Sample.external
                    (Sample.zeros 1 2)
                    (Sample.zeros 1 1) {[ "model.pt"%string := Pickle ∅ ]} []
                    "model.pt" 0.001 (Sample.config 0.99 0.95)) ∅).
    + apply lookup_singleton_eq.
    + intros (sd_actor & sd_critic & Hactor & _).
      rewrite lookup_empty in Hactor. discriminate Hactor.
Defined.

Lemma load_model_not_atomic_witness :
  ∃ self' e,
    ModelWrapper.load_model {[ "model.pt"%string := Pickle Sample.actor_only ]}
      "model.pt" (Sample.container 0.99 0.95, [])
    = ((self', []), Raise e)
    ∧ (e = KeyError "critic" ∨ e = RuntimeError)
    ∧ nn.Module_state_dict (ModelWrapper.actor self')
      = nn.state_dict "" (nn.Actor 1 2 (Sample.ones 1 2)).
Proof.
  apply (load_model_not_atomic (Sample.container 0.99 0.95)
           {[ "model.pt"%string := Pickle Sample.actor_only ]} []
           "model.pt" Sample.actor_only).
  - apply lookup_singleton_eq.
  - apply lookup_singleton_eq.
  - apply same_shapes_fit. reflexivity.
  - left. apply lookup_singleton_ne. discriminate.
Defined.

Lemma save_load_round_trip_witness :
  ∃ restored,
    @ModelWrapper.__init__ Sample.external (Sample.ones 1 2)
      (Sample.ones 1 1)
      (ModelWrapper.save_model (Sample.container 0.99 0.95) "model.pt" ∅) []
      "model.pt" 0.001 (Sample.config 0.99 0.95)
    = ([] ++ ["Model loaded successfully at " +:+ "model.pt" +:+ "."],
       Ok restored)
    ∧ ModelWrapper.actor restored = nn.Plain (nn.Actor 1 2 (Sample.zeros 1 2))
    ∧ ModelWrapper.critic restored = nn.Plain (nn.Critic 1 (Sample.zeros 1 1))
    ∧ ∀ states,
        nn.call_actor (ModelWrapper.actor restored) states
        = nn.call_actor (nn.Plain (nn.Actor 1 2 (Sample.zeros 1 2))) states
        ∧ nn.call_critic (ModelWrapper.critic restored) states
          = nn.call_critic (nn.Plain (nn.Critic 1 (Sample.zeros 1 1))) states.
Proof.
  apply (proj2 (save_load_round_trip (Sample.container 0.99 0.95) ∅ "model.pt"
                  (Sample.ones 1 2) (Sample.ones 1 1) 0.001 [])).
  apply sample_well_shaped.
Defined.

(** * Further properties of the code *)

(** ** Episode boundaries in the estimator *)

Section Episodes.

Variable config : Config.

#[local] Abbreviation gamma := (GAMMA config).
#[local] Abbreviation lambda := (LAMBDA config).

Lemma td_residual_app (r1 d1 v1 n1 r2 d2 v2 n2 : list R) :
  length d1 = length r1 → length v1 = length r1 → length n1 = length r1 →
  length d2 = length r2 → length v2 = length r2 → length n2 = length r2 →
  ∃ delta1 delta2,
    ModelWrapper.td_residual config r1 d1 v1 n1 = Some delta1
    ∧ ModelWrapper.td_residual config r2 d2 v2 n2 = Some delta2
    ∧ length delta1 = length r1 ∧ length delta2 = length r2
    ∧ ModelWrapper.td_residual config (r1 ++ r2) (d1 ++ d2) (v1 ++ v2)
        (n1 ++ n2) = Some (delta1 ++ delta2).
Proof.
  intros Hd1 Hv1 Hn1 Hd2 Hv2 Hn2.
  rewrite !td_residual_aligned by (rewrite ?length_app; lia).
  eexists _, _. split; [reflexivity|]. split; [reflexivity|].
  split; [rewrite !length_zip_with, !length_map; lia|].
  split; [rewrite !length_zip_with, !length_map; lia|].
  f_equal. rewrite !map_app.
  rewrite !zip_with_app; rewrite ?length_zip_with, ?length_map; try lia.
  reflexivity.
Qed.

(** A segment whose last transition is terminal shields what comes
    before it from what comes after. *)
Lemma gae_spec_app (delta1 dones1 delta2 dones2 : list R) :
  length dones1 = length delta1 →
  last dones1 = Some 1 →
  Spec.gae gamma lambda (delta1 ++ delta2) (dones1 ++ dones2)
  = Spec.gae gamma lambda delta1 dones1 ++ Spec.gae gamma lambda delta2 dones2.
Proof.
  revert dones1.
  induction delta1 as [|d delta1 IH]; intros [|dn dones1] Hlen Hlast;
    try done.
  destruct delta1 as [|d' delta1], dones1 as [|dn' dones1]; try done.
  - simpl in Hlast. injection Hlast as ->. simpl. f_equal. ring.
  - specialize (IH (dn' :: dones1)).
    change ((d :: d' :: delta1) ++ delta2) with (d :: ((d' :: delta1) ++ delta2)).
    change ((dn :: dn' :: dones1) ++ dones2)
      with (dn :: ((dn' :: dones1) ++ dones2)).
    cbn [Spec.gae]. rewrite IH; [|simpl in *; lia|done].
    cbn [Spec.gae app hd]. reflexivity.
Qed.

End Episodes.

(** At a terminal transition the advantage before normalisation is
    [reward - value]: neither the value of the next state nor any later
    transition enters it. *)
Theorem terminal_transition_advantage (config : Config)
    (rewards dones values next_values : list R) (t : nat) (r v : R) :
  length dones = length rewards →
  length values = length rewards →
  length next_values = length rewards →
  rewards !! t = Some r → values !! t = Some v → dones !! t = Some 1 →
  ∃ raw,
    ModelWrapper.gae_advantages config rewards dones values next_values
    = Some raw
    ∧ raw !! t = Some (r - v).
Proof.
  intros Hd Hv Hn Hr Hvt Hdone.
  destruct (ModelWrapper.td_residual config rewards dones values next_values)
    as [delta|] eqn:Hdelta; [|by rewrite td_residual_aligned in Hdelta].
  eexists. split; [by apply gae_advantages_spec|].
  destruct (lookup_lt_is_Some_2 next_values t) as [nv Hnv].
  { rewrite Hn. by eapply lookup_lt_Some. }
  rewrite (gae_spec_lookup config delta dones t
             (r + GAMMA config * nv * (1 - 1) - v) 1); [|by eapply td_residual_lookup|done].
  f_equal. ring.
Qed.

Lemma terminal_transition_advantage_witness :
  ∃ raw,
    ModelWrapper.gae_advantages (Sample.config 0.99 0.95)
      [1; 2; 3] [0; 1; 0] [4; 5; 6] [5; 7; 8] = Some raw
    ∧ raw !! 1%nat = Some (2 - 5).
Proof.
  apply (terminal_transition_advantage (Sample.config 0.99 0.95)
           [1; 2; 3] [0; 1; 0] [4; 5; 6] [5; 7; 8] 1 2 5);
    reflexivity.
Defined.

(** Two batches, the first ending in a terminal transition, give when
    concatenated the concatenation of their advantages before
    normalisation. *)
Theorem episodes_concatenate (config : Config)
    (r1 d1 v1 n1 r2 d2 v2 n2 : list R) :
  length d1 = length r1 → length v1 = length r1 → length n1 = length r1 →
  length d2 = length r2 → length v2 = length r2 → length n2 = length r2 →
  last d1 = Some 1 →
  ∃ raw1 raw2,
    ModelWrapper.gae_advantages config r1 d1 v1 n1 = Some raw1
    ∧ ModelWrapper.gae_advantages config r2 d2 v2 n2 = Some raw2
    ∧ ModelWrapper.gae_advantages config (r1 ++ r2) (d1 ++ d2) (v1 ++ v2)
        (n1 ++ n2) = Some (raw1 ++ raw2).
Proof.
  intros Hd1 Hv1 Hn1 Hd2 Hv2 Hn2 Hlast.
  destruct (td_residual_app config r1 d1 v1 n1 r2 d2 v2 n2)
    as (delta1 & delta2 & H1 & H2 & Hl1 & Hl2 & H12); try done.
  eexists _, _.
  split; [by apply gae_advantages_spec|].
  split; [by apply gae_advantages_spec|].
  rewrite (gae_advantages_spec config _ _ _ _ (delta1 ++ delta2));
    rewrite ?length_app; try lia; [|done].
  f_equal. apply gae_spec_app; [congruence|done].
Qed.

Lemma episodes_concatenate_witness :
  ∃ raw1 raw2,
    ModelWrapper.gae_advantages (Sample.config 0.99 0.95)
      [1; 2] [0; 1] [4; 5] [5; 7] = Some raw1
    ∧ ModelWrapper.gae_advantages (Sample.config 0.99 0.95)
        [3] [0] [6] [8] = Some raw2
    ∧ ModelWrapper.gae_advantages (Sample.config 0.99 0.95)
        ([1; 2] ++ [3]) ([0; 1] ++ [0]) ([4; 5] ++ [6]) ([5; 7] ++ [8])
      = Some (raw1 ++ raw2).
Proof.
  apply (episodes_concatenate (Sample.config 0.99 0.95)
           [1; 2] [0; 1] [4; 5] [5; 7] [3] [0] [6] [8]);
    reflexivity.
Defined.

(** With [LAMBDA = 1] on a trajectory whose [next_values] are the
    values of the following states, [advantage + value] before
    normalisation is the discounted return: it is
    [reward + GAMMA * (1 - done) * G], where [G] is the same quantity one
    step later, and the value of the last next state at the end. *)
Theorem lambda_one_discounted_return (config : Config)
    (rewards dones values next_values : list R) :
  length dones = length rewards →
  length values = length rewards →
  length next_values = length rewards →
  LAMBDA config = 1 →
  (∀ t v', values !! S t = Some v' → next_values !! t = Some v') →
  ∃ raw,
    ModelWrapper.gae_advantages config rewards dones values next_values
    = Some raw
    ∧ ∀ t r d nv,
        rewards !! t = Some r → dones !! t = Some d →
        next_values !! t = Some nv →
        zip_with Rplus raw values !! t
        = Some (r + GAMMA config * (1 - d)
                    * default nv (zip_with Rplus raw values !! S t)).
Proof.
  intros Hd Hv Hn Hlambda Hnext.
  destruct (ModelWrapper.td_residual config rewards dones values next_values)
    as [delta|] eqn:Hdelta; [|by rewrite td_residual_aligned in Hdelta].
  pose proof (td_residual_length _ _ _ _ _ _ Hdelta Hd Hv Hn) as Hlen.
  eexists. split; [by apply gae_advantages_spec|].
  intros t r d nv Hr Hdt Hnv.
  destruct (lookup_lt_is_Some_2 values t) as [v Hvt].
  { rewrite Hv. by eapply lookup_lt_Some. }
  rewrite !lookup_zip_with.
  rewrite (gae_spec_lookup config delta dones t
             (r + GAMMA config * nv * (1 - d) - v) d);
    [|by eapply td_residual_lookup|done].
  rewrite Hvt. cbn [mbind option_bind].
  destruct (values !! S t) as [v'|] eqn:Hv'.
  - assert (nv = v') as -> by (specialize (Hnext t v' Hv'); congruence).
    destruct (lookup_lt_is_Some_2
                (Spec.gae (GAMMA config) (LAMBDA config) delta dones) (S t))
      as [a' Ha'].
    { rewrite gae_spec_length by congruence. rewrite Hlen, <- Hv.
      by eapply lookup_lt_Some. }
    rewrite Ha'. cbn [mbind option_bind default]. f_equal.
    rewrite Hlambda. unfold Datatypes.id. ring.
  - assert (Spec.gae (GAMMA config) (LAMBDA config) delta dones !! S t = None)
      as ->.
    { apply lookup_ge_None. rewrite gae_spec_length by congruence.
      rewrite Hlen, <- Hv. by apply lookup_ge_None. }
    cbn [mbind option_bind default]. f_equal. rewrite Hlambda.
    unfold Datatypes.id. ring.
Qed.

Lemma lambda_one_discounted_return_witness :
  ∃ raw,
    ModelWrapper.gae_advantages (Sample.config 0.99 1)
      [1; 2; 3] [0; 1; 0] [4; 5; 6] [5; 6; 8] = Some raw
    ∧ ∀ t r d nv,
        [1; 2; 3] !! t = Some r → [0; 1; 0] !! t = Some d →
        [5; 6; 8] !! t = Some nv →
        zip_with Rplus raw [4; 5; 6] !! t
        = Some (r + 0.99 * (1 - d)
                    * default nv (zip_with Rplus raw [4; 5; 6] !! S t)).
Proof.
  apply (lambda_one_discounted_return (Sample.config 0.99 1)
           [1; 2; 3] [0; 1; 0] [4; 5; 6] [5; 6; 8]);
    try reflexivity.
  intros [|[|[|t]]] v' Hv'; simpl in Hv'; try discriminate Hv';
    injection Hv' as <-; reflexivity.
Defined.

(** ** Arrays that do not line up *)

Lemma gae_short_dones (config : Config)
    (rewards dones values next_values : list R) :
  (length dones < length rewards)%nat →
  ModelWrapper.gae_advantages config rewards dones values next_values = None.
Proof.
  intros Hshort. unfold ModelWrapper.gae_advantages.
  destruct (ModelWrapper.td_residual _ _ _ _ _) as [delta|]; [|done].
  cbn [mbind option_bind].
  destruct (length rewards) as [|n] eqn:Hn; [lia|].
  rewrite reversed_range_succ. cbn [for_each].
  assert (ModelWrapper.gae_body config delta dones n
            (0.0, np.zeros_like rewards) = None) as ->; [|reflexivity].
  unfold ModelWrapper.gae_body.
  destruct (delta !! n) as [d|]; [|reflexivity]. cbn [mbind option_bind].
  rewrite (proj2 (lookup_ge_None dones n)) by lia. reflexivity.
Qed.

(** A [dones] array shorter than [rewards] makes [preprocess_data]
    raise, also when its length is one and NumPy would stretch it: the
    loop indexes it up to the last reward. *)
Theorem short_dones_raise `{External}
    (self : ModelWrapper.t) (states next_states : list (list R))
    (actions : list nat) (rewards log_probs dones : list R) :
  (length dones < length rewards)%nat →
  ModelWrapper.preprocess_data self states next_states actions rewards
    log_probs dones = None.
Proof.
  intros Hshort. unfold ModelWrapper.preprocess_data.
  destruct (nn.view_flat <$> nn.call_critic _ states) as [values|]; [|done].
  cbn [mbind option_bind].
  destruct (nn.view_flat <$> nn.call_critic _ next_states)
    as [next_values|]; [|done].
  cbn [mbind option_bind]. by rewrite gae_short_dones.
Qed.

Lemma short_dones_raise_witness :
  ModelWrapper.preprocess_data (Sample.container 0.99 0.95)
    [[0]; [0]] [[0]; [0]] [0; 0]%nat [1; 2] [0; 0] [0] = None.
Proof.
  apply (short_dones_raise (Sample.container 0.99 0.95)
           [[0]; [0]] [[0]; [0]] [0; 0]%nat [1; 2] [0; 0] [0]).
  simpl. lia.
Defined.

(** ** What normalisation does to the outputs *)


Lemma advantage_std_pos (a : list R) : 0 < ModelWrapper.advantage_std a.
Proof.
  unfold ModelWrapper.advantage_std. case_decide; [|lra].
  pose proof (std_nonneg a). lra.
Qed.



(** Normalisation keeps the order of the advantages: a transition whose
    advantage before normalisation is not above another's is returned
    with an advantage that is not above the other's. *)
Theorem normalisation_keeps_order `{External}
    (self : ModelWrapper.t) (states next_states : list (list R))
    (actions : list nat) (rewards log_probs dones : list R) (T : nat) :
  well_shaped self →
  state_batch (NUM_STATE (ModelWrapper.config self)) T states →
  state_batch (NUM_STATE (ModelWrapper.config self)) T next_states →
  length rewards = T → length dones = T →
  ∃ values next_values raw out,
    nn.view_flat <$> nn.call_critic (ModelWrapper.critic self) states
      = Some values
    ∧ nn.view_flat <$> nn.call_critic (ModelWrapper.critic self) next_states
      = Some next_values
    ∧ ModelWrapper.gae_advantages (ModelWrapper.config self) rewards dones
        values next_values = Some raw
    ∧ ModelWrapper.preprocess_data self states next_states actions rewards
        log_probs dones = Some out
    ∧ ∀ i j a b,
        raw !! i = Some a → raw !! j = Some b → a <= b →
        ∃ a' b', advantage out !! i = Some a'
                 ∧ advantage out !! j = Some b' ∧ a' <= b'.
Proof.
  intros Hshaped Hstates Hnext Hrewards Hdones.
  destruct (preprocess_data_stages self states next_states actions rewards
              log_probs dones T Hshaped Hstates Hnext Hrewards Hdones)
    as (values & next_values & delta & raw & Hv & Hnv & _ & _ & _ & _ & _
        & _ & _ & _ & Hraw & Hout).
  eexists values, next_values, raw, _.
  split; [done|]. split; [done|]. split; [done|]. split; [exact Hout|].
  cbn [advantage]. intros i j a b Ha Hb Hab.
  rewrite normalize_map, !list_lookup_fmap, Ha, Hb.
  eexists _, _. split; [reflexivity|]. split; [reflexivity|].
  pose proof (advantage_std_pos raw) as Hpos.
  apply Rmult_le_compat_r; [|lra].
  apply Rlt_le. by apply Rinv_0_lt_compat.
Qed.

Lemma normalisation_keeps_order_witness :
  ∃ values next_values raw out,
    nn.view_flat
      <$> nn.call_critic (ModelWrapper.critic (Sample.container 0.99 0.95))
                         [[0]; [0]] = Some values
    ∧ nn.view_flat
        <$> nn.call_critic (ModelWrapper.critic (Sample.container 0.99 0.95))
                           [[0]; [0]] = Some next_values
    ∧ ModelWrapper.gae_advantages (Sample.config 0.99 0.95) [1; 2] [0; 1]
        values next_values = Some raw
    ∧ ModelWrapper.preprocess_data (Sample.container 0.99 0.95)
        [[0]; [0]] [[0]; [0]] [0; 0]%nat [1; 2] [0; 0] [0; 1] = Some out
    ∧ ∀ i j a b,
        raw !! i = Some a → raw !! j = Some b → a <= b →
        ∃ a' b', advantage out !! i = Some a'
                 ∧ advantage out !! j = Some b' ∧ a' <= b'.
Proof.
  apply (normalisation_keeps_order (Sample.container 0.99 0.95)
           [[0]; [0]] [[0]; [0]] [0; 0]%nat [1; 2] [0; 0] [0; 1] 2%nat);
    [apply sample_well_shaped | apply sample_batch_2 | apply sample_batch_2
    | reflexivity | reflexivity].
Defined.

(** ** What [load_model] does and does not touch *)

Section LoadFrame.

Context `{External}.

Lemma load_tensor_shape sd k p :
  nn.shape (nn.load_tensor sd k p).1 = nn.shape p.
Proof.
  unfold nn.load_tensor. destruct (sd !! k) as [t|]; [|done].
  by case_decide.
Qed.

Lemma load_state_dict_shapes m sd :
  nn.key_prefix (nn.Module_load_state_dict m sd).1 = nn.key_prefix m
  ∧ nn.shapes (nn.getattr_module (nn.Module_load_state_dict m sd).1)
    = nn.shapes (nn.getattr_module m).
Proof.
  unfold nn.Module_load_state_dict, nn.load_state_dict.
  pose proof (load_tensor_shape sd) as Hshape.
  destruct (nn.load_tensor sd _ (nn.weight (nn.fc0 _))) as [t0 k0] eqn:E0.
  destruct (nn.load_tensor sd _ (nn.bias (nn.fc0 _))) as [t1 k1] eqn:E1.
  destruct (nn.load_tensor sd _ (nn.weight (nn.fc2 _))) as [t2 k2] eqn:E2.
  destruct (nn.load_tensor sd _ (nn.bias (nn.fc2 _))) as [t3 k3] eqn:E3.
  destruct (nn.load_tensor sd _ (nn.weight (nn.fc4 _))) as [t4 k4] eqn:E4.
  destruct (nn.load_tensor sd _ (nn.bias (nn.fc4 _))) as [t5 k5] eqn:E5.
  apply (f_equal fst) in E0, E1, E2, E3, E4, E5. cbn [fst] in *.
  split; [by destruct m|].
  unfold nn.shapes. destruct m; cbn;
    rewrite <- E0, <- E1, <- E2, <- E3, <- E4, <- E5, !Hshape; reflexivity.
Qed.

End LoadFrame.

Section LoadOutcome.

Context `{External}.

Lemma load_model_frame fs path (self : ModelWrapper.t) printed :
  same_frame self (ModelWrapper.load_model fs path (self, printed)).1.1.
Proof.
  unfold ModelWrapper.load_model, try_except, mbind, M_bind, lift,
    ModelWrapper.actor_load_state_dict, ModelWrapper.critic_load_state_dict,
    ModelWrapper.print, torch_load, getitem.
  destruct (fs !! path) as [[blob|]|]; [|by repeat split|by repeat split].
  destruct (blob !! "actor"%string) as [sd|]; [|by repeat split].
  cbn [fst snd].
  pose proof (load_state_dict_shapes (ModelWrapper.actor self) sd)
    as [Hpa Hsa].
  destruct (nn.Module_load_state_dict (ModelWrapper.actor self) sd)
    as [m [|]]; cbn [fst snd] in *; [|by repeat split].
  destruct (blob !! "critic"%string) as [sd'|]; [|by repeat split].
  cbn [fst snd ModelWrapper.critic ModelWrapper.set_actor].
  pose proof (load_state_dict_shapes (ModelWrapper.critic self) sd')
    as [Hpc Hsc].
  destruct (nn.Module_load_state_dict (ModelWrapper.critic self) sd')
    as [c [|]]; cbn [fst snd] in *; by repeat split.
Qed.

Lemma checkpoint_dec (self : ModelWrapper.t)
    (blob : gmap string (gmap string nn.Tensor)) :
  well_formed_checkpoint self blob ∨ ¬ well_formed_checkpoint self blob.
Proof.
  destruct (blob !! "actor"%string) as [sd|] eqn:Ha.
  2:{ right. intros (sa & sc & Hsa & _). congruence. }
  destruct (blob !! "critic"%string) as [sd'|] eqn:Hc.
  2:{ right. intros (sa & sc & _ & Hsc & _). congruence. }
  destruct (decide (nn.shape <$> sd
                    = nn.shape <$> nn.Module_state_dict (ModelWrapper.actor self)))
    as [Hfa|Hfa].
  2:{ right. intros (sa & sc & Hsa & _ & Hf & _).
      rewrite Ha in Hsa. injection Hsa as <-. done. }
  destruct (decide (nn.shape <$> sd'
                    = nn.shape <$> nn.Module_state_dict (ModelWrapper.critic self)))
    as [Hfc|Hfc].
  2:{ right. intros (sa & sc & _ & Hsc & _ & Hf).
      rewrite Hc in Hsc. injection Hsc as <-. done. }
  left. by exists sd, sd'.
Qed.

End LoadOutcome.

(** [load_model] returns normally in two cases only, a missing file and
    a well-formed checkpoint; it prints one line then, and nothing when
    it raises. *)
Theorem load_model_outcome `{External} (fs : gmap string file) (path : string)
    (self : ModelWrapper.t) (printed : list string) :
  ∃ self' printed' r,
    ModelWrapper.load_model fs path (self, printed) = ((self', printed'), r)
    ∧ (r = Ok ()
       ↔ fs !! path = None
         ∨ ∃ blob, fs !! path = Some (Pickle blob)
                   ∧ well_formed_checkpoint self blob)
    ∧ (r = Ok () → ∃ line, printed' = printed ++ [line])
    ∧ (r ≠ Ok () → printed' = printed).
Proof.
  destruct (fs !! path) as [[blob|]|] eqn:Hfile.
  - destruct (checkpoint_dec self blob) as [Hwf|Hmal].
    + destruct Hwf as (sa & sc & Ha & Hc & Hfa & Hfc).
      destruct (load_model_well_formed fs path blob sa sc self printed)
        as (m & c & _ & _ & _ & _ & Hload); try done.
      eexists _, _, _. split; [exact Hload|].
      split; [|split; [eauto|done]].
      split; [|done]. intros _. right. exists blob. split; [done|].
      by exists sa, sc.
    + destruct (load_model_malformed fs path blob self printed Hfile Hmal)
        as (self' & e & Hload & _).
      eexists _, _, _. split; [exact Hload|].
      split; [|split; [done|done]].
      split; [done|]. intros [?|(blob' & Hblob & Hwf)]; [done|].
      injection Hblob as <-. done.
  - eexists _, _, _. split; [by apply load_model_garbage|].
    split; [|split; [done|done]].
    split; [done|]. by intros [?|(blob' & ? & _)].
  - eexists _, _, _. split; [by apply load_model_missing|].
    split; [|split; [eauto|done]].
    split; [by left|done].
Qed.

Lemma load_model_outcome_witness :
  ∃ self' printed' r,
    ModelWrapper.load_model ∅ "model.pt" (Sample.container 0.99 0.95, [])
    = ((self', printed'), r)
    ∧ (r = Ok ()
       ↔ (∅ : gmap string file) !! "model.pt"%string = None
         ∨ ∃ blob, (∅ : gmap string file) !! "model.pt"%string
                   = Some (Pickle blob)
                   ∧ well_formed_checkpoint (Sample.container 0.99 0.95) blob)
    ∧ (r = Ok () → ∃ line, printed' = [] ++ [line])
    ∧ (r ≠ Ok () → printed' = []).
Proof.
  apply (load_model_outcome ∅ "model.pt" (Sample.container 0.99 0.95) []).
Defined.

(** Whatever the file holds and however the call ends, [load_model]
    leaves the configuration, the optimizers and the gradient buffers as
    they were, keeps each network wrapped or not as it was, and keeps
    the sizes of every parameter tensor. *)
Theorem load_model_keeps_frame `{External} (fs : gmap string file) (path : string)
    (self : ModelWrapper.t) (printed : list string) :
  ∃ self' printed' r,
    ModelWrapper.load_model fs path (self, printed) = ((self', printed'), r)
    ∧ same_frame self self'
    ∧ (well_shaped self → well_shaped self').
Proof.
  destruct (ModelWrapper.load_model fs path (self, printed))
    as [[self' printed'] r] eqn:Hload.
  exists self', printed', r. split; [done|].
  pose proof (load_model_frame fs path self printed) as Hframe.
  rewrite Hload in Hframe. cbn [fst] in Hframe. split; [done|].
  destruct Hframe as (Hcfg & _ & _ & _ & _ & _ & _ & Hsa & Hsc).
  intros [Ha Hc]. split.
  - by rewrite Hsa, Hcfg.
  - by rewrite Hsc, Hcfg.
Qed.

Lemma load_model_keeps_frame_witness :
  ∃ self' printed' r,
    ModelWrapper.load_model
      {[ "model.pt"%string := Pickle Sample.actor_only ]} "model.pt"
      (Sample.container 0.99 0.95, []) = ((self', printed'), r)
    ∧ same_frame (Sample.container 0.99 0.95) self'
    ∧ (well_shaped (Sample.container 0.99 0.95) → well_shaped self').
Proof.
  apply (load_model_keeps_frame
           {[ "model.pt"%string := Pickle Sample.actor_only ]} "model.pt"
           (Sample.container 0.99 0.95) []).
Defined.

(** A container that the constructor returns has networks of the sizes
    its configuration asks for, unwrapped, and empty gradient buffers,
    whether it started cold or from a checkpoint. *)
Theorem constructed_container_is_well_shaped `{External}
    (init_actor init_critic : nn.Init) (fs : gmap string file)
    (printed printed' : list string) (path : string) (lr : R)
    (config : Config) (self : ModelWrapper.t) :
  ModelWrapper.__init__ init_actor init_critic fs printed path lr config
  = (printed', Ok self) →
  well_shaped self
  ∧ ModelWrapper.config self = config
  ∧ nn.key_prefix (ModelWrapper.actor self) = ""%string
  ∧ nn.key_prefix (ModelWrapper.critic self) = ""%string
  ∧ ModelWrapper.actor_grad self = None
  ∧ ModelWrapper.critic_grad self = None.
Proof.
  unfold ModelWrapper.__init__.
  pose proof (load_model_frame fs path
                (ModelWrapper.blank init_actor init_critic lr config) printed)
    as Hframe.
  destruct (ModelWrapper.load_model fs path _) as [[loaded out] [[]|e]];
    [|done].
  intros [= _ <-]. cbn [fst] in Hframe.
  destruct Hframe as (Hcfg & Hga & Hgc & _ & _ & Hpa & Hpc & Hsa & Hsc).
  split; [|by repeat split].
  split; cbn; rewrite Hcfg; [exact Hsa | exact Hsc].
Qed.

Lemma constructed_container_is_well_shaped_witness :
  let self := @ModelWrapper.blank Sample.external (Sample.zeros 1 2)
                (Sample.zeros 1 1) 0.001 (Sample.config 0.99 0.95) in
  well_shaped self
  ∧ ModelWrapper.config self = Sample.config 0.99 0.95
  ∧ nn.key_prefix (ModelWrapper.actor self) = ""%string
  ∧ nn.key_prefix (ModelWrapper.critic self) = ""%string
  ∧ ModelWrapper.actor_grad self = None
  ∧ ModelWrapper.critic_grad self = None.
Proof.
  apply (@constructed_container_is_well_shaped Sample.external
           (Sample.zeros 1 2) (Sample.zeros 1 1) ∅ []
           ([] ++ ["Model file not found at " +:+ "model.pt" +:+ "."])
           "model.pt" 0.001 (Sample.config 0.99 0.95)).
  unfold ModelWrapper.__init__. rewrite load_model_missing by apply lookup_empty.
  reflexivity.
Defined.

(** ** Loading and saving, composed *)

Lemma plain_state_dict (m : nn.Module_) :
  nn.key_prefix m = ""%string →
  nn.state_dict "" (nn.getattr_module m) = nn.Module_state_dict m.
Proof. intros Hm. unfold nn.Module_state_dict. by rewrite Hm. Qed.

(** A container constructed from a well-formed checkpoint writes, when
    saved, a blob whose two entries are the checkpoint's. *)
Theorem load_save_round_trip `{External}
    (init_actor init_critic : nn.Init) (fs : gmap string file)
    (printed : list string) (path : string) (lr : R) (config : Config)
    (blob : gmap string (gmap string nn.Tensor))
    (sd_actor sd_critic : gmap string nn.Tensor) :
  fs !! path = Some (Pickle blob) →
  blob !! "actor"%string = Some sd_actor →
  blob !! "critic"%string = Some sd_critic →
  fits (nn.Plain (nn.Actor (NUM_STATE config) (NUM_ACTION config) init_actor))
       sd_actor →
  fits (nn.Plain (nn.Critic (NUM_STATE config) init_critic)) sd_critic →
  ∃ self,
    ModelWrapper.__init__ init_actor init_critic fs printed path lr config
    = (printed ++ ["Model loaded successfully at " +:+ path +:+ "."], Ok self)
    ∧ ∀ path' fs',
        ModelWrapper.save_model self path' fs' !! path'
        = Some (Pickle (<["actor"%string := sd_actor]>
                          (<["critic"%string := sd_critic]> ∅))).
Proof.
  intros Hfile Ha Hc Hfa Hfc.
  destruct (load_model_well_formed fs path blob sd_actor sd_critic
              (ModelWrapper.blank init_actor init_critic lr config) printed)
    as (m & c & Hm & Hpm & Hcs & Hpc & Hload); try done.
  eexists. unfold ModelWrapper.__init__. rewrite Hload.
  split; [reflexivity|]. intros path' fs'.
  unfold ModelWrapper.save_model, torch_save. rewrite lookup_insert_eq.
  cbn [ModelWrapper.actor ModelWrapper.critic ModelWrapper.set_actor
       ModelWrapper.set_critic ModelWrapper.set_actor_optimizer
       ModelWrapper.set_critic_optimizer].
  rewrite (plain_state_dict m Hpm), (plain_state_dict c Hpc).
  by rewrite Hm, Hcs.
Qed.

Lemma load_save_round_trip_witness :
  let sd_actor := nn.state_dict "" (nn.Actor 1 2 (Sample.ones 1 2)) in
  let sd_critic := nn.state_dict "" (nn.Critic 1 (Sample.ones 1 1)) in
  let blob : gmap string (gmap string nn.Tensor) :=
    <["actor"%string := sd_actor]> (<["critic"%string := sd_critic]> ∅) in
  ∃ self,
    @ModelWrapper.__init__ Sample.external (Sample.zeros 1 2)
      (Sample.zeros 1 1) {[ "model.pt"%string := Pickle blob ]} []
      "model.pt" 0.001 (Sample.config 0.99 0.95)
    = ([] ++ ["Model loaded successfully at " +:+ "model.pt" +:+ "."],
       Ok self)
    ∧ ∀ path' fs',
        ModelWrapper.save_model self path' fs' !! path' = Some (Pickle blob).
Proof.
  cbn zeta.
  apply (@load_save_round_trip Sample.external (Sample.zeros 1 2)
           (Sample.zeros 1 1) _ [] "model.pt" 0.001 (Sample.config 0.99 0.95)
           (<["actor"%string := nn.state_dict "" (nn.Actor 1 2 (Sample.ones 1 2))]>
              (<["critic"%string :=
                   nn.state_dict "" (nn.Critic 1 (Sample.ones 1 1))]> ∅))).
  - apply lookup_singleton_eq.
  - apply lookup_insert_eq.
  - rewrite lookup_insert_ne by discriminate. apply lookup_insert_eq.
  - apply same_shapes_fit. reflexivity.
  - apply same_shapes_fit. reflexivity.
Defined.

(** A container whose networks are not wrapped reads back what it has
    just saved without any change to itself. *)
Theorem save_then_load_unwrapped `{External}
    (self : ModelWrapper.t) (fs : gmap string file) (path : string)
    (printed : list string) :
  nn.key_prefix (ModelWrapper.actor self) = ""%string →
  nn.key_prefix (ModelWrapper.critic self) = ""%string →
  ModelWrapper.load_model (ModelWrapper.save_model self path fs) path
    (self, printed)
  = ((self, printed ++ ["Model loaded successfully at " +:+ path +:+ "."]),
     Ok ()).
Proof.
  intros Hpa Hpc.
  destruct (load_model_well_formed
              (ModelWrapper.save_model self path fs) path
              (<["actor"%string :=
                   nn.state_dict "" (nn.getattr_module (ModelWrapper.actor self))]>
                 (<["critic"%string :=
                      nn.state_dict ""
                        (nn.getattr_module (ModelWrapper.critic self))]> ∅))
              (nn.state_dict "" (nn.getattr_module (ModelWrapper.actor self)))
              (nn.state_dict "" (nn.getattr_module (ModelWrapper.critic self)))
              self printed)
    as (m & c & Hm & Hpm & Hc & Hpc' & Hload).
  { apply lookup_insert_eq. }
  { apply lookup_insert_eq. }
  { unfold fits. by rewrite plain_state_dict. }
  { rewrite lookup_insert_ne by done. apply lookup_insert_eq. }
  { unfold fits. by rewrite plain_state_dict. }
  rewrite Hload.
  assert (m = ModelWrapper.actor self) as ->.
  { rewrite Hpa in Hpm. destruct m as [m|m]; [|done].
    destruct (ModelWrapper.actor self) as [a|a]; [|done].
    apply state_dict_inj in Hm. cbn in Hm. by subst. }
  assert (c = ModelWrapper.critic self) as ->.
  { rewrite Hpc in Hpc'. destruct c as [c|c]; [|done].
    destruct (ModelWrapper.critic self) as [a|a]; [|done].
    apply state_dict_inj in Hc. cbn in Hc. by subst. }
  by destruct self.
Qed.

Lemma save_then_load_unwrapped_witness :
  ModelWrapper.load_model
    (ModelWrapper.save_model (Sample.container 0.99 0.95) "model.pt" ∅)
    "model.pt" (Sample.container 0.99 0.95, [])
  = ((Sample.container 0.99 0.95,
      [] ++ ["Model loaded successfully at " +:+ "model.pt" +:+ "."]),
     Ok ()).
Proof.
  apply (save_then_load_unwrapped (Sample.container 0.99 0.95) ∅ "model.pt" []);
    reflexivity.
Defined.

Lemma load_wrapped_from_plain_keys (fc : nn.Sequential) :
  nn.Module_load_state_dict (nn.DistributedDataParallel fc)
    (nn.state_dict "" fc)
  = (nn.DistributedDataParallel fc, false).
Proof.
  destruct fc as [[] [] []]. reflexivity.
Qed.

(** A container whose actor is wrapped cannot read back what it has
    just saved: [save_model] writes the keys of the network inside the
    wrapper and [load_model] asks the wrapper, which expects its own
    prefix, so the call raises [RuntimeError] and changes nothing. *)
Theorem save_then_load_wrapped `{External}
    (self : ModelWrapper.t) (fs : gmap string file) (path : string)
    (printed : list string) (fc : nn.Sequential) :
  ModelWrapper.actor self = nn.DistributedDataParallel fc →
  ModelWrapper.load_model (ModelWrapper.save_model self path fs) path
    (self, printed)
  = ((self, printed), Raise RuntimeError).
Proof.
  intros Hactor.
  unfold ModelWrapper.load_model, try_except, mbind, M_bind, lift,
    ModelWrapper.actor_load_state_dict, ModelWrapper.critic_load_state_dict,
    ModelWrapper.print, torch_load, getitem.
  unfold ModelWrapper.save_model, torch_save. rewrite lookup_insert_eq.
  rewrite lookup_insert_eq. cbn [fst snd].
  rewrite Hactor. cbn [nn.getattr_module].
  rewrite load_wrapped_from_plain_keys.
  rewrite <- Hactor. by destruct self.
Qed.

Lemma save_then_load_wrapped_witness :
  let self :=
    ModelWrapper.set_actor
      (nn.DistributedDataParallel (nn.Actor 1 2 (Sample.zeros 1 2)))
      (Sample.container 0.99 0.95) in
  ModelWrapper.load_model (ModelWrapper.save_model self "model.pt" ∅)
    "model.pt" (self, [])
  = ((self, []), Raise RuntimeError).
Proof.
  apply (save_then_load_wrapped _ ∅ "model.pt" []
           (nn.Actor 1 2 (Sample.zeros 1 2))).
  reflexivity.
Defined.

(** ** The networks' forward passes *)

Lemma Sequential_forward_width (fc : nn.Sequential) d_in d_out (x : list R) :
  nn.shapes fc = architecture d_in d_out →
  length x ≠ d_in →
  nn.Sequential_forward fc x = None.
Proof.
  unfold nn.shapes, architecture. intros [= Hw0 _ _ _ _ _] Hx.
  unfold nn.Sequential_forward, nn.Linear_forward. rewrite Hw0.
  by rewrite decide_False.
Qed.

(** Both networks accept exactly the state vectors of width
    [NUM_STATE]: on one of these the actor gives [NUM_ACTION] logits and
    the critic one value, and on any other vector both raise. *)
Theorem forward_requires_state_width `{External}
    (self : ModelWrapper.t) (x : list R) :
  well_shaped self →
  (length x = NUM_STATE (ModelWrapper.config self) →
   ∃ dist v,
     nn.Actor_forward (nn.getattr_module (ModelWrapper.actor self)) x
       = Some dist
     ∧ length (nn.logits dist) = NUM_ACTION (ModelWrapper.config self)
     ∧ nn.Critic_forward (nn.getattr_module (ModelWrapper.critic self)) x
       = Some [v])
  ∧ (length x ≠ NUM_STATE (ModelWrapper.config self) →
     nn.Actor_forward (nn.getattr_module (ModelWrapper.actor self)) x = None
     ∧ nn.Critic_forward (nn.getattr_module (ModelWrapper.critic self)) x
       = None
     ∧ ∀ drawn, ModelWrapper.get_action self x drawn = None).
Proof.
  intros [Hactor Hcritic]. split.
  - intros Hx.
    destruct (Sequential_forward_total _ _ _ x Hactor Hx) as (y & Hy & Hlen).
    destruct (Sequential_forward_total _ _ _ x Hcritic Hx) as (z & Hz & Hone).
    destruct z as [|v [|]]; try done.
    exists {| nn.logits := y |}, v. unfold nn.Actor_forward, nn.Critic_forward.
    by rewrite Hy, Hz.
  - intros Hx.
    unfold ModelWrapper.get_action, nn.Actor_forward, nn.Critic_forward.
    rewrite (Sequential_forward_width _ _ _ x Hactor Hx).
    by rewrite (Sequential_forward_width _ _ _ x Hcritic Hx).
Qed.

Lemma forward_requires_state_width_witness :
  (length [0] = 1%nat →
   ∃ dist v,
     nn.Actor_forward
       (nn.getattr_module (ModelWrapper.actor (Sample.container 0.99 0.95)))
       [0] = Some dist
     ∧ length (nn.logits dist) = 2%nat
     ∧ nn.Critic_forward
         (nn.getattr_module (ModelWrapper.critic (Sample.container 0.99 0.95)))
         [0] = Some [v])
  ∧ (length [0] ≠ 1%nat →
     nn.Actor_forward
       (nn.getattr_module (ModelWrapper.actor (Sample.container 0.99 0.95)))
       [0] = None
     ∧ nn.Critic_forward
         (nn.getattr_module (ModelWrapper.critic (Sample.container 0.99 0.95)))
         [0] = None
     ∧ ∀ drawn,
         ModelWrapper.get_action (Sample.container 0.99 0.95) [0] drawn = None).
Proof.
  apply (forward_requires_state_width (Sample.container 0.99 0.95) [0]).
  apply sample_well_shaped.
Defined.

(** ** The policy's distribution *)

Section Softmax.

Implicit Types logits : list R.

Lemma sum_exp_pos logits : logits ≠ [] → 0 < np.sum (map exp logits).
Proof.
  intros Hne. destruct logits as [|l logits]; [done|]. clear Hne.
  revert l. induction logits as [|l' logits IH]; intros l.
  - simpl. pose proof (exp_pos l). lra.
  - cbn [map np.sum foldr]. specialize (IH l'). cbn [map np.sum foldr] in IH.
    pose proof (exp_pos l). lra.
Qed.

Lemma exp_le_sum logits a l :
  logits !! a = Some l → exp l <= np.sum (map exp logits).
Proof.
  revert a. induction logits as [|l' logits IH]; intros [|a] Hl; try done.
  - injection Hl as ->. cbn [map np.sum foldr].
    destruct logits as [|l'' logits]; [simpl; lra|].
    pose proof (sum_exp_pos (l'' :: logits)) as Hpos.
    unfold np.sum in Hpos. cbn [map] in *. specialize (Hpos ltac:(done)). lra.
  - cbn [map np.sum foldr]. specialize (IH a Hl). unfold np.sum in IH.
    pose proof (exp_pos l'). lra.
Qed.

Lemma exp_log_softmax (l s : R) : 0 < s → exp (l - ln s) = exp l / s.
Proof.
  intros Hs. unfold Rminus. rewrite exp_plus, exp_Ropp, exp_ln by done.
  reflexivity.
Qed.

Lemma log_softmax_nonpos (l s : R) : 0 < s → exp l <= s → l - ln s <= 0.
Proof.
  intros Hs Hle. destruct (Rle_or_lt l (ln s)) as [|Hlt]; [lra|].
  apply exp_increasing in Hlt. rewrite exp_ln in Hlt by done. lra.
Qed.

(** The log-probabilities of all the actions, in order. *)
Lemma log_prob_all_from (g : R → R) (pre logits : list R) :
  mapM (M := option)
    (λ a, l ← (pre ++ logits) !! a; Some (g l))
    (seq (length pre) (length logits))
  = Some (map g logits).
Proof.
  revert pre. induction logits as [|l logits IH]; intros pre; [done|].
  cbn [length seq mapM map].
  rewrite list_lookup_middle by done. cbn [mbind option_bind].
  specialize (IH (pre ++ [l])).
  rewrite <- app_assoc, length_app in IH. cbn [app length] in IH.
  rewrite Nat.add_1_r in IH. rewrite IH. reflexivity.
Qed.

Lemma log_prob_all (dist : nn.Categorical) :
  mapM (M := option) (nn.log_prob dist) (seq 0 (length (nn.logits dist)))
  = Some (map (λ l, l - ln (np.sum (map exp (nn.logits dist))))
              (nn.logits dist)).
Proof.
  apply (log_prob_all_from
           (λ l, l - ln (np.sum (map exp (nn.logits dist)))) []).
Qed.

Lemma softmax_sums_to_one logits :
  logits ≠ [] →
  np.sum (map exp (map (λ l, l - ln (np.sum (map exp logits))) logits)) = 1.
Proof.
  intros Hne. pose proof (sum_exp_pos logits Hne) as Hpos.
  rewrite map_map.
  rewrite (map_ext _ (λ l, exp l / np.sum (map exp logits)))
    by (intros; by apply exp_log_softmax).
  rewrite <- (map_map exp (λ y, y / np.sum (map exp logits))).
  rewrite sum_div_scalar. field. lra.
Qed.

End Softmax.

(** The actor's output on a state is a probability distribution over
    the [NUM_ACTION] actions: every action in range has a log-probability
    that is at most 0, the probabilities add up to 1, and an action out
    of range has none. *)
Theorem actor_gives_distribution `{External}
    (self : ModelWrapper.t) (x : list R) :
  well_shaped self →
  length x = NUM_STATE (ModelWrapper.config self) →
  (1 ≤ NUM_ACTION (ModelWrapper.config self))%nat →
  ∃ dist log_probs,
    nn.Actor_forward (nn.getattr_module (ModelWrapper.actor self)) x
      = Some dist
    ∧ mapM (M := option) (nn.log_prob dist)
        (seq 0 (NUM_ACTION (ModelWrapper.config self))) = Some log_probs
    ∧ length log_probs = NUM_ACTION (ModelWrapper.config self)
    ∧ Forall (λ lp, lp <= 0) log_probs
    ∧ np.sum (map exp log_probs) = 1
    ∧ ∀ a, (NUM_ACTION (ModelWrapper.config self) ≤ a)%nat →
           nn.log_prob dist a = None.
Proof.
  intros [Hactor _] Hx Hactions.
  destruct (Sequential_forward_total _ _ _ x Hactor Hx) as (y & Hy & Hlen).
  exists {| nn.logits := y |}. eexists.
  split; [unfold nn.Actor_forward; by rewrite Hy|].
  assert (y ≠ []) as Hne by (intros ->; simpl in Hlen; lia).
  pose proof (sum_exp_pos y Hne) as Hpos.
  rewrite <- Hlen at 1.
  split; [apply (log_prob_all {| nn.logits := y |})|]. cbn [nn.logits].
  split; [by rewrite length_map|].
  split; [|split; [by apply softmax_sums_to_one|]].
  - apply Forall_forall. intros lp Hlp.
    apply list_elem_of_fmap in Hlp as (l & -> & Hl).
    apply list_elem_of_lookup in Hl as [a Ha].
    apply log_softmax_nonpos; [done|]. by eapply exp_le_sum.
  - intros a Ha. unfold nn.log_prob. cbn [nn.logits].
    rewrite (proj2 (lookup_ge_None y a)) by lia. reflexivity.
Qed.

Lemma actor_gives_distribution_witness :
  ∃ dist log_probs,
    nn.Actor_forward
      (nn.getattr_module (ModelWrapper.actor (Sample.container 0.99 0.95)))
      [0] = Some dist
    ∧ mapM (M := option) (nn.log_prob dist) (seq 0 2) = Some log_probs
    ∧ length log_probs = 2%nat
    ∧ Forall (λ lp, lp <= 0) log_probs
    ∧ np.sum (map exp log_probs) = 1
    ∧ ∀ a, (2 ≤ a)%nat → nn.log_prob dist a = None.
Proof.
  apply (actor_gives_distribution (Sample.container 0.99 0.95) [0]);
    [apply sample_well_shaped | reflexivity | simpl; lia].
Defined.

(** ** The losses of a training step *)

Section LossFacts.

Lemma mean_nonneg (a : list R) : Forall (λ x, 0 <= x) a → 0 <= np.mean a.
Proof.
  intros Ha. unfold np.mean.
  assert (0 <= np.sum a) as Hsum.
  { induction Ha as [|x a Hx _ IH]; [simpl; lra|].
    cbn [np.sum foldr]. unfold np.sum in IH. lra. }
  destruct a as [|x a]; [simpl; rewrite Rdiv_0_r; lra|].
  apply Rmult_le_pos; [done|]. apply Rlt_le, Rinv_0_lt_compat.
  apply lt_0_INR. simpl. lia.
Qed.

Lemma mean_le (a b : list R) :
  Forall2 Rle a b → np.mean a <= np.mean b.
Proof.
  intros Hab. unfold np.mean.
  rewrite <- (Forall2_length _ _ _ Hab).
  assert (np.sum a <= np.sum b) as Hsum.
  { induction Hab as [|x y a b Hxy _ IH]; [simpl; lra|].
    cbn [np.sum foldr]. unfold np.sum in IH. lra. }
  destruct a as [|x a]; [simpl; rewrite !Rdiv_0_r; lra|].
  apply Rmult_le_compat_r; [|done]. apply Rlt_le, Rinv_0_lt_compat.
  apply lt_0_INR. simpl. lia.
Qed.

Lemma squared_errors_nonneg (target value : list R) :
  Forall (λ x, 0 <= x) (zip_with (λ y v, (y - v) * (y - v)) target value).
Proof.
  revert value. induction target as [|y target IH]; intros [|v value];
    try by constructor.
  cbn [zip_with]. constructor; [|apply IH].
  pose proof (Rle_0_sqr (y - v)) as Hsq. unfold Rsqr in Hsq. exact Hsq.
Qed.

Lemma surrogate_below_unclipped eps (ratio advantage : list R) :
  Forall2 Rle (zip_with (Spec.surrogate eps) ratio advantage)
              (zip_with Rmult ratio advantage).
Proof.
  revert advantage. induction ratio as [|r ratio IH]; intros [|a advantage];
    try by constructor.
  cbn [zip_with]. constructor; [apply Rbasic_fun.Rmin_l|apply IH].
Qed.


(** Above the clip range, with advantages that are not negative, the
    clipped surrogate is [(1 + eps) * advantage] whatever the ratio. *)
Lemma surrogate_saturated eps (ratio advantage : list R) :
  Forall (λ r, 1 + eps <= r) ratio →
  Forall (λ a, 0 <= a) advantage →
  zip_with (Spec.surrogate eps) ratio advantage
  = map (Rmult (1 + eps)) (take (length ratio) advantage).
Proof.
  intros Hratio. revert advantage.
  induction Hratio as [|r ratio Hr _ IH]; intros [|a advantage] Hadv;
    try done.
  apply Forall_cons in Hadv as [Ha Hadv].
  cbn [zip_with length take map]. rewrite IH by done. f_equal.
  unfold Spec.surrogate, Spec.clip.
  pose proof (Rbasic_fun.Rmax_l r (1 - eps)) as Hmax.
  rewrite (Rmin_left (1 + eps) (Rmax r (1 - eps))) by lra.
  rewrite Rmin_right; [lra|]. nra.
Qed.

Lemma sum_scalar_mul c (a : list R) :
  np.sum (map (Rmult c) a) = c * np.sum a.
Proof.
  induction a as [|x a IH]; [simpl; lra|].
  cbn [map np.sum foldr]. unfold np.sum in IH. rewrite IH. lra.
Qed.

End LossFacts.

(** On a well-formed batch of at least one transition the critic loss
    is never negative, and the actor loss is never below the loss
    without clipping, [-mean(ratio * advantage)]. *)
Theorem losses_are_bounded `{External}
    (self : ModelWrapper.t) (batch_state batch_next_state : list (list R))
    (batch_action : list nat) (batch_reward : list R)
    (batch_log_prob : torch.Tensor) (batch_done : list R)
    (preprocess_data : AdvantageTensors.t) (B : nat) :
  well_shaped self →
  state_batch (NUM_STATE (ModelWrapper.config self)) B batch_state →
  (1 ≤ B)%nat →
  length batch_action = B →
  Forall (λ a, (a < NUM_ACTION (ModelWrapper.config self))%nat) batch_action →
  length (torch.val batch_log_prob) = B →
  length (torch.val (AdvantageTensors.advantage preprocess_data)) = B →
  length (torch.val (AdvantageTensors.td_target preprocess_data)) = B →
  ∃ new_log_prob self' losses,
    (∀ i s a, batch_state !! i = Some s → batch_action !! i = Some a →
       ∃ dist lp,
         nn.Actor_forward (nn.getattr_module (ModelWrapper.actor self)) s
           = Some dist
         ∧ nn.log_prob dist a = Some lp
         ∧ new_log_prob !! i = Some lp)
    ∧ ModelWrapper.train_model self batch_state batch_next_state batch_action
        batch_reward batch_log_prob batch_done preprocess_data
      = Some (self', losses)
    ∧ 0 <= torch.item (critic_loss losses)
    ∧ - np.mean (zip_with Rmult
                   (map exp (zip_with Rminus new_log_prob
                                      (torch.val batch_log_prob)))
                   (torch.val (AdvantageTensors.advantage preprocess_data)))
      <= torch.item (actor_loss losses).
Proof.
  intros Hshaped Hstates HB Hactions Hsupport Hold Hadvantage Htarget.
  destruct (train_model_spec self batch_state batch_next_state batch_action
              batch_reward batch_done batch_log_prob preprocess_data B
              Hshaped Hstates HB Hactions Hsupport Hold Hadvantage Htarget)
    as (new_log_prob & value & self' & losses & _ & Hpi & _ & _ & Htrain
        & Hal & Hcl).
  exists new_log_prob, self', losses.
  split; [done|]. split; [done|]. rewrite Hal, Hcl. split.
  - apply mean_nonneg, squared_errors_nonneg.
  - unfold Spec.actor_loss. apply Ropp_le_contravar, mean_le.
    apply surrogate_below_unclipped.
Qed.

Lemma losses_are_bounded_witness :
  ∃ new_log_prob self' losses,
    (∀ i s a, [[0]; [0]] !! i = Some s → [0; 1]%nat !! i = Some a →
       ∃ dist lp,
         nn.Actor_forward
           (nn.getattr_module
              (ModelWrapper.actor (Sample.container 0.99 0.95))) s
           = Some dist
         ∧ nn.log_prob dist a = Some lp
         ∧ new_log_prob !! i = Some lp)
    ∧ ModelWrapper.train_model (Sample.container 0.99 0.95)
        [[0]; [0]] [[0]; [0]] [0; 1]%nat [1; 2] (torch.tensor [0; 0]) [0; 1]
        Sample.tensors
      = Some (self', losses)
    ∧ 0 <= torch.item (critic_loss losses)
    ∧ - np.mean (zip_with Rmult
                   (map exp (zip_with Rminus new_log_prob [0; 0])) [1; -1])
      <= torch.item (actor_loss losses).
Proof.
  apply (losses_are_bounded (Sample.container 0.99 0.95)
           [[0]; [0]] [[0]; [0]] [0; 1]%nat [1; 2] (torch.tensor [0; 0])
           [0; 1] Sample.tensors 2%nat);
    [apply sample_well_shaped | apply sample_batch_2 | lia | reflexivity
    | repeat constructor | reflexivity | reflexivity | reflexivity].
Defined.

(** An action outside [0, NUM_ACTION) anywhere in the batch makes
    [train_model] raise, before either optimizer has taken a step. *)
Theorem action_out_of_range_raises `{External}
    (self : ModelWrapper.t) (batch_state batch_next_state : list (list R))
    (batch_action : list nat) (batch_reward : list R)
    (batch_log_prob : torch.Tensor) (batch_done : list R)
    (preprocess_data : AdvantageTensors.t) (B i a : nat) :
  well_shaped self →
  state_batch (NUM_STATE (ModelWrapper.config self)) B batch_state →
  length batch_action = B →
  batch_action !! i = Some a →
  (NUM_ACTION (ModelWrapper.config self) ≤ a)%nat →
  ModelWrapper.train_model self batch_state batch_next_state batch_action
    batch_reward batch_log_prob batch_done preprocess_data = None.
Proof.
  intros [Hactor Hcritic] Hstates Hactions Hi Ha.
  assert (1 ≤ B)%nat as HB
    by (apply lookup_lt_Some in Hi; lia).
  destruct (call_critic_total _ _ _ _ Hcritic Hstates)
    as (value & Hvalue & _ & _).
  destruct (call_actor_total _ _ _ _ _ Hactor Hstates HB)
    as (dists & Hdists & Hdlen & Hwidth & _).
  unfold ModelWrapper.train_model, ModelWrapper.compute_losses.
  destruct (nn.call_critic (ModelWrapper.critic self) batch_state)
    as [rows|]; [|done].
  cbn [mbind option_bind]. rewrite Hdists. cbn [mbind option_bind].
  assert (nn.log_prob_rows dists batch_action = None) as ->; [|done].
  unfold nn.log_prob_rows. rewrite broadcast_aligned by congruence.
  cbn [mbind option_bind]. apply mapM_None_2.
  destruct (lookup_lt_is_Some_2 dists i) as [d Hd].
  { rewrite Hdlen, <- Hactions. by eapply lookup_lt_Some. }
  apply Exists_exists. exists None. split; [|done].
  apply list_elem_of_lookup. exists i.
  rewrite lookup_zip_with, Hd, Hi. cbn [mbind option_bind]. f_equal.
  unfold nn.log_prob. rewrite Forall_lookup in Hwidth.
  rewrite (proj2 (lookup_ge_None (nn.logits d) a)); [done|].
  rewrite (Hwidth _ _ Hd). lia.
Qed.

Lemma action_out_of_range_raises_witness :
  ModelWrapper.train_model (Sample.container 0.99 0.95)
    [[0]; [0]] [[0]; [0]] [0; 2]%nat [1; 2] (torch.tensor [0; 0]) [0; 1]
    Sample.tensors = None.
Proof.
  apply (action_out_of_range_raises (Sample.container 0.99 0.95)
           [[0]; [0]] [[0]; [0]] [0; 2]%nat [1; 2] (torch.tensor [0; 0])
           [0; 1] Sample.tensors 2 1 2);
    [apply sample_well_shaped | apply sample_batch_2 | reflexivity
    | reflexivity | simpl; lia].
Defined.

(** ** Batches collected by the container itself *)





(** A batch of one transition: [preprocess_data] returns the advantage
    0 and the critic's own value as target, and [train_model], given
    tensors that hold these values, reports an actor loss and a critic
    loss of 0. *)
Theorem single_transition_losses_vanish `{External}
    (self : ModelWrapper.t) (s s' : list R) (a : nat) (r d : R)
    (lp : torch.Tensor) (batch : AdvantageTensors.t) :
  well_shaped self →
  length s = NUM_STATE (ModelWrapper.config self) →
  length s' = NUM_STATE (ModelWrapper.config self) →
  (a < NUM_ACTION (ModelWrapper.config self))%nat →
  length (torch.val lp) = 1%nat →
  ∃ v out,
    nn.Critic_forward (nn.getattr_module (ModelWrapper.critic self)) s
      = Some [v]
    ∧ ModelWrapper.preprocess_data self [s] [s'] [a] [r] (torch.val lp) [d]
      = Some out
    ∧ advantage out = [0]
    ∧ td_target out = [0 + v]
    ∧ (torch.val (AdvantageTensors.advantage batch) = advantage out →
       torch.val (AdvantageTensors.td_target batch) = td_target out →
       ∃ self' losses,
         ModelWrapper.train_model self [s] [s'] [a] [r] lp [d] batch
         = Some (self', losses)
         ∧ torch.item (actor_loss losses) = 0
         ∧ torch.item (critic_loss losses) = 0).
Proof.
  intros Hshaped Hs Hs' Ha Hlp.
  assert (state_batch (NUM_STATE (ModelWrapper.config self)) 1 [s]) as Hb
    by (split; [done|by repeat constructor]).
  assert (state_batch (NUM_STATE (ModelWrapper.config self)) 1 [s']) as Hb'
    by (split; [done|by repeat constructor]).
  destruct (preprocess_data_stages self [s] [s'] [a] [r] (torch.val lp) [d] 1
              Hshaped Hb Hb' eq_refl eq_refl)
    as (values & next_values & delta & raw & _ & _ & Hvlen & _ & Hvalues & _
        & _ & _ & _ & Hlen & _ & Hout).
  destruct raw as [|x [|]]; try done. rewrite normalize_single in Hout.
  destruct values as [|v [|]]; try done.
  destruct (Hvalues 0%nat s eq_refl) as (v0 & Hv0 & [= <-]).
  exists v, {| advantage := [0]; td_target := zip_with Rplus [0] [v] |}.
  split; [done|]. split; [done|]. split; [done|]. split; [done|].
  cbn [advantage td_target zip_with]. intros Hadv Htd.
  destruct (train_model_spec self [s] [s'] [a] [r] [d] lp batch 1
              Hshaped Hb ltac:(lia) eq_refl ltac:(by repeat constructor) Hlp
              ltac:(by rewrite Hadv) ltac:(by rewrite Htd))
    as (new_log_prob & value & self' & losses & Hnlen & _ & Hvallen & Hval
        & Htrain & Hal & Hcl).
  destruct new_log_prob as [|lp' [|]]; try done.
  destruct value as [|v' [|]]; try done.
  destruct (Hval 0%nat s eq_refl) as (v1 & Hv1 & [= <-]).
  assert (v' = v) as -> by congruence.
  exists self', losses. split; [done|]. rewrite Hal, Hcl, Hadv, Htd.
  destruct (torch.val lp) as [|old [|]]; try done.
  unfold Spec.actor_loss, Spec.critic_loss, Spec.surrogate, np.mean.
  cbn. rewrite !Rmult_0_r, Rmin_left by lra. split; field.
Qed.

Lemma single_transition_losses_vanish_witness :
  ∃ self' losses,
    ModelWrapper.train_model (Sample.container 0.99 0.95)
      [[0]] [[0]] [1%nat] [5] (torch.tensor [0]) [1]
      {| AdvantageTensors.advantage := torch.tensor [0];
         AdvantageTensors.td_target := torch.tensor [0 + 0] |}
    = Some (self', losses)
    ∧ torch.item (actor_loss losses) = 0
    ∧ torch.item (critic_loss losses) = 0.
Proof.
  destruct (single_transition_losses_vanish (Sample.container 0.99 0.95)
              [0] [0] 1 5 1 (torch.tensor [0])
              {| AdvantageTensors.advantage := torch.tensor [0];
                 AdvantageTensors.td_target := torch.tensor [0 + 0] |})
    as (v & out & Hv & _ & Hadv & Htd & Hrun);
    [apply sample_well_shaped | reflexivity | reflexivity | simpl; lia
    | reflexivity |].
  apply Hrun; [by rewrite Hadv|]. rewrite Htd.
  unfold nn.Critic_forward in Hv.
  cbn [Sample.container ModelWrapper.critic nn.getattr_module] in Hv.
  unfold nn.Critic in Hv.
  rewrite (zero_network_forward 1 1 [0]) in Hv by reflexivity.
  by injection Hv as <-.
Defined.

Lemma sample_actor_forward gamma lambda :
  nn.Actor_forward
    (nn.getattr_module (ModelWrapper.actor (Sample.container gamma lambda)))
    [0]
  = Some {| nn.logits := [0; 0] |}.
Proof.
  unfold nn.Actor_forward. cbn [Sample.container ModelWrapper.actor
    nn.getattr_module]. unfold nn.Actor.
  by rewrite (zero_network_forward 1 2 [0]).
Qed.



(** On a well-formed batch of at least one transition where every
    ratio is at or above [1 + EPS_CLIP] and no advantage is negative,
    the actor loss is [-(1 + EPS_CLIP) * mean(advantage)]: it no longer
    depends on how far the policy has moved. *)
Theorem clipped_loss_saturates `{External}
    (self : ModelWrapper.t) (batch_state batch_next_state : list (list R))
    (batch_action : list nat) (batch_reward : list R)
    (batch_log_prob : torch.Tensor) (batch_done : list R)
    (preprocess_data : AdvantageTensors.t) (B : nat) :
  well_shaped self →
  state_batch (NUM_STATE (ModelWrapper.config self)) B batch_state →
  (1 ≤ B)%nat →
  length batch_action = B →
  Forall (λ a, (a < NUM_ACTION (ModelWrapper.config self))%nat) batch_action →
  length (torch.val batch_log_prob) = B →
  length (torch.val (AdvantageTensors.advantage preprocess_data)) = B →
  length (torch.val (AdvantageTensors.td_target preprocess_data)) = B →
  Forall (λ A, 0 <= A)
         (torch.val (AdvantageTensors.advantage preprocess_data)) →
  (∀ i s a old dist lp,
     batch_state !! i = Some s → batch_action !! i = Some a →
     torch.val batch_log_prob !! i = Some old →
     nn.Actor_forward (nn.getattr_module (ModelWrapper.actor self)) s
       = Some dist →
     nn.log_prob dist a = Some lp →
     1 + EPS_CLIP (ModelWrapper.config self) <= exp (lp - old)) →
  ∃ self' losses,
    ModelWrapper.train_model self batch_state batch_next_state batch_action
      batch_reward batch_log_prob batch_done preprocess_data
    = Some (self', losses)
    ∧ torch.item (actor_loss losses)
      = - ((1 + EPS_CLIP (ModelWrapper.config self))
           * np.mean (torch.val
                        (AdvantageTensors.advantage preprocess_data))).
Proof.
  intros Hshaped Hstates HB Hactions Hsupport Hold Hadvantage Htarget Hpos
    Hratio.
  destruct (train_model_spec self batch_state batch_next_state batch_action
              batch_reward batch_done batch_log_prob preprocess_data B
              Hshaped Hstates HB Hactions Hsupport Hold Hadvantage Htarget)
    as (new_log_prob & value & self' & losses & Hlen & Hpi & _ & _ & Htrain
        & Hal & _).
  exists self', losses. split; [done|]. rewrite Hal.
  unfold Spec.actor_loss. rewrite surrogate_saturated; [|
    |done].
  - rewrite length_map, length_zip_with, Hlen, Hold, Nat.min_id.
    rewrite take_ge by lia.
    unfold np.mean. rewrite sum_scalar_mul, length_map.
    unfold Rdiv. ring.
  - apply Forall_lookup. intros i rho Hrho.
    rewrite list_lookup_fmap, lookup_zip_with in Hrho.
    destruct (new_log_prob !! i) as [lp|] eqn:Hlp; [|done].
    destruct (torch.val batch_log_prob !! i) as [old|] eqn:Hold_i; [|done].
    cbn in Hrho. injection Hrho as <-.
    destruct (lookup_lt_is_Some_2 batch_state i) as [s Hs].
    { destruct Hstates as [-> _]. rewrite <- Hold. by eapply lookup_lt_Some. }
    destruct (lookup_lt_is_Some_2 batch_action i) as [a Ha].
    { rewrite Hactions, <- Hold. by eapply lookup_lt_Some. }
    destruct (Hpi i s a Hs Ha) as (dist & lp' & Hdist & Hlog & Hnew).
    assert (lp' = lp) as -> by congruence.
    by eapply Hratio.
Qed.

Lemma clipped_loss_saturates_witness :
  let old := 0 - ln (np.sum (map exp [0; 0])) - 1 in
  ∃ self' losses,
    ModelWrapper.train_model (Sample.container 0.99 0.95)
      [[0]; [0]] [[0]; [0]] [0; 1]%nat [1; 2] (torch.tensor [old; old])
      [0; 1]
      {| AdvantageTensors.advantage := torch.tensor [1; 3];
         AdvantageTensors.td_target := torch.tensor [1; 2] |}
    = Some (self', losses)
    ∧ torch.item (actor_loss losses) = - ((1 + 0.2) * np.mean [1; 3]).
Proof.
  cbn zeta.
  apply (clipped_loss_saturates (Sample.container 0.99 0.95)
           [[0]; [0]] [[0]; [0]] [0; 1]%nat [1; 2] (torch.tensor _) [0; 1]
           {| AdvantageTensors.advantage := torch.tensor [1; 3];
              AdvantageTensors.td_target := torch.tensor [1; 2] |} 2%nat);
    [apply sample_well_shaped | apply sample_batch_2 | lia | reflexivity
    | repeat constructor | reflexivity | reflexivity | reflexivity
    | repeat constructor; simpl; lra |].
  intros i s a old dist lp Hs Ha Hold Hdist Hlp.
  assert (s = [0]) as ->.
  { destruct i as [|[|i]]; try discriminate Hs; by injection Hs as <-. }
  rewrite sample_actor_forward in Hdist. injection Hdist as <-.
  assert (old = 0 - ln (np.sum (map exp [0; 0])) - 1) as ->.
  { destruct i as [|[|i]]; try discriminate Hold; by injection Hold as <-. }
  assert (lp = 0 - ln (np.sum (map exp [0; 0]))) as ->.
  { unfold nn.log_prob in Hlp. cbn [nn.logits] in Hlp.
    destruct a as [|[|a]]; try discriminate Hlp; by injection Hlp as <-. }
  replace (0 - ln (np.sum (map exp [0; 0]))
           - (0 - ln (np.sum (map exp [0; 0])) - 1)) with 1 by ring.
  pose proof (exp_ineq1 1 ltac:(lra)). simpl. lra.
Defined.

(** ** The worker *)

(** [prepare_model] wraps the container's own networks each time, so a
    second call leaves the worker exactly as the first did: no wrapper is
    ever wrapped again. *)
Theorem prepare_model_twice `{External} (self : Worker.t) :
  Worker.prepare_model (Worker.prepare_model self)
  = Worker.prepare_model self.
Proof.
  unfold Worker.prepare_model, ModelWrapper.get_model.
  cbn [foldl fst snd]. unfold Worker.setattr.
  cbn [Worker.model Worker.attributes Worker.model_path Worker.config
       Worker.learning_rate Worker.env].
  f_equal. apply map_eq. intros k.
  destruct (decide (k = "critic"%string)) as [->|Hc].
  { by rewrite !lookup_insert_eq. }
  rewrite !(lookup_insert_ne _ "critic"%string) by done.
  destruct (decide (k = "actor"%string)) as [->|Ha].
  { by rewrite !lookup_insert_eq. }
  by rewrite !lookup_insert_ne by done.
Qed.

(** A worker that has saved its model can be constructed again from the
    file: whatever the fresh networks' initial weights, the new worker
    holds the saved networks, unwrapped, and none of the attributes that
    [prepare_model] had set. *)
Theorem worker_restarts_from_its_checkpoint `{External}
    (self : Worker.t) (init_actor init_critic : nn.Init)
    (fs : gmap string file) (printed : list string) (path : string)
    (lr : R) :
  well_shaped (Worker.model self) →
  ∃ self',
    Worker.__init__ init_actor init_critic (Worker.save_model self path fs)
      printed path (ModelWrapper.config (Worker.model self)) lr
    = (printed ++ ["Model loaded successfully at " +:+ path +:+ "."],
       Ok self')
    ∧ ModelWrapper.actor (Worker.model self')
      = nn.Plain (nn.getattr_module (ModelWrapper.actor (Worker.model self)))
    ∧ ModelWrapper.critic (Worker.model self')
      = nn.Plain (nn.getattr_module (ModelWrapper.critic (Worker.model self)))
    ∧ Worker.attributes self' = ∅.
Proof.
  intros [Hactor Hcritic].
  set (config := ModelWrapper.config (Worker.model self)) in *.
  set (a := nn.getattr_module (ModelWrapper.actor (Worker.model self))) in *.
  set (c := nn.getattr_module (ModelWrapper.critic (Worker.model self))) in *.
  destruct (load_model_well_formed
              (Worker.save_model self path fs) path
              (<["actor"%string := nn.state_dict "" a]>
                 (<["critic"%string := nn.state_dict "" c]> ∅))
              (nn.state_dict "" a) (nn.state_dict "" c)
              (ModelWrapper.blank init_actor init_critic lr config) printed)
    as (m & k & Hm & Hpm & Hk & Hpk & Hload).
  { apply lookup_insert_eq. }
  { apply lookup_insert_eq. }
  { apply same_shapes_fit. rewrite Hactor.
    apply (blank_well_shaped init_actor init_critic lr config). }
  { rewrite lookup_insert_ne by done. apply lookup_insert_eq. }
  { apply same_shapes_fit. rewrite Hcritic.
    apply (blank_well_shaped init_actor init_critic lr config). }
  assert (m = nn.Plain a) as ->.
  { destruct m as [m|m]; [|done]. f_equal. by apply state_dict_inj. }
  assert (k = nn.Plain c) as ->.
  { destruct k as [k|k]; [|done]. f_equal. by apply state_dict_inj. }
  unfold Worker.__init__, ModelWrapper.__init__. rewrite Hload.
  eexists. split; [reflexivity|]. by repeat split.
Qed.

Lemma worker_restarts_from_its_checkpoint_witness :
  ∃ self',
    @Worker.__init__ Sample.external (Sample.ones 1 2) (Sample.ones 1 1)
      (Worker.save_model Sample.worker "model.pt" ∅)
      [] "model.pt"
      (ModelWrapper.config (Worker.model Sample.worker)) 0.001
    = ([] ++ ["Model loaded successfully at " +:+ "model.pt" +:+ "."],
       Ok self')
    ∧ ModelWrapper.actor (Worker.model self')
      = nn.Plain (nn.getattr_module
                    (ModelWrapper.actor
                       (Worker.model Sample.worker)))
    ∧ ModelWrapper.critic (Worker.model self')
      = nn.Plain (nn.getattr_module
                    (ModelWrapper.critic
                       (Worker.model Sample.worker)))
    ∧ Worker.attributes self' = ∅.
Proof.
  apply (worker_restarts_from_its_checkpoint Sample.worker
           (Sample.ones 1 2) (Sample.ones 1 1) ∅ [] "model.pt" 0.001).
  apply sample_well_shaped.
Defined.
